(** * Salesforce source of connectors-py: a shallow embedding

    The development follows [connectors/sources/salesforce.py]:
    - Python values that come out of [response.json()] are modelled by [json];
    - the exceptions of the module by [exception];
    - the query builder [SalesforceSoqlBuilder] by a record and its methods;
    - the document mapper [SalesforceDocMapper] by functions on [json];
    - the client ([SalesforceClient], [SalesforceAPIToken]) by a state and
      error monad over [client_state], the remote party being an [env]. *)

From Stdlib Require Import String List ZArith Bool Ascii DecimalString Lia.
Import ListNotations.
Open Scope string_scope.

(** ** Python values *)

(** What [json.loads] returns: [None], [bool], [int], [str], [list], [dict]
    (string keys, in insertion order).  Floating point numbers are left out.
    A [string] stands for the Python [str] with the same code points: a
    character of the model is a code point from 0 to 255, so the texts of
    the model are those of Latin-1. *)
#[warnings="-register-all"]
Inductive json : Type :=
| JNull
| JBool (b : bool)
| JNum (z : Z)
| JStr (s : string)
| JArr (items : list json)
| JObj (entries : list (string * json)).

Module Py.

(** [bool(x)] *)
Definition truthy (x : json) : bool :=
  match x with
  | JNull => false
  | JBool b => b
  | JNum z => negb (z =? 0)%Z
  | JStr s => negb (s =? "")
  | JArr l => match l with [] => false | _ => true end
  | JObj l => match l with [] => false | _ => true end
  end.

(** [x is True] *)
Definition is_True (x : json) : bool :=
  match x with JBool true => true | _ => false end.

(** [s == x] for a string [s]: only a string equals a string. *)
Definition str_eq (s : string) (x : json) : bool :=
  match x with JStr t => s =? t | _ => false end.

(** [b == x] for a boolean [b]: [True == 1] and [False == 0] hold in Python. *)
Definition bool_eq (b : bool) (x : json) : bool :=
  match x with
  | JBool c => Bool.eqb b c
  | JNum z => (z =? (if b then 1 else 0))%Z
  | _ => false
  end.

(** [s in l] and [b in l] on a list: some element compares equal. *)
Definition str_in (s : string) (l : list json) : bool := existsb (str_eq s) l.
Definition bool_in (b : bool) (l : list json) : bool := existsb (bool_eq b) l.

(** [s in l] for a list of strings. *)
Definition mem (s : string) (l : list string) : bool := existsb (String.eqb s) l.

(** [str(n)] for an integer. *)
Definition str_of_Z (z : Z) : string := NilZero.string_of_int (Z.to_int z).

Definition hex_digit (n : nat) : ascii :=
  match n with
  | 0 => "0" | 1 => "1" | 2 => "2" | 3 => "3" | 4 => "4" | 5 => "5" | 6 => "6"
  | 7 => "7" | 8 => "8" | 9 => "9" | 10 => "a" | 11 => "b" | 12 => "c"
  | 13 => "d" | 14 => "e" | _ => "f"
  end%char.

Fixpoint contains_char (c : ascii) (s : string) : bool :=
  match s with
  | EmptyString => false
  | String d r => Ascii.eqb c d || contains_char c r
  end.

(** [c.isprintable()] for a code point below 256: the control characters
    (0 to 31 and 127 to 159), the no-break space (160) and the soft hyphen
    (173) are not printable. *)
Definition printable (n : nat) : bool :=
  ((32 <=? n) && (n <? 127) || (161 <=? n) && negb (n =? 173))%nat.

(** The body of [repr(s)]: the quote and the backslash are escaped, [\t],
    [\n] and [\r] are written so, and every other character that is not
    printable is written [\xhh]. *)
Fixpoint repr_chars (quote : ascii) (s : string) : string :=
  match s with
  | EmptyString => EmptyString
  | String c r =>
      let n := nat_of_ascii c in
      let rest := repr_chars quote r in
      if Ascii.eqb c quote || Ascii.eqb c "\"%char then String "\"%char (String c rest)
      else if n =? 9 then "\t" ++ rest
      else if n =? 10 then "\n" ++ rest
      else if n =? 13 then "\r" ++ rest
      else if negb (printable n) then
        "\x" ++ String (hex_digit (n / 16)) (String (hex_digit (n mod 16)) rest)
      else String c rest
  end%nat.

(** [repr(s)]: single quotes, unless [s] has a single quote and no double
    quote. *)
Definition repr_str (s : string) : string :=
  let quote :=
    if contains_char "'"%char s && negb (contains_char (ascii_of_nat 34) s)
    then ascii_of_nat 34 else "'"%char in
  String quote (repr_chars quote s ++ String quote EmptyString).

(** [repr(x)] *)
Fixpoint repr (x : json) : string :=
  match x with
  | JNull => "None"
  | JBool true => "True"
  | JBool false => "False"
  | JNum z => str_of_Z z
  | JStr s => repr_str s
  | JArr l => "[" ++ String.concat ", " (map repr l) ++ "]"
  | JObj l =>
      "{" ++ String.concat ", "
               (map (fun kv => repr_str (fst kv) ++ ": " ++ repr (snd kv)) l)
          ++ "}"
  end.

(** [str(x)], which is also what an f-string field [{x}] renders. *)
Definition str (x : json) : string :=
  match x with
  | JStr s => s
  | _ => repr x
  end.

(** [s.lower()]: the capital letters below code point 256 are [A] to [Z]
    (65 to 90) and the accented capitals 192 to 222 without the
    multiplication sign (215); the small letter of each is 32 further on. *)
Definition lower_char (c : ascii) : ascii :=
  let n := nat_of_ascii c in
  if ((65 <=? n) && (n <=? 90)
      || (192 <=? n) && (n <=? 222) && negb (n =? 215))%nat
  then ascii_of_nat (n + 32) else c.

Fixpoint lower (s : string) : string :=
  match s with
  | EmptyString => EmptyString
  | String c r => String (lower_char c) (lower r)
  end.

(** [s.replace(old, new)] *)
Fixpoint replace_fuel (fuel : nat) (old new s : string) : string :=
  match fuel with
  | O => s
  | S k =>
      match s with
      | EmptyString => EmptyString
      | String c r =>
          if String.prefix old s
          then new ++ replace_fuel k old new
                        (substring (String.length old) (String.length s) s)
          else String c (replace_fuel k old new r)
      end
  end.

Definition replace (old new s : string) : string :=
  replace_fuel (S (String.length s)) old new s.

(** Lookup in a dict: the first entry of the key. *)
Fixpoint lookup (k : string) (d : list (string * json)) : option json :=
  match d with
  | [] => None
  | (k', v) :: r => if k =? k' then Some v else lookup k r
  end.

(** [d[k] = v]: the entry is replaced where the key exists and appended
    otherwise. *)
Fixpoint set_item (k : string) (v : json) (d : list (string * json))
  : list (string * json) :=
  match d with
  | [] => [(k, v)]
  | (k', v') :: r => if k =? k' then (k, v) :: r else (k', v') :: set_item k v r
  end.

End Py.

(** The line feed, written [\n] in the source. *)
Definition nl : string := String (ascii_of_nat 10) EmptyString.

(** ** Exceptions *)

Inductive exc_class : Type :=
| RateLimitedException
| RequestRefusedException
| InvalidQueryException
| InvalidCredentialsException
| TokenFetchException
| RequestError
| LockedException
| KeyError
| TypeError
| AttributeError
| OtherError.

Definition exc_class_eqb (a b : exc_class) : bool :=
  match a, b with
  | RateLimitedException, RateLimitedException
  | RequestRefusedException, RequestRefusedException
  | InvalidQueryException, InvalidQueryException
  | InvalidCredentialsException, InvalidCredentialsException
  | TokenFetchException, TokenFetchException
  | RequestError, RequestError
  | LockedException, LockedException
  | KeyError, KeyError
  | TypeError, TypeError
  | AttributeError, AttributeError
  | OtherError, OtherError => true
  | _, _ => false
  end.

(** An exception value: aiohttp's [ClientResponseError] with its [status]
    and [message], or an exception of one of the other classes with its
    message. *)
Inductive exception : Type :=
| ClientResponseError (status : Z) (message : string)
| Exc (cls : exc_class) (message : string).

(** [e.__class__ in classes], for the classes a retry policy skips. *)
Definition class_in (e : exception) (classes : list exc_class) : bool :=
  match e with
  | ClientResponseError _ _ => false
  | Exc c _ => existsb (exc_class_eqb c) classes
  end.

(** The outcome of a call: a value, a raised exception, or [OutOfFuel] for
    the loops of the model that are bounded by a fuel argument. *)
Inductive result (A : Type) : Type :=
| Ok (a : A)
| Raise (e : exception)
| OutOfFuel.
Arguments Ok {A} a.
Arguments Raise {A} e.
Arguments OutOfFuel {A}.

Definition rbind {A B} (r : result A) (f : A -> result B) : result B :=
  match r with
  | Ok a => f a
  | Raise e => Raise e
  | OutOfFuel => OutOfFuel
  end.

Declare Scope result_scope.
Delimit Scope result_scope with result.
Notation "'let*' x ':=' c 'in' k" := (rbind c (fun x => k))
  (at level 61, x name, c at next level, right associativity) : result_scope.

(** [x.get(k, default)]: only a dict has the method. *)
Definition py_get (x : json) (k : string) (default : json) : result json :=
  match x with
  | JObj d => Ok (match Py.lookup k d with Some v => v | None => default end)
  | _ => Raise (Exc AttributeError "object has no attribute 'get'")
  end.

(** [x[k]] for a string key. *)
Definition py_getitem (x : json) (k : string) : result json :=
  match x with
  | JObj d =>
      match Py.lookup k d with
      | Some v => Ok v
      | None => Raise (Exc KeyError (Py.repr_str k))
      end
  | _ => Raise (Exc TypeError "indices must be integers or object is not subscriptable")
  end.

(** [sep.join(l)]: every item has to be a [str]. *)
Fixpoint py_strings (l : list json) : result (list string) :=
  match l with
  | [] => Ok []
  | JStr s :: r => rbind (py_strings r) (fun r' => Ok (s :: r'))
  | _ :: _ => Raise (Exc TypeError "sequence item: expected str instance")
  end.

Definition py_join (sep : string) (l : list json) : result string :=
  rbind (py_strings l) (fun ss => Ok (String.concat sep ss)).

(** ** Constants of the module *)

Definition RETRIES : nat := 3.
Definition RETRY_INTERVAL : nat := 1.

Definition BASE_URL : string := "https://<domain>.my.salesforce.com".
Definition API_VERSION : string := "v58.0".
Definition TOKEN_ENDPOINT : string := "/services/oauth2/token".
Definition QUERY_ENDPOINT : string := "/services/data/" ++ API_VERSION ++ "/query".
Definition DESCRIBE_ENDPOINT : string := "/services/data/" ++ API_VERSION ++ "/sobjects".
Definition DESCRIBE_SOBJECT_ENDPOINT : string :=
  "/services/data/" ++ API_VERSION ++ "/sobjects/<sobject>/describe".

Definition RELEVANT_SOBJECTS : list string :=
  ["Account"; "Contact"; "Lead"; "Opportunity"; "User"].

Definition RELEVANT_SOBJECT_FIELDS : list string :=
  ["AccountId"; "BillingAddress"; "Company"; "ConvertedAccountId";
   "ConvertedContactId"; "ConvertedDate"; "ConvertedOpportunityId";
   "Department"; "Description"; "Email"; "LeadSource"; "Name"; "OwnerId";
   "Phone"; "PhotoUrl"; "Rating"; "StageName"; "Status"; "Title"; "Type";
   "Website"].

(** ** SalesforceSoqlBuilder *)

Record SalesforceSoqlBuilder : Type := mkBuilder {
  table_name : string;
  fields : list string;
  where_ : string;
  order_by : string;
  limit : string
}.

Module Builder.

(** [__init__] *)
Definition init (table : string) : SalesforceSoqlBuilder :=
  mkBuilder table [] "" "" "".

Definition set_fields (b : SalesforceSoqlBuilder) (fs : list string) :=
  mkBuilder (table_name b) fs (where_ b) (order_by b) (limit b).

Definition with_id (b : SalesforceSoqlBuilder) : SalesforceSoqlBuilder :=
  set_fields b (fields b ++ ["Id"]).

Definition with_default_metafields (b : SalesforceSoqlBuilder) :=
  set_fields b (fields b ++ ["CreatedDate"; "LastModifiedDate"]).

Definition with_fields (fs : list string) (b : SalesforceSoqlBuilder) :=
  set_fields b (fields b ++ fs).

Definition with_where (where_string : string) (b : SalesforceSoqlBuilder) :=
  mkBuilder (table_name b) (fields b) ("WHERE " ++ where_string) (order_by b) (limit b).

Definition with_order_by (order_by_string : string) (b : SalesforceSoqlBuilder) :=
  mkBuilder (table_name b) (fields b) (where_ b) ("ORDER BY " ++ order_by_string) (limit b).

(** [with_limit]: the argument is given as the f-string renders it. *)
Definition with_limit (limit_str : string) (b : SalesforceSoqlBuilder) :=
  mkBuilder (table_name b) (fields b) (where_ b) (order_by b) ("LIMIT " ++ limit_str).

Definition with_join (join : string) (b : SalesforceSoqlBuilder) :=
  set_fields b (fields b ++ ["(" ++ nl ++ join ++ ")" ++ nl]).

Section Build.

(** Python iterates a [set] in an order the language leaves open.
    [set_iter l] is the order in which [set(l)] is iterated. *)
Variable set_iter : list string -> list string.

Definition select_columns (b : SalesforceSoqlBuilder) : string :=
  String.concat ("," ++ nl) (set_iter (fields b)).

Definition query_lines (b : SalesforceSoqlBuilder) : list string :=
  [ "SELECT " ++ select_columns b;
    "FROM " ++ table_name b;
    where_ b;
    order_by b;
    limit b ].

Definition build (b : SalesforceSoqlBuilder) : string :=
  String.concat nl (filter (fun line => negb (line =? "")) (query_lines b)).

End Build.

(** The calls a caller can make on a builder before [build()]. *)
Inductive op : Type :=
| WithId
| WithDefaultMetafields
| WithFields (fs : list string)
| WithWhere (s : string)
| WithOrderBy (s : string)
| WithLimit (s : string)
| WithJoin (join : string).

Definition apply (b : SalesforceSoqlBuilder) (o : op) : SalesforceSoqlBuilder :=
  match o with
  | WithId => with_id b
  | WithDefaultMetafields => with_default_metafields b
  | WithFields fs => with_fields fs b
  | WithWhere s => with_where s b
  | WithOrderBy s => with_order_by s b
  | WithLimit s => with_limit s b
  | WithJoin j => with_join j b
  end.

Definition run (table : string) (ops : list op) : SalesforceSoqlBuilder :=
  fold_left apply ops (init table).

(** The fields the calls add, read off the calls themselves. *)
Definition added (o : op) : list string :=
  match o with
  | WithId => ["Id"]
  | WithDefaultMetafields => ["CreatedDate"; "LastModifiedDate"]
  | WithFields fs => fs
  | WithJoin j => ["(" ++ nl ++ j ++ ")" ++ nl]
  | _ => []
  end.

Definition added_fields (ops : list op) : list string := flat_map added ops.

(** The argument of the last call that set each optional clause. *)
Fixpoint last_where (ops : list op) : option string :=
  match ops with
  | [] => None
  | o :: r =>
      match last_where r, o with
      | Some s, _ => Some s
      | None, WithWhere s => Some s
      | None, _ => None
      end
  end.

Fixpoint last_order_by (ops : list op) : option string :=
  match ops with
  | [] => None
  | o :: r =>
      match last_order_by r, o with
      | Some s, _ => Some s
      | None, WithOrderBy s => Some s
      | None, _ => None
      end
  end.

Fixpoint last_limit (ops : list op) : option string :=
  match ops with
  | [] => None
  | o :: r =>
      match last_limit r, o with
      | Some s, _ => Some s
      | None, WithLimit s => Some s
      | None, _ => None
      end
  end.

(** What is asked of the iteration order of a set: each member once. *)
Definition each_member_once (set_iter : list string -> list string) : Prop :=
  forall l, NoDup (set_iter l) /\ (forall x, In x (set_iter l) <-> In x l).

(** The line of an optional clause: none when the clause was never set. *)
Definition clause_line (keyword : string) (arg : option string) : list string :=
  match arg with
  | None => []
  | Some s => [keyword ++ " " ++ s]
  end.

End Builder.

(** ** More of Python on [json] values *)

(** [len(x)] *)
Definition py_len (x : json) : result nat :=
  match x with
  | JArr l => Ok (List.length l)
  | JObj d => Ok (List.length d)
  | JStr s => Ok (String.length s)
  | _ => Raise (Exc TypeError "object has no len()")
  end.

(** [x[0]] *)
Definition py_first (x : json) : result json :=
  match x with
  | JArr (a :: _) => Ok a
  | JArr [] => Raise (Exc OtherError "IndexError: list index out of range")
  | JStr (String c _) => Ok (JStr (String c EmptyString))
  | JStr EmptyString => Raise (Exc OtherError "IndexError: string index out of range")
  | JObj _ => Raise (Exc KeyError "0")
  | _ => Raise (Exc TypeError "object is not subscriptable")
  end.

Fixpoint chars (s : string) : list json :=
  match s with
  | EmptyString => []
  | String c r => JStr (String c EmptyString) :: chars r
  end.

(** [for x in xs]: the items of a list, the keys of a dict, the characters
    of a string. *)
Definition py_iter (xs : json) : result (list json) :=
  match xs with
  | JArr l => Ok l
  | JObj d => Ok (map (fun kv => JStr (fst kv)) d)
  | JStr s => Ok (chars s)
  | _ => Raise (Exc TypeError "object is not iterable")
  end.

(** [x[k] = v] for a string key. *)
Definition py_setitem (x : json) (k : string) (v : json) : result json :=
  match x with
  | JObj d => Ok (JObj (Py.set_item k v d))
  | _ => Raise (Exc TypeError "object does not support item assignment")
  end.

(** [x in l] for a list [l] of strings. *)
Definition py_in_strings (x : json) (l : list string) : bool :=
  match x with
  | JStr s => Py.mem s l
  | _ => false
  end.

(** [s.lower()] as a method call on a value. *)
Definition py_lower (x : json) : result string :=
  match x with
  | JStr s => Ok (Py.lower s)
  | _ => Raise (Exc AttributeError "object has no attribute 'lower'")
  end.

(** Keys of a dict built by the program: lists and dicts are unhashable;
    [True] and [1] are one key, as are [False] and [0]. *)
Definition py_hashable (k : json) : bool :=
  match k with
  | JArr _ | JObj _ => false
  | _ => true
  end.

Definition py_key_eqb (a b : json) : bool :=
  match a, b with
  | JNull, JNull => true
  | JStr s, JStr t => s =? t
  | JBool c, _ => Py.bool_eq c b
  | _, JBool c => Py.bool_eq c a
  | JNum x, JNum y => (x =? y)%Z
  | _, _ => false
  end.

(** A table of the entity cache: a dict from identifiers to records. *)
Definition table : Type := list (json * json).

Fixpoint table_find (k : json) (t : table) : option json :=
  match t with
  | [] => None
  | (k', v) :: r => if py_key_eqb k k' then Some v else table_find k r
  end.

(** [t.get(k, default)] *)
Definition table_get (t : table) (k : json) (default : json) : result json :=
  if py_hashable k
  then Ok (match table_find k t with Some v => v | None => default end)
  else Raise (Exc TypeError "unhashable type").

Fixpoint table_put (k v : json) (t : table) : table :=
  match t with
  | [] => [(k, v)]
  | (k', v') :: r =>
      if py_key_eqb k k' then (k', v) :: r else (k', v') :: table_put k v r
  end.

(** [t[k] = v] *)
Definition table_set (t : table) (k v : json) : result table :=
  if py_hashable k then Ok (table_put k v t)
  else Raise (Exc TypeError "unhashable type").

(** ** SalesforceDocMapper *)

Module DocMapper.
Section Mapper.
Local Open Scope result_scope.

(** [self.base_url] *)
Variable base_url : string.

Definition _format_address (address : json) : result json :=
  if negb (Py.truthy address) then Ok (JStr "")
  else
    let* street := py_get address "street" JNull in
    let* city := py_get address "city" JNull in
    let* state := py_get address "state" JNull in
    let* postal_code := py_get address "postalCode" (JStr "") in
    let* country := py_get address "country" JNull in
    let address_fields :=
      [street; city; state; JStr (Py.str postal_code); country] in
    let* joined := py_join ", " (filter Py.truthy address_fields) in
    Ok (JStr joined).

Definition map_account (account : json) : result json :=
  let* owner := py_get account "Owner" (JObj []) in
  let* opportunities := py_get account "Opportunities" JNull in
  let* opportunity_records :=
    if Py.truthy opportunities then py_get opportunities "records" (JArr [])
    else Ok (JArr []) in
  let* n := py_len opportunity_records in
  let* opportunity :=
    if (0 <? n)%nat then py_first opportunity_records else Ok (JObj []) in
  let* opportunity_url :=
    if Py.truthy opportunity
    then let* oid := py_get opportunity "Id" JNull in
         Ok (JStr (base_url ++ "/" ++ Py.str oid))
    else Ok (JStr "") in
  let* opportunity_status := py_get opportunity "StageName" (JStr "") in
  let* id := py_get account "Id" JNull in
  let* account_type := py_get account "Type" JNull in
  let* billing := py_get account "BillingAddress" JNull in
  let* address := _format_address billing in
  let* body := py_get account "Description" JNull in
  let* content_source_id := py_get account "Id" JNull in
  let* created_at := py_get account "CreatedDate" JNull in
  let* last_updated := py_get account "LastModifiedDate" JNull in
  let* opportunity_name := py_get opportunity "Name" JNull in
  let* owner_name := py_get owner "Name" JNull in
  let* owner_email := py_get owner "Email" JNull in
  let* rating := py_get account "Rating" JNull in
  let* tag := py_get account "Type" JNull in
  let* title := py_get account "Name" JNull in
  let* url_id := py_get account "Id" JNull in
  let* website_url := py_get account "Website" JNull in
  Ok (JObj
    [ ("_id", id);
      ("account_type", account_type);
      ("address", address);
      ("body", body);
      ("content_source_id", content_source_id);
      ("created_at", created_at);
      ("last_updated", last_updated);
      ("open_activities", JStr "");
      ("open_activities_urls", JStr "");
      ("opportunity_name", opportunity_name);
      ("opportunity_status", opportunity_status);
      ("opportunity_url", opportunity_url);
      ("owner", owner_name);
      ("owner_email", owner_email);
      ("rating", rating);
      ("source", JStr "salesforce");
      ("tags", JArr [tag]);
      ("title", title);
      ("type", JStr "account");
      ("url", JStr (base_url ++ "/" ++ Py.str url_id));
      ("website_url", website_url) ]).

Definition map_opportunity (opportunity : json) : result json :=
  let* owner := py_get opportunity "Owner" (JObj []) in
  let* id := py_get opportunity "Id" JNull in
  let* body := py_get opportunity "Description" JNull in
  let* content_source_id := py_get opportunity "Id" JNull in
  let* created_at := py_get opportunity "CreatedDate" JNull in
  let* last_updated := py_get opportunity "LastModifiedDate" JNull in
  let* next_step := py_get opportunity "NextStep" JNull in
  let* owner_name := py_get owner "Name" JNull in
  let* owner_email := py_get owner "Email" JNull in
  let* status := py_get opportunity "StageName" (JStr "") in
  let* title := py_get opportunity "Name" JNull in
  let* url_id := py_get opportunity "Id" JNull in
  Ok (JObj
    [ ("_id", id);
      ("body", body);
      ("content_source_id", content_source_id);
      ("created_at", created_at);
      ("last_updated", last_updated);
      ("next_step", next_step);
      ("owner", owner_name);
      ("owner_email", owner_email);
      ("source", JStr "salesforce");
      ("status", status);
      ("title", title);
      ("type", JStr "opportunity");
      ("url", JStr (base_url ++ "/" ++ Py.str url_id)) ]).

(** [f"{self.base_url}/{x}" if x else default] *)
Definition url_if (x default : json) : json :=
  if Py.truthy x then JStr (base_url ++ "/" ++ Py.str x) else default.

(** [f"{self.base_url}{photo_url}" if photo_url else default] *)
Definition thumbnail_if (photo_url default : json) : json :=
  if Py.truthy photo_url then JStr (base_url ++ Py.str photo_url) else default.

Definition map_contact (contact : json) : result json :=
  let* account := py_get contact "Account" (JObj []) in
  let* account_id := py_get contact "AccountId" (JStr "") in
  let account_url := url_if account_id (JStr "") in
  let* owner := py_get contact "Owner" (JObj []) in
  let* owner_id := py_get contact "OwnerId" (JStr "") in
  let owner_url := url_if owner_id (JStr "") in
  let* photo_url := py_get contact "PhotoUrl" JNull in
  let thumbnail := thumbnail_if photo_url (JStr "") in
  let* id := py_get contact "Id" JNull in
  let* account_name := py_get account "Name" JNull in
  let* body := py_get contact "Description" JNull in
  let* email := py_get contact "Email" JNull in
  let* job_title := py_get contact "Title" JNull in
  let* last_updated := py_get contact "LastModifiedDate" JNull in
  let* lead_source := py_get contact "LeadSource" JNull in
  let* owner_name := py_get owner "Name" JNull in
  let* phone := py_get contact "Phone" JNull in
  let* title := py_get contact "Name" JNull in
  let* url_id := py_get contact "Id" JNull in
  Ok (JObj
    [ ("_id", id);
      ("account", account_name);
      ("account_url", account_url);
      ("body", body);
      ("email", email);
      ("job_title", job_title);
      ("last_updated", last_updated);
      ("lead_source", lead_source);
      ("owner", owner_name);
      ("owner_url", owner_url);
      ("phone", phone);
      ("source", JStr "salesforce");
      ("thumbnail", thumbnail);
      ("title", title);
      ("type", JStr "contact");
      ("url", JStr (base_url ++ "/" ++ Py.str url_id)) ]).

Definition map_lead (lead : json) : result json :=
  let* owner := py_get lead "Owner" (JObj []) in
  let* owner_id := py_get lead "OwnerId" (JStr "") in
  let owner_url := url_if owner_id (JStr "") in
  let* converted_account := py_get lead "ConvertedAccount" (JObj []) in
  let* converted_account_id := py_get converted_account "Id" JNull in
  let converted_account_url := url_if converted_account_id JNull in
  let* converted_contact := py_get lead "ConvertedContact" (JObj []) in
  (* the source reads [converted_account] here *)
  let* converted_contact_id := py_get converted_account "Id" JNull in
  let converted_contact_url := url_if converted_contact_id JNull in
  let* converted_opportunity := py_get lead "ConvertedOpportunity" (JObj []) in
  let* converted_opportunity_id := py_get converted_opportunity "Id" JNull in
  let converted_opportunity_url := url_if converted_opportunity_id JNull in
  let* photo_url := py_get lead "PhotoUrl" JNull in
  let thumbnail := thumbnail_if photo_url JNull in
  let* id := py_get lead "Id" JNull in
  let* body := py_get lead "Description" JNull in
  let* company := py_get lead "Company" JNull in
  let* converted_account_name := py_get converted_account "Name" JNull in
  let* converted_at := py_get lead "ConvertedDate" JNull in
  let* converted_contact_name := py_get converted_contact "Name" JNull in
  let* converted_opportunity_name := py_get converted_opportunity "Name" JNull in
  let* email := py_get lead "Email" JNull in
  let* job_title := py_get lead "Title" JNull in
  let* last_updated := py_get lead "LastModifiedDate" JNull in
  let* lead_source := py_get lead "LeadSource" JNull in
  let* owner_name := py_get owner "Name" JNull in
  let* phone := py_get lead "Phone" JNull in
  let* rating := py_get lead "Rating" JNull in
  let* status := py_get lead "Status" JNull in
  let* title := py_get lead "Name" JNull in
  let* url_id := py_get lead "Id" JNull in
  Ok (JObj
    [ ("_id", id);
      ("body", body);
      ("company", company);
      ("converted_account", converted_account_name);
      ("converted_account_url", converted_account_url);
      ("converted_at", converted_at);
      ("converted_contact", converted_contact_name);
      ("converted_contact_url", converted_contact_url);
      ("converted_opportunity", converted_opportunity_name);
      ("converted_opportunity_url", converted_opportunity_url);
      ("email", email);
      ("job_title", job_title);
      ("last_updated", last_updated);
      ("lead_source", lead_source);
      ("owner", owner_name);
      ("owner_url", owner_url);
      ("phone", phone);
      ("rating", rating);
      ("source", JStr "salesforce");
      ("status", status);
      ("title", title);
      ("thumbnail", thumbnail);
      ("type", JStr "lead");
      ("url", JStr (base_url ++ "/" ++ Py.str url_id)) ]).

End Mapper.
End DocMapper.

(** ** The records the mapper is meant for, and its defaults *)

Module MapperDomain.

(** The value a record has for a key, [default] when the key is absent. *)
Definition field (record : list (string * json)) (k : string) (default : json) : json :=
  match Py.lookup k record with Some v => v | None => default end.

(** A reference sub-record (Owner, Account, ...) is absent or an object. *)
Definition sub_record_ok (record : list (string * json)) (k : string) : bool :=
  match Py.lookup k record with
  | None | Some (JObj _) => true
  | _ => false
  end.

(** A part of an address is absent, empty or a string. *)
Definition address_part_ok (address : list (string * json)) (k : string) : bool :=
  match Py.lookup k address with
  | None | Some (JStr _) => true
  | Some v => negb (Py.truthy v)
  end.

(** [BillingAddress] is absent, empty, or an object of such parts. *)
Definition address_ok (record : list (string * json)) : bool :=
  match Py.lookup "BillingAddress" record with
  | None => true
  | Some (JObj a) =>
      address_part_ok a "street" && address_part_ok a "city"
      && address_part_ok a "state" && address_part_ok a "country"
  | Some v => negb (Py.truthy v)
  end.

(** [Opportunities] is absent, empty, or an object whose [records] are
    absent or a list that starts, if it is not empty, with an object. *)
Definition opportunities_ok (record : list (string * json)) : bool :=
  match Py.lookup "Opportunities" record with
  | None => true
  | Some (JObj o) =>
      match Py.lookup "records" o with
      | None | Some (JArr []) | Some (JArr (JObj _ :: _)) => true
      | _ => false
      end
  | Some v => negb (Py.truthy v)
  end.

Definition account_ok (r : list (string * json)) : bool :=
  sub_record_ok r "Owner" && opportunities_ok r && address_ok r.
Definition opportunity_ok (r : list (string * json)) : bool :=
  sub_record_ok r "Owner".
Definition contact_ok (r : list (string * json)) : bool :=
  sub_record_ok r "Account" && sub_record_ok r "Owner".
Definition lead_ok (r : list (string * json)) : bool :=
  sub_record_ok r "Owner" && sub_record_ok r "ConvertedAccount"
  && sub_record_ok r "ConvertedContact" && sub_record_ok r "ConvertedOpportunity".








End MapperDomain.

(** ** The remote party and the client's state *)

(** A request as the client hands it to the HTTP session: [session.get(url,
    headers=..., params=...)] or [session.post(url, data=...)]. *)
Record request : Type := mkRequest {
  req_url : json;
  req_headers : list (string * string);
  req_payload : json
}.

(** What comes back for one request.  [Failed e]: the call raised [e] and
    there is no response.  [Response status reason body]: a response with
    its status line, [body] being what [await response.json()] gives (the
    parsed body, or the exception of a body that is not JSON). *)
Inductive body_outcome : Type :=
| Parsed (b : json)
| Unparsed (e : exception).

Inductive exchange : Type :=
| Failed (e : exception)
| Response (status : Z) (reason : string) (body : body_outcome).

(** The remote party: the answer to the [n]-th GET and to the [n]-th POST
    of the session (counted from 0). *)
Record env : Type := mkEnv {
  http_get : nat -> request -> exchange;
  http_post : nat -> request -> exchange
}.

Inductive log_level : Type := Debug | Info | Warning.

(** What the client does to the outside, in order. *)
Inductive event : Type :=
| EvGet (r : request)
| EvPost (r : request)
| EvSleep (seconds : nat)
| EvLog (level : log_level) (message : string)
| EvYield (doc : json).

Definition is_get (ev : event) : bool :=
  match ev with EvGet _ => true | _ => false end.
Definition is_post (ev : event) : bool :=
  match ev with EvPost _ => true | _ => false end.

Record configuration : Type := mkConfiguration {
  domain : string;
  client_id : string;
  client_secret : string
}.

(** The mutable attributes of [SalesforceClient] and of its
    [SalesforceAPIToken], with the events so far (oldest first).
    [None]/[JNull] stand for Python's [None]. *)
Record client_state : Type := mkState {
  _token : json;
  lock : bool;
  _queryable_sobjects : option (list string);
  _queryable_sobject_fields : option (list (string * list string));
  _sobjects_cache_by_type : option (list (string * table));
  trace : list event
}.

Definition initial_state : client_state :=
  mkState JNull false None None None [].

Definition set_token (t : json) (s : client_state) : client_state :=
  mkState t (lock s) (_queryable_sobjects s) (_queryable_sobject_fields s)
          (_sobjects_cache_by_type s) (trace s).
Definition set_lock (b : bool) (s : client_state) : client_state :=
  mkState (_token s) b (_queryable_sobjects s) (_queryable_sobject_fields s)
          (_sobjects_cache_by_type s) (trace s).
Definition set_queryable_sobjects (q : option (list string)) (s : client_state) :=
  mkState (_token s) (lock s) q (_queryable_sobject_fields s)
          (_sobjects_cache_by_type s) (trace s).
Definition set_queryable_sobject_fields
  (q : option (list (string * list string))) (s : client_state) :=
  mkState (_token s) (lock s) (_queryable_sobjects s) q
          (_sobjects_cache_by_type s) (trace s).
Definition set_sobjects_cache (c : option (list (string * table))) (s : client_state) :=
  mkState (_token s) (lock s) (_queryable_sobjects s)
          (_queryable_sobject_fields s) c (trace s).
Definition emit (ev : event) (s : client_state) : client_state :=
  mkState (_token s) (lock s) (_queryable_sobjects s)
          (_queryable_sobject_fields s) (_sobjects_cache_by_type s)
          (trace s ++ [ev]).

Definition gets (s : client_state) : list event := filter is_get (trace s).
Definition posts (s : client_state) : list event := filter is_post (trace s).

(** ** The state and error monad of the client *)

Definition M (A : Type) : Type := client_state -> result A * client_state.

Definition ret {A} (a : A) : M A := fun s => (Ok a, s).
Definition raise {A} (e : exception) : M A := fun s => (Raise e, s).
Definition out_of_fuel {A} : M A := fun s => (OutOfFuel, s).
Definition lift {A} (r : result A) : M A := fun s => (r, s).

Definition bind {A B} (c : M A) (k : A -> M B) : M B :=
  fun s =>
    match c s with
    | (Ok a, s') => k a s'
    | (Raise e, s') => (Raise e, s')
    | (OutOfFuel, s') => (OutOfFuel, s')
    end.

Definition get_state : M client_state := fun s => (Ok s, s).
Definition modify (f : client_state -> client_state) : M unit :=
  fun s => (Ok tt, f s).
Definition log (level : log_level) (message : string) : M unit :=
  modify (emit (EvLog level message)).

(** [try: c  except Exception as e: handler(e)] *)
Definition try_except {A} (c : M A) (handler : exception -> M A) : M A :=
  fun s =>
    match c s with
    | (Raise e, s') => handler e s'
    | other => other
    end.

(** [try: c  finally: f] *)
Definition try_finally {A} (c : M A) (f : client_state -> client_state) : M A :=
  fun s => let (r, s') := c s in (r, f s').

Declare Scope client_scope.
Delimit Scope client_scope with client.
Notation "x <- c ;; k" := (bind c (fun x => k))
  (at level 61, c at next level, right associativity) : client_scope.
Notation "c ;; k" := (bind c (fun _ => k))
  (at level 61, right associativity) : client_scope.

(** [for x in xs: body x], stopping at the first exception. *)
Fixpoint for_each {A} (xs : list A) (body : A -> M unit) : M unit :=
  match xs with
  | [] => ret tt
  | x :: r => bind (body x) (fun _ => for_each r body)
  end.

(** Modelled from the spec: the decorator [retryable] of [connectors.utils],
    which is not among the sources.  The spec gives it a fixed budget of
    attempts ([retries], 3 for this client), a fixed delay between attempts
    ([interval]) and a list of exception classes that are excluded from the
    retry and raised at once.  [retry_loop more] makes one attempt and has
    [more] further ones left. *)
Fixpoint retry_loop {A} (more : nat) (interval : nat)
  (skipped_exceptions : list exc_class) (func : M A) : M A :=
  fun s =>
    match func s with
    | (Raise e, s') =>
        match more with
        | O => (Raise e, s')
        | S k =>
            if class_in e skipped_exceptions then (Raise e, s')
            else retry_loop k interval skipped_exceptions func
                   (emit (EvSleep interval) s')
        end
    | other => other
    end.

Definition retryable {A} (retries : nat) (interval : nat)
  (skipped_exceptions : list exc_class) (func : M A) : M A :=
  retry_loop (Nat.pred retries) interval skipped_exceptions func.

(** aiohttp, for [response = await session.get/post(...)],
    [response_body = await response.json()], [response.raise_for_status()]
    in a row: the value of the variable [response_body] afterwards (it
    keeps [initial] when the body was not read) and how the three calls end;
    [raise_for_status] raises [ClientResponseError] from status 400 on. *)
Definition request_json (x : exchange) (initial : json) : json * result json :=
  match x with
  | Failed e => (initial, Raise e)
  | Response status reason body =>
      match body with
      | Parsed b =>
          if (400 <=? status)%Z
          then (b, Raise (ClientResponseError status reason))
          else (b, Ok b)
      | Unparsed e => (initial, Raise e)
      end
  end.

(** The request [_get] sends in state [s]. *)
Definition get_request (s : client_state) (url params : json) : request :=
  mkRequest url [("authorization", "Bearer " ++ Py.str (_token s))] params.

(** The state after [_get]: its debug line, then the request. *)
Definition after_get (s : client_state) (url params : json) : client_state :=
  emit (EvGet (get_request s url params))
    (emit (EvLog Debug
             ("Sending request. Url: " ++ Py.str url ++ ", params: " ++ Py.str params))
          s).

(** The exceptions [_get_json] does not retry. *)
Definition not_retried (e : exception) : Prop :=
  exists message,
    e = Exc RateLimitedException message \/ e = Exc InvalidQueryException message.

(** ** SalesforceAPIToken and SalesforceClient *)

Section Client.
Local Open Scope client_scope.

Variable configuration_ : configuration.
Variable world : env.
(** The iteration order of [set(...)] in [SalesforceSoqlBuilder.build]. *)
Variable set_iter : list string -> list string.

Definition base_url : string :=
  Py.replace "<domain>" (domain configuration_) BASE_URL.

(** *** SalesforceAPIToken *)

Definition token_url : string := base_url ++ TOKEN_ENDPOINT.

Definition token_payload : json :=
  JObj [ ("grant_type", JStr "client_credentials");
         ("client_id", JStr (client_id configuration_));
         ("client_secret", JStr (client_secret configuration_)) ].

(** The request [generate] posts. *)
Definition token_request : request :=
  mkRequest (JStr token_url) [] token_payload.

(** The answer of the token endpoint to the POST that [generate] makes in
    state [s]. *)
Definition token_answer (s : client_state) : exchange :=
  http_post world (List.length (posts s)) token_request.

Definition token : M json := fun s => (Ok (_token s), s).

Definition clear : M unit := modify (set_token JNull).

(** [session.post(self.url, data=self.token_payload)] *)
Definition session_post (r : request) : M exchange :=
  fun s => (Ok (http_post world (List.length (posts s)) r), emit (EvPost r) s).

(** [_non_blocking_lock] as used by [with]: the exception when the lock is
    taken, else the body between [acquire] and [release]. *)
Definition _non_blocking_lock {A} (body : M A) : M A :=
  fun s =>
    if lock s
    then (Raise (Exc LockedException "Token generation is already running."), s)
    else try_finally body (set_lock false) (set_lock true s).

Definition generate : M unit :=
  _non_blocking_lock
    (x <- session_post token_request ;;
     match request_json x (JObj []) with
     | (response_body, Ok _) =>
         access_token <- lift (py_getitem response_body "access_token") ;;
         modify (set_token access_token)
     | (response_body, Raise (ClientResponseError status message)) =>
         if ((400 <=? status) && (status <? 500))%Z
         then
           error_message <-
             lift (py_get response_body "error" (JStr "No error dscription found.")) ;;
           if Py.str_eq "invalid_client" error_message
           then raise (Exc InvalidCredentialsException
                  ("The `client_id` and `client_secret` provided could not be used to generate a token. Status: "
                   ++ Py.str_of_Z status ++ ", message: " ++ message
                   ++ ", details: " ++ Py.str error_message))
           else raise (Exc TokenFetchException
                  ("Could not fetch token from Salesforce: Status: "
                   ++ Py.str_of_Z status ++ ", message: " ++ message
                   ++ ", details: " ++ Py.str error_message))
         else raise (Exc TokenFetchException
                ("Unexpected error while fetching Salesforce token. Status: "
                 ++ Py.str_of_Z status ++ ", message: " ++ message))
     | (_, Raise e) => raise e
     | (_, OutOfFuel) => out_of_fuel
     end).

(** *** SalesforceClient *)

(** The body of [get_token]; every path of its [while True] leaves the loop
    in the first round. *)
Definition get_token_once : M unit :=
  try_except generate
    (fun e =>
       match e with
       | Exc LockedException _ =>
           log Debug "Token generation is already in process."
       | _ => raise e
       end).

Definition get_token : M unit :=
  retryable RETRIES RETRY_INTERVAL [InvalidCredentialsException] get_token_once.

Definition _auth_headers : M (list (string * string)) :=
  t <- token ;;
  ret [("authorization", "Bearer " ++ Py.str t)].

Definition _get (url params : json) : M exchange :=
  log Debug ("Sending request. Url: " ++ Py.str url ++ ", params: " ++ Py.str params) ;;
  headers <- _auth_headers ;;
  fun s =>
    let r := mkRequest url headers params in
    (Ok (http_get world (List.length (gets s)) r), emit (EvGet r) s).

Definition _handle_response_body_error (error_list : json) : result json :=
  match error_list with
  | JNull => Ok (JArr [JObj [("errorCode", JStr "unknown")]])
  | _ =>
      rbind (py_len error_list) (fun n =>
        if (n <? 1)%nat then Ok (JArr [JObj [("errorCode", JStr "unknown")]])
        else Ok error_list)
  end.

(** [[x[key] for x in errors]] *)
Fixpoint items_of (key : string) (errors : list json) : result (list json) :=
  match errors with
  | [] => Ok []
  | x :: r =>
      rbind (py_getitem x key) (fun c =>
      rbind (items_of key r) (fun cs => Ok (c :: cs)))
  end.

(** The [elif 400 <= e.status < 500] branch of
    [_handle_client_response_error]: the exception it ends with. *)
Definition client_error_4xx (response_body : json) (exception_details : string)
  : result exception :=
  (let* errors := _handle_response_body_error response_body in
   let* error_items := py_iter errors in
   let* error_codes := items_of "errorCode" error_items in
   if Py.str_in "REQUEST_LIMIT_EXCEEDED" error_codes then
     let* details := py_join ", " error_codes in
     Ok (Exc RateLimitedException
           ("Salesforce is rate limiting this account. " ++ exception_details
            ++ ", details: " ++ details))
   else if Py.bool_in
             (existsb (fun error => Py.str_in error error_codes)
                      ["INVALID_FIELD"; "INVALID_TERM"; "MALFORMED_QUERY"])
             error_codes then
     let* details := py_join ", " error_codes in
     let* messages := items_of "message" error_items in
     let* query := py_join ", " messages in
     Ok (Exc InvalidQueryException
           ("The query was rejected by Salesforce. " ++ exception_details
            ++ ", details: " ++ details ++ ", query: " ++ query))
   else
     let* details := py_join ", " error_codes in
     Ok (Exc RequestError
           ("The request to Salesforce failed. " ++ exception_details
            ++ ", details: " ++ details)))%result.

(** [_handle_client_response_error(response_body, e)] for
    [e = ClientResponseError(status, message)].  Every path raises: the
    value is the exception the call ends with. *)
Definition _handle_client_response_error
  (response_body : json) (status : Z) (message : string) : M unit :=
  let exception_details :=
    "status: " ++ Py.str_of_Z status ++ ", message: " ++ message in
  if (status =? 401)%Z then
    log Warning ("Token expired, attemping to fetch new token. Status: "
                 ++ Py.str_of_Z status ++ ", message: " ++ message) ;;
    clear ;;
    get_token ;;
    raise (ClientResponseError status message)
  else if ((400 <=? status) && (status <? 500))%Z then
    e <- lift (client_error_4xx response_body exception_details) ;;
    raise e
  else raise (ClientResponseError status message).

(** The body of [_get_json], one attempt: the first round of its
    [while True].  A second round would start only if the handler of
    [ClientResponseError] returned; it always raises (see
    [_handle_client_response_error_raises]), and the model gives
    [OutOfFuel] for that round. *)
Definition _get_json_once (url params : json) : M json :=
  x <- _get url params ;;
  match request_json x JNull with
  | (_, Ok response_body) => ret response_body
  | (response_body, Raise (ClientResponseError status message)) =>
      _handle_client_response_error response_body status message ;;
      out_of_fuel
  | (_, Raise e) => raise e
  | (_, OutOfFuel) => out_of_fuel
  end.

Definition _get_json (url params : json) : M json :=
  retryable RETRIES RETRY_INTERVAL
    [RateLimitedException; InvalidQueryException]
    (_get_json_once url params).

(** [queryable_sobjects]: the attribute is set to the empty list before the
    loop and grows with it. *)
Definition append_queryable_sobject (name : string) (s : client_state) :=
  set_queryable_sobjects
    (Some ((match _queryable_sobjects s with Some l => l | None => [] end) ++ [name])%list) s.

Definition queryable_sobjects : M (list string) :=
  s <- get_state ;;
  match _queryable_sobjects s with
  | Some cached => ret cached
  | None =>
      response <- _get_json (JStr (base_url ++ DESCRIBE_ENDPOINT)) JNull ;;
      modify (set_queryable_sobjects (Some [])) ;;
      listed <- lift (py_get response "sobjects" (JArr [])) ;;
      sobjects <- lift (py_iter listed) ;;
      for_each sobjects (fun sobject =>
        queryable <- lift (py_getitem sobject "queryable") ;;
        if Py.is_True queryable then
          name <- lift (py_getitem sobject "name") ;;
          if py_in_strings name RELEVANT_SOBJECTS then
            name' <- lift (py_getitem sobject "name") ;;
            lowered <- lift (py_lower name') ;;
            modify (append_queryable_sobject lowered)
          else ret tt
        else ret tt) ;;
      s' <- get_state ;;
      ret (match _queryable_sobjects s' with Some l => l | None => [] end)
  end.

Definition _is_queryable (sobject : string) : M bool :=
  queryable <- queryable_sobjects ;;
  ret (Py.mem (Py.lower sobject) queryable).

(** [[f["name"].lower() for f in fields if f["name"] in RELEVANT_SOBJECT_FIELDS]] *)
Fixpoint relevant_field_names (fields : list json) : result (list string) :=
  match fields with
  | [] => Ok []
  | f :: r =>
      (let* name := py_getitem f "name" in
       if py_in_strings name RELEVANT_SOBJECT_FIELDS then
         let* name' := py_getitem f "name" in
         let* lowered := py_lower name' in
         let* rest := relevant_field_names r in
         Ok (lowered :: rest)
       else relevant_field_names r)%result
  end.

Fixpoint assoc_set {V} (k : string) (v : V) (d : list (string * V)) : list (string * V) :=
  match d with
  | [] => [(k, v)]
  | (k', v') :: r => if k =? k' then (k, v) :: r else (k', v') :: assoc_set k v r
  end.

Fixpoint assoc_find {V} (k : string) (d : list (string * V)) : option V :=
  match d with
  | [] => None
  | (k', v) :: r => if k =? k' then Some v else assoc_find k r
  end.

Definition put_queryable_sobject_fields (sobject : string) (fs : list string)
  (s : client_state) :=
  set_queryable_sobject_fields
    (Some (assoc_set sobject fs
             (match _queryable_sobject_fields s with Some d => d | None => [] end))) s.

Definition queryable_sobject_fields : M (list (string * list string)) :=
  s <- get_state ;;
  match _queryable_sobject_fields s with
  | Some cached => ret cached
  | None =>
      modify (set_queryable_sobject_fields (Some [])) ;;
      for_each RELEVANT_SOBJECTS (fun sobject =>
        let endpoint := Py.replace "<sobject>" sobject DESCRIBE_SOBJECT_ENDPOINT in
        response <- _get_json (JStr (base_url ++ endpoint)) JNull ;;
        listed <- lift (py_get response "fields" (JArr [])) ;;
        fields <- lift (py_iter listed) ;;
        queryable_fields <- lift (relevant_field_names fields) ;;
        modify (put_queryable_sobject_fields sobject queryable_fields)) ;;
      s' <- get_state ;;
      ret (match _queryable_sobject_fields s' with Some d => d | None => [] end)
  end.

Definition _select_queryable_fields (sobject : string) (fields : list string)
  : M (list string) :=
  sobject_fields <- queryable_sobject_fields ;;
  let queryable_fields :=
    match assoc_find sobject sobject_fields with Some l => l | None => [] end in
  ret (filter (fun f => Py.mem (Py.lower f) queryable_fields) fields).

(** *** Pages of a query *)

(** Where the generator [_yield_non_bulk_query_pages] stands: not started,
    or suspended at its [yield] with the response it has in hand. *)
Inductive page_cursor : Type :=
| AtStart (soql_query : string)
| AfterYield (response : json).

Definition _yield_non_bulk_query_pages (soql_query : string) : page_cursor :=
  AtStart soql_query.

(** One pass of the loop body up to the [yield]. *)
Definition fetch_page (url params : json) : M (option (json * page_cursor)) :=
  response <- _get_json url params ;;
  records <- lift (py_get response "records" JNull) ;;
  ret (Some (records, AfterYield response)).

(** Resuming the generator: [Some (records, cursor)] at the next [yield],
    [None] when it returns. *)
Definition next_page (cursor : page_cursor) : M (option (json * page_cursor)) :=
  match cursor with
  | AtStart soql_query =>
      fetch_page (JStr (base_url ++ QUERY_ENDPOINT)) (JObj [("q", JStr soql_query)])
  | AfterYield response =>
      done <- lift (py_get response "done" (JBool true)) ;;
      if Py.is_True done then ret None
      else
        url <- lift (py_get response "nextRecordsUrl" JNull) ;;
        fetch_page url JNull
  end.

(** [async for records in <generator>: acc = body records acc]; [fuel]
    bounds the number of times the generator is resumed. *)
Fixpoint fold_pages {A} (fuel : nat) (cursor : page_cursor)
  (body : json -> A -> M A) (acc : A) : M A :=
  match fuel with
  | O => out_of_fuel
  | S k =>
      step <- next_page cursor ;;
      match step with
      | None => ret acc
      | Some (records, cursor') =>
          acc' <- body records acc ;;
          fold_pages k cursor' body acc'
      end
  end.

(** The batches a consumer receives when it drains the generator. *)
Definition collect (records : json) (acc : list json) : M (list json) :=
  ret (acc ++ [records])%list.

Definition stream_pages (fuel : nat) (soql_query : string) : M (list json) :=
  fold_pages fuel (_yield_non_bulk_query_pages soql_query) collect [].

(** A page of the query endpoint, as the entries of its JSON object. *)
Definition page : Type := list (string * json).

Definition page_records (p : page) : json :=
  match Py.lookup "records" p with Some v => v | None => JNull end.

(** The page ends the sequence: [done] is [true], or there is no [done]. *)
Definition page_done (p : page) : bool :=
  match Py.lookup "done" p with Some v => Py.is_True v | None => true end.

Definition page_next (p : page) : json :=
  match Py.lookup "nextRecordsUrl" p with Some v => v | None => JNull end.

(** The first request carries the query text as [q]; the request after page
    [p] goes to the URL [p] gave and carries no parameters. *)
Definition first_request (s : client_state) (soql_query : string) : request :=
  get_request s (JStr (base_url ++ QUERY_ENDPOINT)) (JObj [("q", JStr soql_query)]).

Definition next_request (s : client_state) (p : page) : request :=
  get_request s (page_next p) JNull.

(** The pages [p :: tail] in the order served: every page but the last is
    not done, the last one is. *)
Fixpoint ends_at_last (p : page) (tail : list page) : Prop :=
  match tail with
  | [] => page_done p = true
  | p' :: tail' => page_done p = false /\ ends_at_last p' tail'
  end.

Fixpoint next_requests (s : client_state) (p : page) (tail : list page) : list request :=
  match tail with
  | [] => []
  | p' :: tail' => next_request s p :: next_requests s p' tail'
  end.

(** From its [n]-th GET on, the remote party answers the requests [reqs],
    in this order, with the pages [pages] and a status below 400. *)
Fixpoint answered (n : nat) (reqs : list request) (pages : list page) : Prop :=
  match reqs, pages with
  | [], [] => True
  | r :: reqs', p :: pages' =>
      (exists status reason,
         (status < 400)%Z /\
         http_get world n r = Response status reason (Parsed (JObj p))) /\
      answered (S n) reqs' pages'
  | _, _ => False
  end.

(** *** The entity cache *)

Fixpoint cache_records (records : list json) (sobjects : table) : result table :=
  match records with
  | [] => Ok sobjects
  | record :: r =>
      (let* id := py_getitem record "Id" in
       let* sobjects' := table_set sobjects id record in
       cache_records r sobjects')%result
  end.

Definition _prepare_sobject_cache (fuel : nat) (sobject : string) : M table :=
  queryable <- _is_queryable sobject ;;
  if negb queryable then
    log Info (sobject ++ " is not queryable, so they won't be cached.") ;;
    ret []
  else
    let queryable_fields :=
      (["Name"] ++ (if Py.mem sobject ["User"; "Contact"; "Lead"] then ["Email"] else []))%list in
    let query_builder :=
      Builder.with_fields queryable_fields (Builder.with_id (Builder.init sobject)) in
    let query := Builder.build set_iter query_builder in
    fold_pages fuel (_yield_non_bulk_query_pages query)
      (fun records sobjects =>
         items <- lift (py_iter records) ;;
         lift (cache_records items sobjects))
      [].

Definition put_sobjects_cache (sobject : string) (t : table) (s : client_state) :=
  set_sobjects_cache
    (Some (assoc_set sobject t
             (match _sobjects_cache_by_type s with Some d => d | None => [] end))) s.

Definition sobjects_cache_by_type (fuel : nat) : M (list (string * table)) :=
  s <- get_state ;;
  match _sobjects_cache_by_type s with
  | Some cached => ret cached
  | None =>
      modify (set_sobjects_cache (Some [])) ;;
      account <- _prepare_sobject_cache fuel "Account" ;;
      modify (put_sobjects_cache "Account" account) ;;
      contact <- _prepare_sobject_cache fuel "Contact" ;;
      modify (put_sobjects_cache "Contact" contact) ;;
      opportunity <- _prepare_sobject_cache fuel "Opportunity" ;;
      modify (put_sobjects_cache "Opportunity" opportunity) ;;
      user <- _prepare_sobject_cache fuel "User" ;;
      modify (put_sobjects_cache "User" user) ;;
      s' <- get_state ;;
      ret (match _sobjects_cache_by_type s' with Some d => d | None => [] end)
  end.

(** *** Queries and entity fetches that use the cache *)

Definition _contacts_query : M string :=
  queryable_fields <-
    _select_queryable_fields "Contact"
      ["Name"; "Description"; "Email"; "Phone"; "Title"; "PhotoUrl";
       "LeadSource"; "AccountId"; "OwnerId"] ;;
  ret (Builder.build set_iter
         (Builder.with_fields queryable_fields
            (Builder.with_default_metafields
               (Builder.with_id (Builder.init "Contact"))))).

Definition _leads_query : M string :=
  queryable_fields <-
    _select_queryable_fields "Lead"
      ["Company"; "ConvertedAccountId"; "ConvertedContactId"; "ConvertedDate";
       "ConvertedOpportunityId"; "Description"; "Email"; "LeadSource"; "Name";
       "OwnerId"; "Phone"; "PhotoUrl"; "Rating"; "Status"; "Title"] ;;
  ret (Builder.build set_iter
         (Builder.with_fields queryable_fields
            (Builder.with_default_metafields
               (Builder.with_id (Builder.init "Lead"))))).

(** [sobjects_by_id[sobject]] *)
Definition cache_table (sobjects_by_id : list (string * table)) (sobject : string)
  : result table :=
  match assoc_find sobject sobjects_by_id with
  | Some t => Ok t
  | None => Raise (Exc KeyError (Py.repr_str sobject))
  end.

(** [record[key] = sobjects_by_id[sobject].get(record.get(id_field), {})] *)
Definition resolve (sobjects_by_id : list (string * table)) (record : json)
  (key sobject id_field : string) : result json :=
  (let* t := cache_table sobjects_by_id sobject in
   let* id := py_get record id_field JNull in
   let* found := table_get t id (JObj []) in
   py_setitem record key found)%result.

(** [get_contacts]; each [yield] is an event of the trace. *)
Definition get_contacts (fuel : nat) : M unit :=
  queryable <- _is_queryable "Contact" ;;
  if negb queryable then
    log Info "ObjectContact is not queryable, so they won't be ingested."
  else
    query <- _contacts_query ;;
    fold_pages fuel (_yield_non_bulk_query_pages query)
      (fun records _ =>
         items <- lift (py_iter records) ;;
         for_each items (fun record =>
           sobjects_by_id <- sobjects_cache_by_type fuel ;;
           record1 <- lift (resolve sobjects_by_id record "Account" "Account" "AccountId") ;;
           record2 <- lift (resolve sobjects_by_id record1 "Owner" "User" "OwnerId") ;;
           doc <- lift (DocMapper.map_contact base_url record2) ;;
           modify (emit (EvYield doc))))
      tt.

Definition get_leads (fuel : nat) : M unit :=
  queryable <- _is_queryable "Lead" ;;
  if negb queryable then
    log Info "Object Lead is not queryable, so they won't be ingested."
  else
    query <- _leads_query ;;
    fold_pages fuel (_yield_non_bulk_query_pages query)
      (fun records _ =>
         items <- lift (py_iter records) ;;
         for_each items (fun record =>
           sobjects_by_id <- sobjects_cache_by_type fuel ;;
           record1 <- lift (resolve sobjects_by_id record "Owner" "User" "OwnerId") ;;
           record2 <- lift (resolve sobjects_by_id record1
                              "ConvertedAccount" "Account" "ConvertedAccountId") ;;
           record3 <- lift (resolve sobjects_by_id record2
                              "ConvertedContact" "Contact" "ConvertedContactId") ;;
           record4 <- lift (resolve sobjects_by_id record3
                              "ConvertedOpportunity" "Opportunity" "ConvertedOpportunityId") ;;
           doc <- lift (DocMapper.map_lead base_url record4) ;;
           modify (emit (EvYield doc))))
      tt.

End Client.

(** ** The remaining queries and entity fetches, and the data source *)

Section Orchestrator.
Local Open Scope client_scope.

Variable configuration_ : configuration.
Variable world : env.
Variable set_iter : list string -> list string.

Definition _accounts_query : M string :=
  queryable_fields <-
    _select_queryable_fields configuration_ world "Account"
      ["Name"; "Description"; "BillingAddress"; "Type"; "Website"; "Rating";
       "Department"] ;;
  let query_builder :=
    Builder.with_fields ["Parent.Id"; "Parent.Name"]
      (Builder.with_fields ["Owner.Id"; "Owner.Name"; "Owner.Email"]
         (Builder.with_fields queryable_fields
            (Builder.with_default_metafields
               (Builder.with_id (Builder.init "Account"))))) in
  opportunity_queryable <- _is_queryable configuration_ world "Opportunity" ;;
  if opportunity_queryable then
    queryable_join_fields <-
      _select_queryable_fields configuration_ world "Opportunity"
        ["Name"; "StageName"] ;;
    let join_builder :=
      Builder.with_limit "1"
        (Builder.with_order_by "CreatedDate DESC"
           (Builder.with_fields queryable_join_fields
              (Builder.with_id (Builder.init "Opportunities")))) in
    ret (Builder.build set_iter
           (Builder.with_join (Builder.build set_iter join_builder) query_builder))
  else ret (Builder.build set_iter query_builder).

Definition _opportunities_query : M string :=
  queryable_fields <-
    _select_queryable_fields configuration_ world "Opportunity"
      ["Name"; "Description"; "StageName"] ;;
  ret (Builder.build set_iter
         (Builder.with_fields ["Owner.Id"; "Owner.Name"; "Owner.Email"]
            (Builder.with_fields queryable_fields
               (Builder.with_default_metafields
                  (Builder.with_id (Builder.init "Opportunity")))))).

(** [for record in records: yield mapper(record)] for one page. *)
Definition yield_mapped (mapper : json -> result json) (records : json) : M unit :=
  items <- lift (py_iter records) ;;
  for_each items (fun record =>
    doc <- lift (mapper record) ;;
    modify (emit (EvYield doc))).

Definition get_accounts (fuel : nat) : M unit :=
  queryable <- _is_queryable configuration_ world "Account" ;;
  if negb queryable then
    log Info "Object Account is not queryable, so they won't be ingested."
  else
    query <- _accounts_query ;;
    fold_pages configuration_ world fuel (_yield_non_bulk_query_pages query)
      (fun records _ =>
         yield_mapped (DocMapper.map_account (base_url configuration_)) records)
      tt.

Definition get_opportunities (fuel : nat) : M unit :=
  queryable <- _is_queryable configuration_ world "Opportunity" ;;
  if negb queryable then
    log Info "ObjectOpportunity is not queryable, so they won't be ingested."
  else
    query <- _opportunities_query ;;
    fold_pages configuration_ world fuel (_yield_non_bulk_query_pages query)
      (fun records _ =>
         yield_mapped (DocMapper.map_opportunity (base_url configuration_)) records)
      tt.

(** [SalesforceClient.get_docs]: the four fetches in a row.  It passes each
    document on as the pair [(doc, None)]; the trace keeps the document. *)
Definition get_docs (fuel : nat) : M unit :=
  get_accounts fuel ;;
  get_opportunities fuel ;;
  get_contacts configuration_ world set_iter fuel ;;
  get_leads configuration_ world set_iter fuel.

(** [SalesforceDataSource.get_docs]: the token first, then the documents of
    the client. *)
Definition data_source_get_docs (fuel : nat) : M unit :=
  get_token configuration_ world ;;
  get_docs fuel.

End Orchestrator.

(** ** What a computation leaves untouched *)

(** [c] never changes the part [part] of the state, however it ends. *)
Definition preserves {A X} (part : client_state -> X) (c : M A) : Prop :=
  forall s, part (snd (c s)) = part s.

(** ** Error bodies and describe listings, as the remote party sends them *)

(** The error entries [errors] carry the string codes [codes], in order. *)
Definition error_codes_are (errors : list (list (string * json))) (codes : list string)
  : Prop :=
  Forall2 (fun entries code => Py.lookup "errorCode" entries = Some (JStr code))
          errors codes.

(** The body of a 4xx answer with the entries [errors]. *)
Definition error_body (errors : list (list (string * json))) : json :=
  JArr (map JObj errors).

(** The codes the client reads from a body: [unknown] when there is none. *)
Definition codes_or_unknown (codes : list string) : list string :=
  match codes with [] => ["unknown"] | _ => codes end.

(** The [error] entry of the body of a token answer; only an object has
    one. *)
Definition error_field (body : json) : option json :=
  match body with
  | JObj entries => Py.lookup "error" entries
  | _ => None
  end.

(** The body is a JSON object. *)
Definition is_object (body : json) : Prop := exists entries, body = JObj entries.

(** The delays in the trace. *)
Definition is_sleep (ev : event) : bool :=
  match ev with EvSleep _ => true | _ => false end.
Definition sleeps (s : client_state) : list event := filter is_sleep (trace s).

(** One of the codes is a code of a rejected query. *)
Definition has_invalid_query_code (codes : list string) : Prop :=
  exists code,
    In code ["INVALID_FIELD"; "INVALID_TERM"; "MALFORMED_QUERY"] /\ In code codes.

(** An exception of the class [cls]. *)
Definition has_class (cls : exc_class) (e : exception) : Prop :=
  exists message, e = Exc cls message.

(** The name under which an entry of the describe listing makes its type
    queryable for the client, if it does. *)
Definition listed_as_queryable (item : list (string * json)) : list string :=
  match Py.lookup "queryable" item, Py.lookup "name" item with
  | Some (JBool true), Some (JStr name) =>
      if Py.mem name RELEVANT_SOBJECTS then [Py.lower name] else []
  | _, _ => []
  end.

(** An entry of the describe listing has both keys the client reads. *)
Definition described (item : list (string * json)) : Prop :=
  Py.lookup "queryable" item <> None /\ Py.lookup "name" item <> None.

(** The text of a part of an address: a string as it is, nothing for a part
    that is absent or empty. *)
Definition part_text (address : list (string * json)) (k : string) : string :=
  match Py.lookup k address with
  | Some (JStr t) => t
  | _ => ""
  end.

(** The parts of an address in the order [_format_address] lists them; the
    postal code as [str] renders it. *)
Definition address_parts (address : list (string * json)) : list string :=
  [ part_text address "street"; part_text address "city";
    part_text address "state";
    Py.str (match Py.lookup "postalCode" address with
            | Some v => v | None => JStr "" end);
    part_text address "country" ].

(** The records [records] carry the string identifiers [ids], in order. *)
Definition ids_are (records : list json) (ids : list string) : Prop :=
  Forall2 (fun record id => py_getitem record "Id" = Ok (JStr id)) records ids.

(** What every document says about where it comes from: the source, the
    type tag, the identifier of the record and the link back to it. *)
Definition provenance (base tag : string) (record doc : list (string * json)) : Prop :=
  Py.lookup "source" doc = Some (JStr "salesforce") /\
  Py.lookup "type" doc = Some (JStr tag) /\
  Py.lookup "_id" doc = Some (MapperDomain.field record "Id" JNull) /\
  Py.lookup "url" doc =
    Some (JStr (base ++ "/" ++ Py.str (MapperDomain.field record "Id" JNull))).

(** The batches the pages [pages] yield are the lists [batches]. *)
Definition batches_are (pages : list page) (batches : list (list json)) : Prop :=
  Forall2 (fun p batch => page_records p = JArr batch) pages batches.

(** The query that builds the cache table of [sobject]. *)
Definition cache_query (set_iter : list string -> list string) (sobject : string)
  : string :=
  Builder.build set_iter
    (Builder.with_fields
       (["Name"] ++ (if Py.mem sobject ["User"; "Contact"; "Lead"] then ["Email"] else []))
       (Builder.with_id (Builder.init sobject))).

(** ** Scenarios: a configuration and some remote parties *)

Module Scenario.

Definition cfg : configuration := mkConfiguration "acme" "my-client" "my-secret".

Definition no_answer : exchange := Failed (Exc OtherError "ClientConnectionError").

(** A query rejected for an unknown field, as Salesforce reports it. *)
Definition invalid_field_body : json :=
  JArr [ JObj [ ("message", JStr "No such column 'Foo' on entity 'Account'.");
                ("errorCode", JStr "INVALID_FIELD") ] ].

Definition invalid_field_world : env :=
  mkEnv (fun _ _ => Response 400 "Bad Request" (Parsed invalid_field_body))
        (fun _ _ => no_answer).

(** Two pages: [a, b] with a continuation [U2], then [c], done. *)
Definition P1 : list (string * json) :=
  [ ("records", JArr [JStr "a"; JStr "b"]); ("done", JBool false);
    ("nextRecordsUrl", JStr "U2") ].
Definition P2 : list (string * json) :=
  [ ("records", JArr [JStr "c"]); ("done", JBool true) ].

Definition two_pages_world : env :=
  mkEnv (fun n _ =>
           match n with
           | 0 => Response 200 "OK" (Parsed (JObj P1))
           | 1 => Response 200 "OK" (Parsed (JObj P2))
           | _ => no_answer
           end)
        (fun _ _ => no_answer).

(** The token endpoint rejects the client, or is out of order. *)
Definition invalid_client_world : env :=
  mkEnv (fun _ _ => no_answer)
        (fun _ _ => Response 400 "Bad Request"
                      (Parsed (JObj [ ("error", JStr "invalid_client");
                                      ("error_description", JStr "invalid client credentials") ]))).

(** The token endpoint answers 400 with the body [null]. *)
Definition null_error_body_world : env :=
  mkEnv (fun _ _ => no_answer)
        (fun _ _ => Response 400 "Bad Request" (Parsed JNull)).

Definition token_outage_world : env :=
  mkEnv (fun _ _ => no_answer)
        (fun _ _ => Response 503 "Service Unavailable" (Parsed (JObj []))).

Definition token_world : env :=
  mkEnv (fun _ _ => no_answer)
        (fun _ _ => Response 200 "OK"
                      (Parsed (JObj [("access_token", JStr "tok-1")]))).

(** Two failures that are retried, then an answer. *)
Definition flaky_world : env :=
  mkEnv (fun n _ =>
           match n with
           | 0 => Response 500 "Internal Server Error" (Parsed (JArr []))
           | 1 => Response 400 "Bad Request" (Parsed (JArr []))
           | _ => Response 200 "OK" (Parsed (JObj [("records", JArr []); ("done", JBool true)]))
           end)
        (fun _ _ => no_answer).

Definition rate_limit_body : json :=
  JArr [ JObj [ ("message", JStr "TotalRequests Limit exceeded.");
                ("errorCode", JStr "REQUEST_LIMIT_EXCEEDED") ] ].

Definition rate_limited_world : env :=
  mkEnv (fun _ _ => Response 403 "Forbidden" (Parsed rate_limit_body))
        (fun _ _ => no_answer).

(** A remote party that describes the five entity types as queryable and
    answers every query with one record, except the query that builds the
    Account table of the cache, which it refuses for the rate limit. *)
Definition set_order (l : list string) : list string := nodup string_dec l.

Definition account_cache_query : string :=
  Builder.build set_order
    (Builder.with_fields ["Name"] (Builder.with_id (Builder.init "Account"))).

Definition describe_body : json :=
  JObj [ ("sobjects",
          JArr (map (fun name => JObj [("name", JStr name); ("queryable", JBool true)])
                    RELEVANT_SOBJECTS)) ].

Definition fields_body : json :=
  JObj [ ("fields",
          JArr [ JObj [("name", JStr "Name")]; JObj [("name", JStr "Email")];
                 JObj [("name", JStr "AccountId")]; JObj [("name", JStr "OwnerId")] ]) ].

Definition one_record_page : json :=
  JObj [ ("records",
          JArr [ JObj [ ("Id", JStr "x1"); ("Name", JStr "Jane");
                        ("AccountId", JStr "a1"); ("OwnerId", JStr "u1") ] ]);
         ("done", JBool true) ].

(** The table built from that one record. *)
Definition one_record_table : table :=
  [ (JStr "x1",
     JObj [ ("Id", JStr "x1"); ("Name", JStr "Jane");
            ("AccountId", JStr "a1"); ("OwnerId", JStr "u1") ]) ].

Definition account_cache_fails_world : env :=
  mkEnv (fun _ r =>
           match req_url r with
           | JStr u =>
               if u =? base_url cfg ++ DESCRIBE_ENDPOINT then
                 Response 200 "OK" (Parsed describe_body)
               else if u =? base_url cfg ++ QUERY_ENDPOINT then
                 match req_payload r with
                 | JObj [(_, JStr q)] =>
                     if q =? account_cache_query
                     then Response 403 "Forbidden" (Parsed rate_limit_body)
                     else Response 200 "OK" (Parsed one_record_page)
                 | _ => no_answer
                 end
               else Response 200 "OK" (Parsed fields_body)
           | _ => no_answer
           end)
        (fun _ _ => no_answer).

End Scenario.

(** ** More scenarios *)

Module MoreScenario.
Import Scenario.

(** The first GET finds the token expired; the token endpoint hands out
    [tok-1]; the second GET is answered. *)
Definition expired_token_world : env :=
  mkEnv (fun n _ =>
           match n with
           | 0 => Response 401 "Unauthorized"
                    (Parsed (JArr [JObj [ ("message", JStr "Session expired or invalid");
                                          ("errorCode", JStr "INVALID_SESSION_ID") ]]))
           | _ => Response 200 "OK" (Parsed one_record_page)
           end)
        (fun _ _ => Response 200 "OK" (Parsed (JObj [("access_token", JStr "tok-1")]))).

(** Every GET is answered 401. *)
Definition unauthorized_world : env :=
  mkEnv (fun _ _ => Response 401 "Unauthorized" (Parsed (JArr [])))
        (fun _ _ => no_answer).

(** The token endpoint answers 200 without a token. *)
Definition no_access_token_world : env :=
  mkEnv (fun _ _ => no_answer)
        (fun _ _ => Response 200 "OK" (Parsed (JObj [("token_type", JStr "Bearer")]))).

(** The five entity types are queryable and every query is answered with
    one record. *)
Definition one_record_world : env :=
  mkEnv (fun _ r =>
           match req_url r with
           | JStr u =>
               if u =? base_url cfg ++ DESCRIBE_ENDPOINT then
                 Response 200 "OK" (Parsed describe_body)
               else if u =? base_url cfg ++ QUERY_ENDPOINT then
                 Response 200 "OK" (Parsed one_record_page)
               else Response 200 "OK" (Parsed fields_body)
           | _ => no_answer
           end)
        (fun _ _ => no_answer).

(** The entries of the describe listing and of the one-record page. *)
Definition described_items : list (list (string * json)) :=
  map (fun name => [("name", JStr name); ("queryable", JBool true)]) RELEVANT_SOBJECTS.

Definition one_record : json :=
  JObj [ ("Id", JStr "x1"); ("Name", JStr "Jane");
         ("AccountId", JStr "a1"); ("OwnerId", JStr "u1") ].

Definition one_record_entries : page :=
  [ ("records", JArr [one_record]); ("done", JBool true) ].

(** A contact with its account and its owner in the cache. *)
Definition jane : list (string * json) :=
  [ ("Id", JStr "c1"); ("Name", JStr "Jane");
    ("AccountId", JStr "a1"); ("OwnerId", JStr "u1") ].

Definition acme_cache : list (string * table) :=
  [ ("Account", [(JStr "a1", JObj [("Name", JStr "Acme")])]);
    ("Contact", []); ("Opportunity", []);
    ("User", [(JStr "u1", JObj [("Name", JStr "Bob"); ("Email", JStr "bob@x.com")])]) ].

Definition an_address : list (string * json) :=
  [ ("street", JStr "1 Main St"); ("city", JStr ""); ("state", JNull);
    ("postalCode", JNum 94105); ("country", JStr "US") ].

End MoreScenario.

(** * Properties *)

(** ** The query builder *)

Module BuilderFacts.
Import Builder.

Lemma fields_fold (ops : list op) (b : SalesforceSoqlBuilder) :
  fields (fold_left apply ops b) = (fields b ++ added_fields ops)%list.
Proof.
  revert b; induction ops as [|o ops IH]; intros b; simpl.
  - now rewrite app_nil_r.
  - rewrite IH. unfold added_fields; simpl.
    destruct o; simpl; rewrite <- ?app_assoc; try reflexivity;
      now rewrite ?app_nil_r.
Qed.

Lemma table_name_fold (ops : list op) (b : SalesforceSoqlBuilder) :
  table_name (fold_left apply ops b) = table_name b.
Proof.
  revert b; induction ops as [|o ops IH]; intros b; simpl; [reflexivity|].
  rewrite IH. now destruct o.
Qed.

Lemma where_fold (ops : list op) (b : SalesforceSoqlBuilder) :
  where_ (fold_left apply ops b) =
  match last_where ops with Some s => "WHERE " ++ s | None => where_ b end.
Proof.
  revert b; induction ops as [|o ops IH]; intros b; simpl; [reflexivity|].
  rewrite IH. destruct (last_where ops); [reflexivity|]. now destruct o.
Qed.

Lemma order_by_fold (ops : list op) (b : SalesforceSoqlBuilder) :
  order_by (fold_left apply ops b) =
  match last_order_by ops with Some s => "ORDER BY " ++ s | None => order_by b end.
Proof.
  revert b; induction ops as [|o ops IH]; intros b; simpl; [reflexivity|].
  rewrite IH. destruct (last_order_by ops); [reflexivity|]. now destruct o.
Qed.

Lemma limit_fold (ops : list op) (b : SalesforceSoqlBuilder) :
  limit (fold_left apply ops b) =
  match last_limit ops with Some s => "LIMIT " ++ s | None => limit b end.
Proof.
  revert b; induction ops as [|o ops IH]; intros b; simpl; [reflexivity|].
  rewrite IH. destruct (last_limit ops); [reflexivity|]. now destruct o.
Qed.

Lemma nodup_each_member_once : each_member_once (nodup string_dec).
Proof.
  intros l; split; [apply NoDup_nodup | intros x; apply nodup_In].
Qed.

(** C4: after any sequence of calls on a builder, [build()] is the SELECT
    line over a column list in which every added field occurs exactly once
    (and nothing else occurs), the FROM line, and one line for each of
    WHERE, ORDER BY and LIMIT that was set; a clause never set has no
    line. *)
Theorem build_fields_once_unset_clauses_omitted
  (set_iter : list string -> list string) (Hset : each_member_once set_iter)
  (table : string) (ops : list op) :
  exists columns : list string,
    (forall f, In f (added_fields ops) -> count_occ string_dec columns f = 1%nat) /\
    (forall f, In f columns -> In f (added_fields ops)) /\
    build set_iter (run table ops) =
    String.concat nl
      ([("SELECT " ++ String.concat ("," ++ nl) columns)%string;
        ("FROM " ++ table)%string]
       ++ clause_line "WHERE" (last_where ops)
       ++ clause_line "ORDER BY" (last_order_by ops)
       ++ clause_line "LIMIT" (last_limit ops))%list.
Proof.
  exists (set_iter (added_fields ops)).
  destruct (Hset (added_fields ops)) as [Hnd Hin].
  split; [|split].
  - intros f Hf. apply (proj1 (NoDup_count_occ' string_dec _) Hnd). now apply Hin.
  - intros f Hf. now apply Hin.
  - unfold build, query_lines, select_columns, run.
    rewrite fields_fold, table_name_fold, where_fold, order_by_fold, limit_fold.
    simpl.
    destruct (last_where ops), (last_order_by ops), (last_limit ops); reflexivity.
Qed.

(** The account query's sub-select, with a field given twice. *)
Lemma build_fields_once_unset_clauses_omitted_witness :
  exists columns : list string,
    (forall f, In f ["Id"; "Name"; "Id"; "StageName"] ->
               count_occ string_dec columns f = 1%nat) /\
    (forall f, In f columns -> In f ["Id"; "Name"; "Id"; "StageName"]) /\
    build (nodup string_dec)
      (run "Opportunities"
         [WithId; WithFields ["Name"; "Id"; "StageName"]; WithLimit "1"]) =
    String.concat nl
      ["SELECT " ++ String.concat ("," ++ nl) columns; "FROM Opportunities"; "LIMIT 1"].
Proof.
  exact (build_fields_once_unset_clauses_omitted (nodup string_dec) nodup_each_member_once
           "Opportunities"
           [WithId; WithFields ["Name"; "Id"; "StageName"]; WithLimit "1"]).
Defined.

End BuilderFacts.

(** ** The retry policy *)

Lemma retry_loop_S {A} (k interval : nat) (skipped : list exc_class)
  (func : M A) (s : client_state) :
  retry_loop (S k) interval skipped func s =
  match func s with
  | (Raise e, s') =>
      if class_in e skipped then (Raise e, s')
      else retry_loop k interval skipped func (emit (EvSleep interval) s')
  | other => other
  end.
Proof. reflexivity. Qed.

Lemma retry_loop_ok {A} (k interval : nat) (skipped : list exc_class)
  (func : M A) (s s' : client_state) (a : A) :
  func s = (Ok a, s') ->
  retry_loop k interval skipped func s = (Ok a, s').
Proof. intros H. destruct k; cbn; now rewrite H. Qed.

Lemma retry_loop_skipped {A} (k interval : nat) (skipped : list exc_class)
  (func : M A) (s s' : client_state) (e : exception) :
  func s = (Raise e, s') ->
  class_in e skipped = true ->
  retry_loop k interval skipped func s = (Raise e, s').
Proof. intros H Hc. destruct k; cbn; rewrite H; [reflexivity | now rewrite Hc]. Qed.

(** ** The credential manager *)

Section TokenFacts.

Variable cfg : configuration.
Variable world : env.

Lemma generate_locked (s : client_state) :
  lock s = true ->
  generate cfg world s =
  (Raise (Exc LockedException "Token generation is already running."), s).
Proof.
  intros H. unfold generate, _non_blocking_lock. now rewrite H.
Qed.

(** With the lock free, [generate] posts once, and the lock is free again
    afterwards. *)
Lemma generate_unlocked_effects (s : client_state) :
  lock s = false ->
  let s' := snd (generate cfg world s) in
  lock s' = false /\
  trace s' = (trace s ++ [EvPost (token_request cfg)])%list /\
  _queryable_sobjects s' = _queryable_sobjects s /\
  _queryable_sobject_fields s' = _queryable_sobject_fields s /\
  _sobjects_cache_by_type s' = _sobjects_cache_by_type s.
Proof.
  intros H. unfold generate, _non_blocking_lock, try_finally. rewrite H.
  unfold bind, session_post. cbn [lock set_lock emit posts trace].
  fold (token_request cfg).
  destruct (request_json _ _) as [rb [b|e|]]; cbn.
  - unfold lift. destruct (py_getitem rb "access_token"); cbn; auto.
  - destruct e as [status message|c m]; cbn; auto.
    destruct ((400 <=? status)%Z && (status <? 500)%Z); cbn; auto.
    unfold bind, lift. destruct (py_get rb "error" _); cbn; auto.
    destruct (Py.str_eq "invalid_client" a); cbn; auto.
  - auto.
Qed.

Lemma str_eq_true (t : string) (v : json) :
  Py.str_eq t v = true <-> v = JStr t.
Proof.
  destruct v; simpl; split; intros H; try discriminate.
  - apply String.eqb_eq in H. now subst.
  - injection H as ->. apply String.eqb_refl.
Qed.

Lemma get_token_once_unlocked (s : client_state) :
  lock s = false ->
  let s' := snd (get_token_once cfg world s) in
  lock s' = false /\ posts s' = (posts s ++ [EvPost (token_request cfg)])%list.
Proof.
  intros H. destruct (generate_unlocked_effects s H) as (Hl & Ht & _).
  unfold get_token_once, try_except.
  destruct (generate cfg world s) as [[u|e|] s1]; cbn in *.
  - split; [assumption|]. unfold posts. now rewrite Ht, filter_app.
  - assert (Hp : posts s1 = (posts s ++ [EvPost (token_request cfg)])%list)
      by (unfold posts; now rewrite Ht, filter_app).
    destruct e as [st m|c m]; cbn; [now split|].
    destruct c; cbn; try now split.
    split; [assumption|]. unfold posts in *. cbn.
    now rewrite filter_app, Hp, app_nil_r.
  - split; [assumption|]. unfold posts. now rewrite Ht, filter_app.
Qed.

(** A retried [get_token_once] posts once per attempt: at least once and at
    most once more than the attempts that were left. *)
Lemma retry_get_token_posts (more interval : nat) (skipped : list exc_class)
  (s : client_state) :
  lock s = false ->
  exists n : nat,
    (1 <= n <= S more)%nat /\
    posts (snd (retry_loop more interval skipped (get_token_once cfg world) s)) =
    (posts s ++ repeat (EvPost (token_request cfg)) n)%list.
Proof.
  revert s; induction more as [|k IH]; intros s H;
    destruct (get_token_once_unlocked s H) as [Hl Hp]; cbn [retry_loop];
    destruct (get_token_once cfg world s) as [[u|e|] s1]; cbn in Hl, Hp;
    try (exists 1%nat; split; [lia | exact Hp]).
  destruct (class_in e skipped); [exists 1%nat; split; [lia | exact Hp]|].
  destruct (IH (emit (EvSleep interval) s1)) as (n & Hn & Hq); [exact Hl|].
  exists (S n). split; [lia|]. rewrite Hq.
  unfold posts in *. cbn. rewrite filter_app, Hp. cbn.
  now rewrite app_nil_r, <- app_assoc.
Qed.

(** [generate] raises [InvalidCredentialsException] of its own only on a
    4xx answer whose body is an object with [error] equal to
    ["invalid_client"]; the other way round is part of
    [generate_invalid_client_exactly]. *)
Lemma generate_invalid_credentials_only_for_invalid_client
  (s s' : client_state) (msg : string) (status : Z) (reason : string) (body : json) :
  token_answer cfg world s = Response status reason (Parsed body) ->
  generate cfg world s = (Raise (Exc InvalidCredentialsException msg), s') ->
  (400 <= status < 500)%Z /\
  exists entries,
    body = JObj entries /\ Py.lookup "error" entries = Some (JStr "invalid_client").
Proof.
  intros Hx. unfold generate, _non_blocking_lock, try_finally.
  destruct (lock s); [discriminate|].
  unfold bind, session_post, token_answer, posts in *.
  cbn [lock set_lock emit trace]. rewrite Hx. cbn [request_json].
  destruct (400 <=? status)%Z eqn:H4; cbn -[Z.leb Z.ltb].
  - rewrite H4. cbn [andb].
    destruct (status <? 500)%Z eqn:H5; [|unfold raise; discriminate].
    unfold lift. destruct body as [| b | z | t | l | entries]; cbn [py_get];
      try discriminate.
    destruct (Py.str_eq "invalid_client" _) eqn:He; unfold raise;
      [|discriminate].
    intros _. split; [split; [now apply Z.leb_le | now apply Z.ltb_lt]|].
    exists entries. split; [reflexivity|].
    apply str_eq_true in He.
    destruct (Py.lookup "error" entries); [now subst | discriminate].
  - unfold lift, modify.
    destruct body as [| b | z | t | l | entries]; cbn [py_getitem];
      try discriminate.
    destruct (Py.lookup "access_token" entries); discriminate.
Qed.

(** C10: whatever the token endpoint answers, a call of [generate] that
    fails leaves the stored token as it was, and a call that returns has
    stored the [access_token] of a parsed body that came with a status
    below 400 (and found the lock free).  So an error status, a body that
    does not parse and a body without [access_token] all leave the token
    untouched.  And the other way round: with the lock free, an answer with
    a status below 400 and a body that has an [access_token] makes
    [generate] return, and the stored token is then that value. *)
Theorem generate_token_atomic (s : client_state) :
  match generate cfg world s with
  | (Ok _, s') =>
      exists status reason body,
        lock s = false /\
        token_answer cfg world s = Response status reason (Parsed body) /\
        (status < 400)%Z /\
        py_getitem body "access_token" = Ok (_token s')
  | (Raise _, s') => _token s' = _token s
  | (OutOfFuel, _) => False
  end /\
  (forall status reason body t,
     lock s = false ->
     token_answer cfg world s = Response status reason (Parsed body) ->
     (status < 400)%Z ->
     py_getitem body "access_token" = Ok t ->
     exists s',
       generate cfg world s = (Ok tt, s') /\ _token s' = t /\ lock s' = false /\
       posts s' = (posts s ++ [EvPost (token_request cfg)])%list).
Proof.
  split.
  - unfold generate, _non_blocking_lock, try_finally.
    destruct (lock s) eqn:Hlock; [reflexivity|].
    unfold bind, session_post, token_answer, posts.
    cbn [lock set_lock emit trace]. fold (token_request cfg).
    destruct (http_post world _ (token_request cfg)) as [e|status reason [b|e]] eqn:Hx; cbn.
    + destruct e as [st m|c m]; cbn; [|reflexivity].
      destruct ((400 <=? st)%Z && (st <? 500)%Z); reflexivity.
    + destruct (400 <=? status)%Z eqn:Hst; cbn -[Z.ltb Z.leb].
      * rewrite Hst. destruct ((status <? 500)%Z); cbn; [|reflexivity].
        unfold bind, lift.
        destruct (py_get b "error" _) as [a|e|] eqn:Hg; cbn; try reflexivity.
        -- destruct (Py.str_eq "invalid_client" a); reflexivity.
        -- destruct b; discriminate.
      * unfold lift. destruct (py_getitem b "access_token") as [v|e|] eqn:Hv; cbn.
        -- exists status, reason, b. repeat split; try assumption; try reflexivity.
           now apply Z.leb_gt in Hst.
        -- reflexivity.
        -- destruct b; cbn in Hv; try discriminate.
           destruct (Py.lookup "access_token" entries); discriminate.
    + destruct e as [st m|c m]; cbn; [|reflexivity].
      destruct ((400 <=? st)%Z && (st <? 500)%Z); reflexivity.
  - intros status reason body t Hlock Hx Hst Ht.
    exists (set_lock false
              (set_token t (emit (EvPost (token_request cfg)) (set_lock true s)))).
    split; [|split; [reflexivity | split; [reflexivity|]]].
    + unfold generate, _non_blocking_lock, try_finally. rewrite Hlock.
      unfold bind, session_post, token_answer, posts in *.
      cbn [lock set_lock emit trace]. rewrite Hx. cbn [request_json].
      apply Z.leb_gt in Hst. rewrite Hst. unfold lift. now rewrite Ht.
    + unfold posts. cbn. now rewrite filter_app.
Qed.

(** C3: while the lock is held, [generate] raises [LockedException] and
    changes nothing (no token, no request); [get_token] then returns
    normally after that one call, having only logged its debug line: no
    sleep and no second attempt. *)
Theorem refresh_in_progress_is_not_retried (s : client_state) :
  lock s = true ->
  generate cfg world s =
    (Raise (Exc LockedException "Token generation is already running."), s) /\
  get_token cfg world s =
    (Ok tt, emit (EvLog Debug "Token generation is already in process.") s).
Proof.
  intros H. split; [now apply generate_locked|].
  unfold get_token, retryable, RETRIES. cbn [Nat.pred retry_loop].
  unfold get_token_once, try_except. now rewrite (generate_locked s H).
Qed.

(** C5, as amended: for an answer of the token endpoint with a status from
    400 on and a body that parses, the body being a JSON object when the
    status is below 500.  When the status is below 500 and the body's
    [error] is ["invalid_client"], [generate] raises
    [InvalidCredentialsException] and [get_token] passes it on after that
    single POST.  In every other case [generate] raises
    [TokenFetchException], and [get_token] tries again: it posts two or
    three times. *)
Theorem generate_invalid_client_exactly
  (s : client_state) (status : Z) (reason : string) (body : json) :
  lock s = false ->
  token_answer cfg world s = Response status reason (Parsed body) ->
  (400 <= status)%Z ->
  ((status < 500)%Z -> is_object body) ->
  ((status < 500)%Z /\ error_field body = Some (JStr "invalid_client") ->
   exists msg s',
     generate cfg world s = (Raise (Exc InvalidCredentialsException msg), s') /\
     get_token cfg world s = (Raise (Exc InvalidCredentialsException msg), s') /\
     posts s' = (posts s ++ [EvPost (token_request cfg)])%list) /\
  (~ ((status < 500)%Z /\ error_field body = Some (JStr "invalid_client")) ->
   (exists msg s', generate cfg world s = (Raise (Exc TokenFetchException msg), s')) /\
   exists n : nat,
     (2 <= n <= 3)%nat /\
     posts (snd (get_token cfg world s)) =
     (posts s ++ repeat (EvPost (token_request cfg)) n)%list).
Proof.
  intros Hlock Hx Hst Hobj.
  assert (Hgen : generate cfg world s =
    let s1 := set_lock false (emit (EvPost (token_request cfg)) (set_lock true s)) in
    if (status <? 500)%Z then
      let error_message :=
        match error_field body with
        | Some v => v | None => JStr "No error dscription found." end in
      if Py.str_eq "invalid_client" error_message
      then (Raise (Exc InvalidCredentialsException
              ("The `client_id` and `client_secret` provided could not be used to generate a token. Status: "
               ++ Py.str_of_Z status ++ ", message: " ++ reason
               ++ ", details: " ++ Py.str error_message)), s1)
      else (Raise (Exc TokenFetchException
              ("Could not fetch token from Salesforce: Status: "
               ++ Py.str_of_Z status ++ ", message: " ++ reason
               ++ ", details: " ++ Py.str error_message)), s1)
    else (Raise (Exc TokenFetchException
            ("Unexpected error while fetching Salesforce token. Status: "
             ++ Py.str_of_Z status ++ ", message: " ++ reason)), s1)).
  { unfold generate, _non_blocking_lock, try_finally. rewrite Hlock.
    unfold bind, session_post, token_answer, posts in *.
    cbn [lock set_lock emit trace]. fold (token_request cfg). rewrite Hx.
    cbn [request_json]. apply Z.leb_le in Hst. rewrite Hst. cbn iota beta.
    rewrite Hst. cbn [andb].
    destruct (status <? 500)%Z eqn:Hlt; [|reflexivity].
    apply Z.ltb_lt in Hlt. destruct (Hobj Hlt) as [entries ->].
    unfold lift. cbn [py_get error_field].
    destruct (Py.str_eq "invalid_client" _); reflexivity. }
  cbv zeta in Hgen.
  split.
  - intros [Hlt Herr]. apply Z.ltb_lt in Hlt. rewrite Hlt, Herr in Hgen.
    cbn [Py.str_eq] in Hgen. rewrite String.eqb_refl in Hgen.
    eexists; eexists. split; [exact Hgen|]. split.
    + unfold get_token, retryable, RETRIES. cbn [Nat.pred retry_loop].
      unfold get_token_once, try_except. rewrite Hgen. reflexivity.
    + unfold posts. cbn. now rewrite filter_app.
  - intros Hnot.
    assert (Hgen' : exists msg s',
      generate cfg world s = (Raise (Exc TokenFetchException msg), s') /\
      lock s' = false /\ posts s' = (posts s ++ [EvPost (token_request cfg)])%list).
    { assert (Hp : posts (set_lock false
                   (emit (EvPost (token_request cfg)) (set_lock true s))) =
                   (posts s ++ [EvPost (token_request cfg)])%list)
        by (unfold posts; cbn; now rewrite filter_app).
      destruct (status <? 500)%Z eqn:Hlt.
      - destruct (Py.str_eq "invalid_client" _) eqn:Heq.
        + exfalso. apply Hnot. split; [now apply Z.ltb_lt|].
          apply str_eq_true in Heq.
          destruct (error_field body); [now subst|discriminate].
        + eexists; eexists. split; [exact Hgen|].
          split; [reflexivity | exact Hp].
      - eexists; eexists. split; [exact Hgen|].
        split; [reflexivity | exact Hp]. }
    destruct Hgen' as (msg & s' & Hg & Hl & Hp).
    split; [now exists msg, s'|].
    assert (Honce : get_token_once cfg world s =
                    (Raise (Exc TokenFetchException msg), s'))
      by (unfold get_token_once, try_except; now rewrite Hg).
    unfold get_token, retryable, RETRIES. cbn [Nat.pred].
    rewrite retry_loop_S, Honce. cbn [class_in existsb exc_class_eqb orb].
    destruct (retry_get_token_posts 1 RETRY_INTERVAL [InvalidCredentialsException]
                (emit (EvSleep RETRY_INTERVAL) s')) as (n & Hn & Hq); [exact Hl|].
    exists (S n). split; [lia|]. rewrite Hq.
    unfold posts in *. cbn. rewrite filter_app, Hp. cbn.
    now rewrite app_nil_r, <- app_assoc.
Qed.

End TokenFacts.

(** ** The transport *)

Section TransportFacts.

Variable cfg : configuration.
Variable world : env.

Lemma _get_eq (url params : json) (s : client_state) :
  _get world url params s =
  (Ok (http_get world (List.length (gets s)) (get_request s url params)),
   after_get s url params).
Proof.
  unfold _get, bind, log, modify, _auth_headers, token, ret, after_get, get_request.
  cbn. unfold gets. cbn. rewrite filter_app. cbn. now rewrite app_nil_r.
Qed.

Lemma gets_emit (ev : event) (s : client_state) :
  gets (emit ev s) = (gets s ++ (if is_get ev then [ev] else []))%list.
Proof. unfold gets. cbn. rewrite filter_app. cbn. now destruct (is_get ev). Qed.

Lemma generate_gets (s : client_state) :
  gets (snd (generate cfg world s)) = gets s.
Proof.
  destruct (lock s) eqn:H.
  - now rewrite generate_locked.
  - destruct (generate_unlocked_effects cfg world s H) as (_ & Ht & _).
    unfold gets. rewrite Ht, filter_app. cbn. now rewrite app_nil_r.
Qed.

Lemma get_token_once_gets (s : client_state) :
  gets (snd (get_token_once cfg world s)) = gets s.
Proof.
  pose proof (generate_gets s) as H. unfold get_token_once, try_except.
  destruct (generate cfg world s) as [[u|e|] s1]; cbn [snd] in *; try assumption.
  destruct e as [st m|c m]; cbn [snd]; [assumption|].
  destruct c; cbn [snd]; try assumption.
  unfold log, modify. cbn [snd]. rewrite gets_emit. cbn [is_get].
  now rewrite app_nil_r.
Qed.

Lemma retry_gets {A} (func : M A) (k interval : nat) (skipped : list exc_class) :
  (forall s, gets (snd (func s)) = gets s) ->
  forall s, gets (snd (retry_loop k interval skipped func s)) = gets s.
Proof.
  intros Hf. induction k as [|k IH]; intros s; cbn [retry_loop];
    pose proof (Hf s) as H; destruct (func s) as [[a|e|] s1]; cbn [snd] in *;
    try assumption.
  destruct (class_in e skipped); cbn [snd]; [assumption|].
  rewrite IH, gets_emit. cbn [is_get]. now rewrite app_nil_r.
Qed.

Lemma get_token_gets (s : client_state) :
  gets (snd (get_token cfg world s)) = gets s.
Proof. apply retry_gets. apply get_token_once_gets. Qed.

(** The handler of [ClientResponseError] sends no GET, and never returns
    normally. *)
Lemma _handle_client_response_error_gets
  (response_body : json) (status : Z) (message : string) (s : client_state) :
  gets (snd (_handle_client_response_error cfg world response_body status message s))
  = gets s.
Proof.
  unfold _handle_client_response_error.
  destruct (status =? 401)%Z.
  - unfold bind, log, clear, modify, raise. cbn -[get_token gets].
    match goal with |- context [get_token cfg world ?st] =>
      pose proof (get_token_gets st) as H;
      destruct (get_token cfg world st) as [[u|e|] s1] end;
      cbn [snd] in *; rewrite H; unfold gets; cbn;
      rewrite filter_app; cbn; now rewrite app_nil_r.
  - destruct ((400 <=? status)%Z && (status <? 500)%Z); [|reflexivity].
    unfold bind, lift. now destruct (client_error_4xx _ _).
Qed.

Lemma _handle_client_response_error_raises
  (response_body : json) (status : Z) (message : string) (s : client_state) (u : unit) :
  fst (_handle_client_response_error cfg world response_body status message s) <> Ok u.
Proof.
  unfold _handle_client_response_error.
  destruct (status =? 401)%Z.
  - unfold bind, log, clear, modify. cbn -[get_token].
    match goal with |- context [get_token cfg world ?st] =>
      destruct (get_token cfg world st) as [[v|e|] s1] end; cbn; discriminate.
  - destruct ((400 <=? status)%Z && (status <? 500)%Z); [|discriminate].
    unfold bind, lift. destruct (client_error_4xx _ _); discriminate.
Qed.

(** One attempt of [_get_json] sends exactly one GET. *)
Lemma _get_json_once_gets (url params : json) (s : client_state) :
  gets (snd (_get_json_once cfg world url params s)) =
  (gets s ++ [EvGet (get_request s url params)])%list.
Proof.
  assert (Hg : gets (after_get s url params) =
               (gets s ++ [EvGet (get_request s url params)])%list).
  { unfold after_get. rewrite !gets_emit. cbn. now rewrite app_nil_r. }
  unfold _get_json_once, bind. rewrite _get_eq.
  destruct (request_json _ JNull) as [rb [b|e|]]; cbn; try assumption.
  destruct e as [st m|c m]; cbn; [|assumption].
  pose proof (_handle_client_response_error_gets rb st m (after_get s url params)) as H.
  destruct (_handle_client_response_error cfg world rb st m _) as [[u|e|] s1];
    cbn in *; congruence.
Qed.

(** A response below status 400 with a parsed body is returned at the first
    attempt. *)
Lemma _get_json_success (url params : json) (s : client_state)
  (status : Z) (reason : string) (body : json) :
  http_get world (List.length (gets s)) (get_request s url params) =
    Response status reason (Parsed body) ->
  (status < 400)%Z ->
  _get_json cfg world url params s = (Ok body, after_get s url params).
Proof.
  intros Hx Hst. unfold _get_json, retryable. apply retry_loop_ok.
  unfold _get_json_once, bind. rewrite _get_eq, Hx. cbn [request_json].
  apply Z.leb_gt in Hst. now rewrite Hst.
Qed.

(** [True in l] or [False in l] holds only when [l] has an item that is not
    a string, and then [", ".join(l)] raises. *)
Lemma bool_in_not_joinable (b : bool) (l : list json) :
  Py.bool_in b l = true -> exists e, py_strings l = Raise e.
Proof.
  induction l as [|a l IH]; cbn; [discriminate|].
  destruct a; cbn; eauto.
  intros H. destruct (IH H) as [e He]. exists e. now rewrite He.
Qed.

(** The 4xx branch never ends with [InvalidQueryException]: its test
    [any(...) in error_codes] looks for a boolean among the codes. *)
Lemma client_error_4xx_never_invalid_query
  (response_body : json) (details message : string) :
  client_error_4xx response_body details <> Ok (Exc InvalidQueryException message).
Proof.
  unfold client_error_4xx.
  destruct (_handle_response_body_error response_body) as [errors|e|]; cbn;
    try discriminate.
  destruct (py_iter errors) as [items|e|]; cbn; try discriminate.
  destruct (items_of "errorCode" items) as [codes|e|]; cbn; try discriminate.
  destruct (Py.str_in "REQUEST_LIMIT_EXCEEDED" codes).
  - unfold py_join. destruct (py_strings codes); cbn; discriminate.
  - destruct (Py.bool_in _ codes) eqn:Hb.
    + destruct (bool_in_not_joinable _ _ Hb) as [e He].
      unfold py_join. rewrite He. cbn. discriminate.
    + unfold py_join. destruct (py_strings codes); cbn; discriminate.
Qed.

Lemma not_retried_class_in (e : exception) :
  not_retried e <-> class_in e [RateLimitedException; InvalidQueryException] = true.
Proof.
  split.
  - intros [m [-> | ->]]; reflexivity.
  - destruct e as [st m|c m]; cbn; [discriminate|].
    destruct c; cbn; try discriminate; intros _; exists m; auto.
Qed.

(** The retry policy of [_get_json] by itself, whatever makes an attempt
    raise.  When the first two attempts raise exceptions other than
    [RateLimitedException] and [InvalidQueryException] and the third
    returns, [_get_json] returns that value and has sent exactly three
    GETs.  When the first attempt raises [RateLimitedException] or
    [InvalidQueryException], [_get_json] raises it and has sent exactly one
    GET.  Which answers make an attempt raise which exception is another
    matter: by [client_error_4xx_never_invalid_query] no 4xx answer is
    classified as [InvalidQueryException]. *)
Lemma get_json_retry_policy (url params : json) (s0 : client_state) :
  (forall e1 s1 e2 s2 v s3,
     _get_json_once cfg world url params s0 = (Raise e1, s1) ->
     ~ not_retried e1 ->
     _get_json_once cfg world url params (emit (EvSleep RETRY_INTERVAL) s1) =
       (Raise e2, s2) ->
     ~ not_retried e2 ->
     _get_json_once cfg world url params (emit (EvSleep RETRY_INTERVAL) s2) =
       (Ok v, s3) ->
     _get_json cfg world url params s0 = (Ok v, s3) /\
     List.length (gets s3) = (List.length (gets s0) + 3)%nat) /\
  (forall e s1,
     _get_json_once cfg world url params s0 = (Raise e, s1) ->
     not_retried e ->
     _get_json cfg world url params s0 = (Raise e, s1) /\
     List.length (gets s1) = (List.length (gets s0) + 1)%nat).
Proof.
  split.
  - intros e1 s1 e2 s2 v s3 H1 N1 H2 N2 H3.
    assert (C1 : class_in e1 [RateLimitedException; InvalidQueryException] = false)
      by (destruct (class_in e1 _) eqn:E; [exfalso; apply N1; now apply not_retried_class_in | reflexivity]).
    assert (C2 : class_in e2 [RateLimitedException; InvalidQueryException] = false)
      by (destruct (class_in e2 _) eqn:E; [exfalso; apply N2; now apply not_retried_class_in | reflexivity]).
    split.
    + unfold _get_json, retryable, RETRIES. cbn [Nat.pred].
      rewrite retry_loop_S, H1, C1, retry_loop_S, H2, C2.
      now apply retry_loop_ok.
    + pose proof (_get_json_once_gets url params s0) as G1.
      pose proof (_get_json_once_gets url params (emit (EvSleep RETRY_INTERVAL) s1)) as G2.
      pose proof (_get_json_once_gets url params (emit (EvSleep RETRY_INTERVAL) s2)) as G3.
      rewrite H1 in G1. rewrite H2 in G2. rewrite H3 in G3. cbn [snd] in *.
      rewrite gets_emit in G2, G3. cbn [is_get] in *.
      rewrite app_nil_r in G2, G3.
      rewrite G3, G2, G1, !length_app. cbn. lia.
  - intros e s1 H1 N1. apply not_retried_class_in in N1. split.
    + unfold _get_json, retryable. now apply retry_loop_skipped.
    + pose proof (_get_json_once_gets url params s0) as G1.
      rewrite H1 in G1. cbn [snd] in G1. rewrite G1, length_app. cbn. lia.
Qed.

End TransportFacts.

(** ** Pages of a query *)

Section PaginationFacts.

Variable cfg : configuration.
Variable world : env.

Lemma fold_pages_after_yield (tail : list page) :
  forall (p : page) (s0 s : client_state) (acc : list json) (fuel : nat),
    _token s = _token s0 ->
    ends_at_last p tail ->
    answered world (List.length (gets s)) (next_requests s0 p tail) tail ->
    (List.length tail + 1 <= fuel)%nat ->
    exists s',
      fold_pages cfg world fuel (AfterYield (JObj p)) collect acc s =
        (Ok (acc ++ map page_records tail)%list, s') /\
      gets s' = (gets s ++ map EvGet (next_requests s0 p tail))%list.
Proof.
  induction tail as [|p' tail IH]; intros p s0 s acc fuel Htok Hend Hans Hfuel;
    (destruct fuel as [|k]; [cbn in Hfuel; lia|]);
    cbn [fold_pages next_page]; unfold bind at 1; unfold bind at 1, lift;
    cbn [py_get]; cbn in Hend.
  - unfold page_done in Hend.
    assert (Hd : Py.is_True match Py.lookup "done" p with
                            | Some v => v | None => JBool true end = true)
      by (destruct (Py.lookup "done" p); assumption).
    rewrite Hd. cbn. exists s. now rewrite !app_nil_r.
  - destruct Hend as [Hnd Hend]. unfold page_done in Hnd.
    assert (Hd : Py.is_True match Py.lookup "done" p with
                            | Some v => v | None => JBool true end = false)
      by (destruct (Py.lookup "done" p); [assumption|discriminate]).
    rewrite Hd. cbn [next_requests answered] in Hans.
    destruct Hans as [(status & reason & Hst & Hx) Hans].
    unfold bind, lift. cbn [py_get]. fold (page_next p).
    unfold fetch_page, bind.
    assert (Hreq : next_request s0 p = get_request s (page_next p) JNull)
      by (unfold next_request, get_request; now rewrite Htok).
    rewrite Hreq in Hx.
    rewrite (_get_json_success cfg world _ _ s status reason (JObj p') Hx Hst).
    unfold lift. cbn [py_get]. fold (page_records p'). unfold ret, collect at 1.
    assert (Hg : gets (after_get s (page_next p) JNull) =
                 (gets s ++ [EvGet (next_request s0 p)])%list).
    { unfold after_get. rewrite !gets_emit. cbn [is_get].
      now rewrite app_nil_r, Hreq. }
    destruct (IH p' s0 (after_get s (page_next p) JNull)
                (acc ++ [page_records p'])%list k) as (s' & Hf & Hgs).
    + exact Htok.
    + exact Hend.
    + rewrite Hg, length_app. cbn. now rewrite Nat.add_1_r.
    + cbn in Hfuel. lia.
    + exists s'. unfold ret. cbv beta iota. rewrite Hf. split.
      * now rewrite <- app_assoc.
      * rewrite Hgs, Hg. cbn [next_requests map]. now rewrite <- app_assoc.
Qed.

(** C2: when the remote party serves the pages [p :: tail], of which only
    the last is done (its [done] is [true] or missing), the stream yields
    the records of exactly these pages, in order, and stops; the GETs it
    sends are the query request, with the query text as [q], and then one
    request per page but the last, to the URL that page gave and without
    parameters.  Nothing is fetched after the page that is done. *)
Theorem stream_pages_stops_at_done
  (s : client_state) (soql_query : string) (p : page) (tail : list page) (fuel : nat) :
  ends_at_last p tail ->
  answered world (List.length (gets s))
    (first_request cfg s soql_query :: next_requests s p tail) (p :: tail) ->
  (List.length tail + 2 <= fuel)%nat ->
  exists s',
    stream_pages cfg world fuel soql_query s =
      (Ok (map page_records (p :: tail)), s') /\
    gets s' =
      (gets s ++ map EvGet (first_request cfg s soql_query :: next_requests s p tail))%list.
Proof.
  intros Hend [(status & reason & Hst & Hx) Hans] Hfuel.
  destruct fuel as [|k]; [lia|].
  unfold stream_pages, _yield_non_bulk_query_pages.
  cbn [fold_pages next_page]. unfold bind at 1. unfold fetch_page, bind at 1.
  unfold first_request in Hx.
  rewrite (_get_json_success cfg world _ _ s status reason (JObj p) Hx Hst).
  unfold bind, lift. cbn [py_get]. fold (page_records p). unfold ret, collect at 1.
  set (s1 := after_get s _ _).
  assert (Hg : gets s1 = (gets s ++ [EvGet (first_request cfg s soql_query)])%list).
  { unfold s1, after_get. rewrite !gets_emit. cbn [is_get]. now rewrite app_nil_r. }
  destruct (fold_pages_after_yield tail p s s1 [page_records p] k)
    as (s' & Hf & Hgs).
  - reflexivity.
  - exact Hend.
  - rewrite Hg, length_app. cbn. now rewrite Nat.add_1_r.
  - lia.
  - exists s'. unfold ret. cbn [app]. rewrite Hf. split; [reflexivity|].
    rewrite Hgs, Hg. cbn [map]. now rewrite <- app_assoc.
Qed.

End PaginationFacts.

(** ** The document mapper *)

Module MapperFacts.
Import DocMapper MapperDomain.


Lemma sub_record_cases (r : list (string * json)) (k : string) :
  sub_record_ok r k = true ->
  (Py.lookup k r = None) \/ (exists o, Py.lookup k r = Some (JObj o)).
Proof.
  unfold sub_record_ok. destruct (Py.lookup k r) as [[]|]; try discriminate; eauto.
Qed.




Lemma join_truthy_strings (sep : string) (l : list json) :
  Forall (fun x => Py.truthy x = false \/ exists t, x = JStr t) l ->
  exists joined, py_join sep (filter Py.truthy l) = Ok joined.
Proof.
  unfold py_join. intros H.
  assert (Hs : exists ss, py_strings (filter Py.truthy l) = Ok ss).
  { induction H as [|x l Hx _ IH]; cbn; [eauto|].
    destruct IH as [ss IH]. destruct Hx as [Hx | [t ->]].
    - rewrite Hx. eauto.
    - cbn. destruct (negb (t =? "")); cbn; [rewrite IH; cbn|]; eauto. }
  destruct Hs as [ss ->]. cbn. eauto.
Qed.

Lemma address_part_cases (a : list (string * json)) (k : string) :
  address_part_ok a k = true ->
  let x := match Py.lookup k a with Some v => v | None => JNull end in
  Py.truthy x = false \/ exists t, x = JStr t.
Proof.
  unfold address_part_ok. destruct (Py.lookup k a) as [v|]; cbn; [|auto].
  destruct v; cbn; intros H; eauto; try discriminate;
    left; now apply negb_true_iff in H.
Qed.

Lemma format_address_total (r : list (string * json)) :
  address_ok r = true ->
  exists formatted,
    _format_address
      match Py.lookup "BillingAddress" r with Some v => v | None => JNull end
    = Ok (JStr formatted) /\
    (Py.lookup "BillingAddress" r = None -> formatted = "").
Proof.
  unfold address_ok.
  destruct (Py.lookup "BillingAddress" r) as [v|]; [|exists ""; now split].
  intros H.
  assert (Hfalsy : negb (Py.truthy v) = true ->
                   exists formatted, _format_address v = Ok (JStr formatted) /\
                                     (Some v = None -> formatted = "")).
  { intros Hf. exists "". unfold _format_address. rewrite Hf. now split. }
  destruct v as [| b | z | t | l | a]; try (now apply Hfalsy).
  destruct a as [|e a]; [now apply Hfalsy|].
  apply andb_prop in H. destruct H as [H H4].
  apply andb_prop in H. destruct H as [H H3].
  apply andb_prop in H. destruct H as [H1 H2].
  unfold _format_address. cbn [Py.truthy negb py_get rbind].
  destruct (join_truthy_strings ", "
    [ match Py.lookup "street" (e :: a) with Some v => v | None => JNull end;
      match Py.lookup "city" (e :: a) with Some v => v | None => JNull end;
      match Py.lookup "state" (e :: a) with Some v => v | None => JNull end;
      JStr (Py.str match Py.lookup "postalCode" (e :: a) with
                   | Some v => v | None => JStr "" end);
      match Py.lookup "country" (e :: a) with Some v => v | None => JNull end ])
    as [joined Hj].
  { repeat apply Forall_cons; try apply Forall_nil;
      try (now apply address_part_cases). right. eauto. }
  rewrite Hj. cbn. exists joined. split; [reflexivity | discriminate].
Qed.

(** The opportunity [map_account] picks: an object, the empty one when
    [Opportunities] is absent. *)
Lemma first_opportunity {B} (r : list (string * json)) (K : json -> result B) :
  opportunities_ok r = true ->
  exists x : list (string * json),
    (Py.lookup "Opportunities" r = None -> x = []) /\
    rbind (if Py.truthy match Py.lookup "Opportunities" r with
                       | Some v => v | None => JNull end
           then py_get match Py.lookup "Opportunities" r with
                       | Some v => v | None => JNull end "records" (JArr [])
           else Ok (JArr []))
      (fun opportunity_records =>
         rbind (py_len opportunity_records) (fun n =>
           rbind (if (0 <? n)%nat then py_first opportunity_records else Ok (JObj []))
                 K))
    = K (JObj x).
Proof.
  unfold opportunities_ok.
  destruct (Py.lookup "Opportunities" r) as [v|]; [|exists []; now split].
  intros H.
  assert (Hfalsy : Py.truthy v = false ->
    exists x : list (string * json), (Some v = None -> x = []) /\
      rbind (if Py.truthy v then py_get v "records" (JArr []) else Ok (JArr []))
        (fun opportunity_records =>
           rbind (py_len opportunity_records) (fun n =>
             rbind (if (0 <? n)%nat then py_first opportunity_records
                    else Ok (JObj [])) K))
      = K (JObj [])).
  { intros Hf. exists []. rewrite Hf. split; [discriminate | reflexivity]. }
  destruct v as [| b | z | t | l | o];
    try (apply negb_true_iff in H; destruct (Hfalsy H) as (x & Hx & Hk);
         exists []; now split).
  destruct o as [|e o]; [exists []; split; [discriminate | reflexivity]|].
  cbn [Py.truthy py_get].
  destruct (Py.lookup "records" (e :: o)) as [[| b | z | t | [|[] l] | o']|];
    try discriminate.
  - exists []. split; [discriminate | reflexivity].
  - eexists. split; [discriminate | reflexivity].
  - exists []. split; [discriminate | reflexivity].
Qed.





(** In every lead document the contact URL is the account URL: it is
    computed from [ConvertedAccount]. *)
Lemma map_lead_contact_url_is_account_url
  (base : string) (r doc : list (string * json)) :
  map_lead base (JObj r) = Ok (JObj doc) ->
  Py.lookup "converted_contact_url" doc = Py.lookup "converted_account_url" doc.
Proof.
  unfold map_lead. cbn [py_get rbind].
  destruct (Py.lookup "ConvertedAccount" r) as [[| b | z | t | l | a]|];
    cbn [py_get rbind]; try discriminate;
  (destruct (Py.lookup "ConvertedOpportunity" r) as [[| b' | z' | t' | l' | o]|];
    cbn [py_get rbind]; try discriminate);
  (destruct (Py.lookup "ConvertedContact" r) as [[| b'' | z'' | t'' | l'' | c]|];
    cbn [py_get rbind]; try discriminate);
  (destruct (Py.lookup "Owner" r) as [[| b3 | z3 | t3 | l3 | w]|];
    cbn [py_get rbind]; try discriminate);
  intros H; injection H as <-; reflexivity.
Qed.

(** C8, at a lead whose converted account and converted contact both have
    an identifier, and at a lead whose converted contact has one while the
    converted account has none: [converted_contact_url] ends in the
    account's identifier in the first case and is [None] in the second; the
    contact's own identifier is not used. *)
Theorem map_lead_contact_url_uses_account_id :
  let base := "https://acme.my.salesforce.com" in
  let contact := JObj [("Id", JStr "003C"); ("Name", JStr "Jane")] in
  (exists doc,
     map_lead base
       (JObj [ ("Id", JStr "00Q1");
               ("ConvertedAccount", JObj [("Id", JStr "001A"); ("Name", JStr "Acme")]);
               ("ConvertedContact", contact) ]) = Ok (JObj doc) /\
     Py.lookup "converted_contact_url" doc =
       Some (JStr "https://acme.my.salesforce.com/001A")) /\
  (exists doc,
     map_lead base
       (JObj [ ("Id", JStr "00Q1");
               ("ConvertedAccount", JObj []);
               ("ConvertedContact", contact) ]) = Ok (JObj doc) /\
     Py.lookup "converted_contact_url" doc = Some JNull).
Proof.
  cbv zeta. split; eexists; split; reflexivity.
Qed.

End MapperFacts.

(** ** The entity cache *)

Section CacheFacts.

Variable cfg : configuration.
Variable world : env.
Variable set_iter : list string -> list string.
Variable fuel : nat.

(** C7, as the code has it: the four tables are built in one pass, in the
    order Account, Contact, Opportunity, User.  A failure while building
    one of them ends the pass there: the call of [sobjects_cache_by_type]
    raises that failure to its caller, in the state the failed build left,
    so nothing is fetched for the tables that come after it. *)
Theorem cache_pass_ends_at_first_failure (s : client_state) (e : exception) :
  _sobjects_cache_by_type s = None ->
  let prepare := _prepare_sobject_cache cfg world set_iter fuel in
  let pass := sobjects_cache_by_type cfg world set_iter fuel in
  let s0 := set_sobjects_cache (Some []) s in
  (forall s1,
     prepare "Account" s0 = (Raise e, s1) -> pass s = (Raise e, s1)) /\
  (forall a s1 s2,
     prepare "Account" s0 = (Ok a, s1) ->
     prepare "Contact" (put_sobjects_cache "Account" a s1) = (Raise e, s2) ->
     pass s = (Raise e, s2)) /\
  (forall a s1 c s2 s3,
     prepare "Account" s0 = (Ok a, s1) ->
     prepare "Contact" (put_sobjects_cache "Account" a s1) = (Ok c, s2) ->
     prepare "Opportunity" (put_sobjects_cache "Contact" c s2) = (Raise e, s3) ->
     pass s = (Raise e, s3)) /\
  (forall a s1 c s2 o s3 s4,
     prepare "Account" s0 = (Ok a, s1) ->
     prepare "Contact" (put_sobjects_cache "Account" a s1) = (Ok c, s2) ->
     prepare "Opportunity" (put_sobjects_cache "Contact" c s2) = (Ok o, s3) ->
     prepare "User" (put_sobjects_cache "Opportunity" o s3) = (Raise e, s4) ->
     pass s = (Raise e, s4)).
Proof.
  intros Hnone prepare pass s0. subst prepare pass s0.
  unfold sobjects_cache_by_type, bind, get_state, modify. rewrite Hnone.
  repeat split; intros.
  - now rewrite H.
  - now rewrite H, H0.
  - now rewrite H, H0, H1.
  - now rewrite H, H0, H1, H2.
Qed.

End CacheFacts.

(** ** The scenarios *)

Module ScenarioFacts.
Import Scenario.

(** C1, at a 400 response whose body has the single error code
    [INVALID_FIELD]: the handler raises [RequestError], not
    [InvalidQueryException], and [_get_json] therefore retries the request:
    it sends it three times before it gives up with [RequestError]. *)
Theorem invalid_field_is_raised_as_RequestError :
  (forall configuration_ world s,
     _handle_client_response_error configuration_ world
       invalid_field_body 400 "Bad Request" s =
     (Raise (Exc RequestError
        "The request to Salesforce failed. status: 400, message: Bad Request, details: INVALID_FIELD"),
      s)) /\
  (let r := _get_json cfg invalid_field_world
              (JStr (base_url cfg ++ QUERY_ENDPOINT))
              (JObj [("q", JStr "SELECT Foo FROM Account")]) initial_state in
   fst r = Raise (Exc RequestError
     "The request to Salesforce failed. status: 400, message: Bad Request, details: INVALID_FIELD")
   /\ List.length (gets (snd r)) = 3%nat).
Proof.
  split.
  - intros. reflexivity.
  - cbv zeta. split; vm_compute; reflexivity.
Qed.

(** The pages P1 (records [a, b], not done, next U2) and P2 (records [c],
    done): exactly the batches [a, b] and [c], and exactly two GETs. *)
Lemma stream_pages_stops_at_done_witness :
  exists s',
    stream_pages cfg two_pages_world 3 "SELECT Id FROM Account" initial_state =
      (Ok [JArr [JStr "a"; JStr "b"]; JArr [JStr "c"]], s') /\
    gets s' =
      [ EvGet (mkRequest (JStr "https://acme.my.salesforce.com/services/data/v58.0/query")
                 [("authorization", "Bearer None")]
                 (JObj [("q", JStr "SELECT Id FROM Account")]));
        EvGet (mkRequest (JStr "U2") [("authorization", "Bearer None")] JNull) ].
Proof.
  apply (stream_pages_stops_at_done cfg two_pages_world initial_state
           "SELECT Id FROM Account" P1 [P2] 3).
  - split; reflexivity.
  - split; [exists 200%Z, "OK"; split; [lia | reflexivity]|].
    split; [exists 200%Z, "OK"; split; [lia | reflexivity]|]. exact I.
  - simpl. lia.
Defined.

(** A refresh is in flight: a second [generate] is refused, and [get_token]
    returns at once. *)
Lemma refresh_in_progress_is_not_retried_witness :
  let s := set_lock true initial_state in
  generate cfg token_world s =
    (Raise (Exc LockedException "Token generation is already running."), s) /\
  get_token cfg token_world s =
    (Ok tt, emit (EvLog Debug "Token generation is already in process.") s).
Proof.
  exact (refresh_in_progress_is_not_retried cfg token_world
           (set_lock true initial_state) eq_refl).
Defined.

(** The token endpoint answers 400 [invalid_client]: one POST, then
    [InvalidCredentialsException]. *)
Lemma generate_invalid_client_exactly_witness :
  exists msg s',
    generate cfg invalid_client_world initial_state =
      (Raise (Exc InvalidCredentialsException msg), s') /\
    get_token cfg invalid_client_world initial_state =
      (Raise (Exc InvalidCredentialsException msg), s') /\
    posts s' = (posts initial_state ++ [EvPost (token_request cfg)])%list.
Proof.
  apply (proj1 (generate_invalid_client_exactly cfg invalid_client_world initial_state
                  400 "Bad Request"
                  (JObj [ ("error", JStr "invalid_client");
                          ("error_description", JStr "invalid client credentials") ])
                  eq_refl eq_refl ltac:(lia)
                  (fun _ => ex_intro _ _ eq_refl))).
  split; [lia | reflexivity].
Defined.

(** C5 fails on a 400 answer whose body is JSON [null]: there is no
    [error] to read, [response_body.get] raises [AttributeError], and that
    is what [generate] and, after its retries, [get_token] fail with:
    neither [InvalidCredentialsException] nor [TokenFetchException]. *)
Lemma token_error_with_null_body_raises_AttributeError :
  fst (generate cfg null_error_body_world initial_state) =
    Raise (Exc AttributeError "object has no attribute 'get'") /\
  fst (get_token cfg null_error_body_world initial_state) =
    Raise (Exc AttributeError "object has no attribute 'get'").
Proof. split; reflexivity. Qed.

(** Two retried failures (a 500, then a 400 without error codes) and a
    success: three GETs.  A rate-limited request: one GET. *)
Lemma get_json_retry_policy_witness :
  (exists s3,
     _get_json cfg flaky_world (JStr "U") JNull initial_state =
       (Ok (JObj [("records", JArr []); ("done", JBool true)]), s3) /\
     List.length (gets s3) = 3%nat) /\
  (exists m s1,
     _get_json cfg rate_limited_world (JStr "U") JNull initial_state =
       (Raise (Exc RateLimitedException m), s1) /\
     List.length (gets s1) = 1%nat).
Proof.
  split.
  - eexists.
    eapply (proj1 (get_json_retry_policy cfg flaky_world (JStr "U") JNull initial_state)).
    + reflexivity.
    + intros [m [H | H]]; discriminate H.
    + reflexivity.
    + intros [m [H | H]]; discriminate H.
    + reflexivity.
  - eexists. eexists.
    eapply (proj2 (get_json_retry_policy cfg rate_limited_world (JStr "U") JNull
                     initial_state)).
    + reflexivity.
    + eexists. left. reflexivity.
Defined.

(** C7 fails: the remote party refuses the query for the Account table and
    would answer the queries for the other tables.  The pass over the cache
    tables ends with the rate limit error after two GETs (the describe call
    and the Account query); it leaves a cache without a table for Contact,
    Opportunity and User, each of which can be built from that state; and
    the next call returns this empty cache as it is, so that these tables
    are not built at all. *)
Lemma account_cache_failure_blocks_other_tables :
  let pass := sobjects_cache_by_type cfg account_cache_fails_world set_order 3 in
  let s1 := snd (pass initial_state) in
  fst (pass initial_state) =
    Raise (Exc RateLimitedException
      "Salesforce is rate limiting this account. status: 403, message: Forbidden, details: REQUEST_LIMIT_EXCEEDED") /\
  _sobjects_cache_by_type s1 = Some [] /\
  List.length (gets s1) = 2%nat /\
  Forall (fun sobject =>
            fst (_prepare_sobject_cache cfg account_cache_fails_world set_order 3
                   sobject s1) = Ok one_record_table)
         ["Contact"; "Opportunity"; "User"] /\
  pass s1 = (Ok [], s1).
Proof.
  cbv zeta.
  split; [vm_compute; reflexivity|].
  split; [vm_compute; reflexivity|].
  split; [vm_compute; reflexivity|].
  split; [|vm_compute; reflexivity].
  repeat apply Forall_cons; try apply Forall_nil; vm_compute; reflexivity.
Qed.

(** The Account table fails first: the pass ends with that failure. *)
Lemma cache_pass_ends_at_first_failure_witness :
  exists e s1,
    _prepare_sobject_cache cfg account_cache_fails_world set_order 3 "Account"
      (set_sobjects_cache (Some []) initial_state) = (Raise e, s1) /\
    sobjects_cache_by_type cfg account_cache_fails_world set_order 3 initial_state =
      (Raise e, s1).
Proof.
  eexists. eexists.
  assert (H : forall (A : Type) (x y : A) (P : Prop), x = y -> (x = y -> P) -> x = y /\ P)
    by (intros; split; auto).
  apply H.
  - vm_compute. reflexivity.
  - intros Hacc.
    exact (proj1 (cache_pass_ends_at_first_failure cfg account_cache_fails_world
                    set_order 3 initial_state _ eq_refl) _ Hacc).
Defined.

(** The contact fetch that triggers the pass ends with the same failure and
    yields no document. *)
Lemma get_contacts_raises_cache_failure :
  let r := get_contacts cfg account_cache_fails_world set_order 3 initial_state in
  fst r = Raise (Exc RateLimitedException
    "Salesforce is rate limiting this account. status: 403, message: Forbidden, details: REQUEST_LIMIT_EXCEEDED") /\
  filter (fun ev => match ev with EvYield _ => true | _ => false end) (trace (snd r)) = [].
Proof. cbv zeta. split; vm_compute; reflexivity. Qed.

(** A token is stored when the endpoint returns one. *)
Lemma generate_stores_access_token :
  let r := generate cfg token_world initial_state in
  fst r = Ok tt /\ _token (snd r) = JStr "tok-1".
Proof. cbv zeta. split; reflexivity. Qed.

(** The token endpoint answers 200 with the token [tok-1]: [generate]
    returns, and [tok-1] is the stored token. *)
Lemma generate_token_atomic_witness :
  exists s',
    generate cfg token_world initial_state = (Ok tt, s') /\
    _token s' = JStr "tok-1" /\ lock s' = false /\
    posts s' = (posts initial_state ++ [EvPost (token_request cfg)])%list.
Proof.
  apply (proj2 (generate_token_atomic cfg token_world initial_state)
           200%Z "OK" (JObj [("access_token", JStr "tok-1")]) (JStr "tok-1")).
  - reflexivity.
  - reflexivity.
  - lia.
  - reflexivity.
Defined.

End ScenarioFacts.

(** ** What the calls leave untouched *)

Section Frames.

Context {X : Type} (part : client_state -> X).

(** [part] does not look at the trace. *)
Hypothesis part_emit : forall ev s, part (emit ev s) = part s.





Lemma preserves_yield (doc : json) : preserves part (modify (emit (EvYield doc))).
Proof. intros s. apply part_emit. Qed.





End Frames.

Section ClientFrames.

Variable cfg : configuration.
Variable world : env.

Context {X : Type} (part : client_state -> X).
Hypothesis part_emit : forall ev s, part (emit ev s) = part s.

(** [part] looks at the three session caches only. *)
Hypothesis part_caches :
  forall s s',
    _queryable_sobjects s' = _queryable_sobjects s ->
    _queryable_sobject_fields s' = _queryable_sobject_fields s ->
    _sobjects_cache_by_type s' = _sobjects_cache_by_type s ->
    part s' = part s.









End ClientFrames.

(** ** The entity cache over a session *)

Section CacheSession.

Variable cfg : configuration.
Variable world : env.
Variable set_iter : list string -> list string.







(** X1.  A pass that returned is never repeated: every later call returns
    the same cache and leaves the state as it is, so nothing is fetched a
    second time. *)
Theorem cache_pass_is_memoized
  (fuel fuel' : nat) (s s' : client_state) (tables : list (string * table)) :
  sobjects_cache_by_type cfg world set_iter fuel s = (Ok tables, s') ->
  sobjects_cache_by_type cfg world set_iter fuel' s' = (Ok tables, s').
Proof.
  unfold sobjects_cache_by_type at 1. unfold bind, get_state, modify.
  destruct (_sobjects_cache_by_type s) as [cached|] eqn:Hc.
  - intros H. injection H as <- <-.
    unfold sobjects_cache_by_type, bind, get_state. now rewrite Hc.
  - destruct (_prepare_sobject_cache cfg world set_iter fuel "Account" _)
      as [[a|e|] s1]; try discriminate.
    destruct (_prepare_sobject_cache cfg world set_iter fuel "Contact" _)
      as [[c|e|] s2]; try discriminate.
    destruct (_prepare_sobject_cache cfg world set_iter fuel "Opportunity" _)
      as [[o|e|] s3]; try discriminate.
    destruct (_prepare_sobject_cache cfg world set_iter fuel "User" _)
      as [[u|e|] s4]; try discriminate.
    unfold ret. intros H. injection H as <- <-.
    unfold sobjects_cache_by_type, bind, get_state. reflexivity.
Qed.



End CacheSession.

(** ** More on the transport *)

Section TransportMore.

Variable cfg : configuration.
Variable world : env.

Lemma posts_emit (ev : event) (s : client_state) :
  posts (emit ev s) = (posts s ++ (if is_post ev then [ev] else []))%list.
Proof. unfold posts. cbn. rewrite filter_app. cbn. now destruct (is_post ev). Qed.

Lemma items_of_codes (errors : list (list (string * json))) (codes : list string) :
  error_codes_are errors codes ->
  items_of "errorCode" (map JObj errors) = Ok (map JStr codes).
Proof.
  induction 1 as [|entries code errors codes H _ IH]; cbn; [reflexivity|].
  now rewrite H, IH.
Qed.

Lemma py_strings_of_strings (codes : list string) :
  py_strings (map JStr codes) = Ok codes.
Proof. induction codes as [|c codes IH]; cbn; [reflexivity | now rewrite IH]. Qed.

Lemma str_in_strings (t : string) (codes : list string) :
  Py.str_in t (map JStr codes) = true <-> In t codes.
Proof.
  unfold Py.str_in. rewrite existsb_exists. split.
  - intros (x & Hx & He). apply in_map_iff in Hx. destruct Hx as (c & <- & Hc).
    cbn in He. apply String.eqb_eq in He. now subst.
  - intros H. exists (JStr t). split; [now apply in_map | cbn; apply String.eqb_refl].
Qed.

Lemma bool_in_strings (b : bool) (codes : list string) :
  Py.bool_in b (map JStr codes) = false.
Proof. induction codes as [|c codes IH]; cbn; [reflexivity | exact IH]. Qed.

(** The codes read from a body of string-coded entries, or from no body. *)
Lemma codes_of_body (errors : list (list (string * json))) (codes : list string)
  (body : json) :
  error_codes_are errors codes ->
  body = error_body errors \/ (body = JNull /\ errors = []) ->
  rbind (_handle_response_body_error body) (fun errs =>
    rbind (py_iter errs) (fun items => items_of "errorCode" items))
  = Ok (map JStr (codes_or_unknown codes)).
Proof.
  intros H [-> | [-> ->]].
  - destruct H as [|entries code errors codes H1 H2]; [reflexivity|].
    cbn [error_body map _handle_response_body_error py_len rbind List.length
         Nat.ltb Nat.leb py_iter codes_or_unknown].
    change (items_of "errorCode" (map JObj (entries :: errors)) =
            Ok (map JStr (code :: codes))).
    apply items_of_codes. now constructor.
  - inversion H. reflexivity.
Qed.

Lemma client_error_4xx_string_codes
  (errors : list (list (string * json))) (codes : list string) (body : json)
  (details : string) :
  error_codes_are errors codes ->
  body = error_body errors \/ (body = JNull /\ errors = []) ->
  client_error_4xx body details =
  Ok (if in_dec string_dec "REQUEST_LIMIT_EXCEEDED" codes
      then Exc RateLimitedException
             ("Salesforce is rate limiting this account. " ++ details ++ ", details: "
              ++ String.concat ", " (codes_or_unknown codes))
      else Exc RequestError
             ("The request to Salesforce failed. " ++ details ++ ", details: "
              ++ String.concat ", " (codes_or_unknown codes))).
Proof.
  intros H Hb. pose proof (codes_of_body errors codes body H Hb) as Hc.
  unfold client_error_4xx.
  destruct (_handle_response_body_error body) as [errs|e|]; cbn [rbind] in *;
    try discriminate.
  destruct (py_iter errs) as [items|e|]; cbn [rbind] in *; try discriminate.
  rewrite Hc. cbn [rbind].
  unfold py_join. rewrite bool_in_strings, py_strings_of_strings. cbn [rbind].
  destruct (in_dec string_dec "REQUEST_LIMIT_EXCEEDED" codes) as [Hin|Hnin].
  - assert (Hs : Py.str_in "REQUEST_LIMIT_EXCEEDED" (map JStr (codes_or_unknown codes)) = true).
    { apply str_in_strings. destruct codes; [destruct Hin | exact Hin]. }
    now rewrite Hs.
  - assert (Hs : Py.str_in "REQUEST_LIMIT_EXCEEDED" (map JStr (codes_or_unknown codes)) = false).
    { destruct (Py.str_in _ _) eqn:E; [|reflexivity]. apply str_in_strings in E.
      destruct codes as [|c codes]; [|now elim Hnin].
      cbn in E. destruct E as [E|[]]. discriminate E. }
    now rewrite Hs.
Qed.

Lemma items_of_raises (key : string) (items : list json) (e : exception) :
  items_of key items = Raise e -> has_class TypeError e \/ has_class KeyError e.
Proof.
  induction items as [|x items IH]; cbn; [discriminate|].
  destruct (py_getitem x key) as [v|e'|] eqn:Hx; cbn.
  - destruct (items_of key items) as [vs|e'|]; cbn; try discriminate.
    intros H. injection H as <-. now apply IH.
  - intros H. injection H as <-.
    destruct x as [| b | z | t | l | d]; cbn in Hx;
      try (injection Hx as <-; left; eexists; reflexivity).
    destruct (Py.lookup key d); [discriminate|].
    injection Hx as <-. right. eexists. reflexivity.
  - discriminate.
Qed.

Lemma py_join_raises (sep : string) (l : list json) (e : exception) :
  py_join sep l = Raise e -> has_class TypeError e.
Proof.
  unfold py_join.
  assert (H : forall e', py_strings l = Raise e' -> has_class TypeError e').
  { induction l as [|x l IH]; cbn; [discriminate|].
    destruct x; try (intros e' H; injection H as <-; eexists; reflexivity).
    destruct (py_strings l); cbn; try discriminate.
    intros e' H. injection H as <-. now apply IH. }
  destruct (py_strings l); cbn; try discriminate.
  intros He. injection He as <-. now apply H.
Qed.

Lemma body_error_raises (body : json) (e : exception) :
  _handle_response_body_error body = Raise e -> has_class TypeError e.
Proof.
  destruct body; cbn -[Nat.ltb]; try discriminate;
    try (intros H; injection H as <-; eexists; reflexivity);
    match goal with |- context [if ?c then _ else _] => destruct c end;
    discriminate.
Qed.

Lemma body_error_not_out_of_fuel (body : json) :
  _handle_response_body_error body <> OutOfFuel.
Proof.
  destruct body; cbn -[Nat.ltb]; try discriminate;
    match goal with |- context [if ?c then _ else _] => destruct c end;
    discriminate.
Qed.

(** When the 4xx branch fails before it has built its exception, it fails
    with a [TypeError] or a [KeyError]. *)
Lemma client_error_4xx_raises (body : json) (details : string) (e : exception) :
  client_error_4xx body details = Raise e ->
  has_class TypeError e \/ has_class KeyError e.
Proof.
  unfold client_error_4xx.
  destruct (_handle_response_body_error body) as [errs|e'|] eqn:Hb; cbn [rbind].
  2: { intros H. injection H as <-. left. now apply (body_error_raises body). }
  2: discriminate.
  destruct (py_iter errs) as [items|e'|] eqn:Hi; cbn [rbind].
  2: { intros H. injection H as <-. left.
       destruct errs; cbn in Hi; try discriminate;
         injection Hi as <-; eexists; reflexivity. }
  2: discriminate.
  destruct (items_of "errorCode" items) as [codes|e'|] eqn:Hc; cbn [rbind].
  2: { intros H. injection H as <-. now apply (items_of_raises _ _ _ Hc). }
  2: discriminate.
  destruct (Py.str_in _ codes).
  - destruct (py_join ", " codes) eqn:Hj; cbn [rbind]; try discriminate.
    intros H. injection H as <-. left. now apply (py_join_raises _ _ _ Hj).
  - destruct (Py.bool_in _ codes).
    + destruct (py_join ", " codes) eqn:Hj; cbn [rbind]; try discriminate.
      2: { intros H. injection H as <-. left. now apply (py_join_raises _ _ _ Hj). }
      destruct (items_of "message" items) as [ms|e'|] eqn:Hm; cbn [rbind];
        try discriminate.
      2: { intros H. injection H as <-. now apply (items_of_raises _ _ _ Hm). }
      destruct (py_join ", " ms) eqn:Hq; cbn [rbind]; try discriminate.
      intros H. injection H as <-. left. now apply (py_join_raises _ _ _ Hq).
    + destruct (py_join ", " codes) eqn:Hj; cbn [rbind]; try discriminate.
      intros H. injection H as <-. left. now apply (py_join_raises _ _ _ Hj).
Qed.

(** X3.  For a status other than 401 the handler of [ClientResponseError]
    is a classification only: it raises in the very state it was called in
    (no token change, no request, no log line), and what it raises is never
    an [InvalidQueryException], whatever the body. *)
Theorem handler_classifies_without_effect
  (response_body : json) (status : Z) (message : string) (s : client_state) :
  status <> 401%Z ->
  exists e,
    _handle_client_response_error cfg world response_body status message s =
      (Raise e, s) /\
    ~ has_class InvalidQueryException e.
Proof.
  intros Hs. apply Z.eqb_neq in Hs.
  unfold _handle_client_response_error. rewrite Hs.
  destruct ((400 <=? status)%Z && (status <? 500)%Z).
  - unfold bind, lift, raise.
    destruct (client_error_4xx response_body _) as [e|e|] eqn:Hc.
    + exists e. split; [reflexivity|]. intros [m ->].
      now apply client_error_4xx_never_invalid_query in Hc.
    + exists e. split; [reflexivity|].
      destruct (client_error_4xx_raises _ _ _ Hc) as [[m ->] | [m ->]];
        intros [m' H]; discriminate H.
    + exfalso. revert Hc. unfold client_error_4xx.
      destruct (_handle_response_body_error response_body) as [errs|e|] eqn:Hb;
        cbn [rbind]; try discriminate.
      2: { now elim (body_error_not_out_of_fuel response_body). }
      destruct (py_iter errs) as [items|e|] eqn:Hi; cbn [rbind]; try discriminate.
      2: { destruct errs; discriminate. }
      assert (Hio : forall key l, items_of key l <> OutOfFuel).
      { intros key l. induction l as [|x l IH]; cbn; [discriminate|].
        destruct (py_getitem x key) eqn:Hx; cbn; try discriminate.
        - destruct (items_of key l); cbn; try discriminate. now elim IH.
        - destruct x; cbn in Hx; try discriminate.
          destruct (Py.lookup key entries); discriminate. }
      assert (Hjo : forall sep l, py_join sep l <> OutOfFuel).
      { intros sep l. unfold py_join.
        assert (Hp : py_strings l <> OutOfFuel).
        { induction l as [|x l IH]; cbn; [discriminate|].
          destruct x; try discriminate.
          destruct (py_strings l); cbn; try discriminate. now elim IH. }
        destruct (py_strings l); cbn; try discriminate. now elim Hp. }
      destruct (items_of "errorCode" items) as [codes|e|] eqn:Hc'; cbn [rbind];
        try discriminate.
      2: { now elim (Hio "errorCode" items). }
      destruct (Py.str_in _ codes).
      * destruct (py_join ", " codes) eqn:Hj; cbn [rbind]; try discriminate.
        now elim (Hjo ", " codes).
      * destruct (Py.bool_in _ codes).
        -- destruct (py_join ", " codes) eqn:Hj; cbn [rbind]; try discriminate.
           2: now elim (Hjo ", " codes).
           destruct (items_of "message" items) as [ms|e|] eqn:Hm; cbn [rbind];
             try discriminate.
           2: now elim (Hio "message" items).
           destruct (py_join ", " ms) eqn:Hq; cbn [rbind]; try discriminate.
           now elim (Hjo ", " ms).
        -- destruct (py_join ", " codes) eqn:Hj; cbn [rbind]; try discriminate.
           now elim (Hjo ", " codes).
  - eexists. split; [reflexivity|]. intros [m H]. discriminate H.
Qed.

(** [_get_json] sends one GET per attempt, from one to three. *)
Lemma retry_get_json_gets (more interval : nat) (skipped : list exc_class)
  (url params : json) (s : client_state) :
  exists n : nat,
    (1 <= n <= S more)%nat /\
    List.length (gets (snd (retry_loop more interval skipped
                              (_get_json_once cfg world url params) s))) =
    (List.length (gets s) + n)%nat.
Proof.
  revert s; induction more as [|k IH]; intros s;
    pose proof (_get_json_once_gets cfg world url params s) as Hg;
    cbn [retry_loop];
    destruct (_get_json_once cfg world url params s) as [[a|e|] s1];
    cbn [snd] in *;
    try (exists 1%nat; split; [lia | rewrite Hg, length_app; reflexivity]).
  destruct (class_in e skipped); cbn [snd];
    [exists 1%nat; split; [lia | rewrite Hg, length_app; reflexivity]|].
  destruct (IH (emit (EvSleep interval) s1)) as (n & Hn & Hq).
  exists (S n). split; [lia|]. rewrite Hq, gets_emit. cbn [is_get].
  rewrite app_nil_r, Hg, length_app. cbn. lia.
Qed.

(** X4.  Whatever the remote party answers, a call of [_get_json] sends at
    least one GET and never more than [RETRIES] of them. *)
Theorem get_json_sends_one_to_three_gets (url params : json) (s : client_state) :
  exists n : nat,
    (1 <= n <= RETRIES)%nat /\
    List.length (gets (snd (_get_json cfg world url params s))) =
    (List.length (gets s) + n)%nat.
Proof. apply (retry_get_json_gets 2). Qed.

(** X5.  A 4xx answer (other than 401) whose error entries have string
    codes, one of them [REQUEST_LIMIT_EXCEEDED], makes [_get_json] raise
    [RateLimitedException] with all the codes in its message, after that
    single GET: no sleep, no second attempt, nothing else changed. *)
Theorem rate_limit_is_raised_at_once
  (url params : json) (s : client_state) (status : Z) (reason : string)
  (errors : list (list (string * json))) (codes : list string) :
  http_get world (List.length (gets s)) (get_request s url params) =
    Response status reason (Parsed (error_body errors)) ->
  (400 <= status < 500)%Z -> status <> 401%Z ->
  error_codes_are errors codes ->
  In "REQUEST_LIMIT_EXCEEDED" codes ->
  _get_json cfg world url params s =
  (Raise (Exc RateLimitedException
     ("Salesforce is rate limiting this account. "
      ++ ("status: " ++ Py.str_of_Z status ++ ", message: " ++ reason)
      ++ ", details: " ++ String.concat ", " codes)),
   after_get s url params).
Proof.
  intros Hx [H4 H5] H401 Hc Hin.
  unfold _get_json, retryable. apply retry_loop_skipped; [|reflexivity].
  unfold _get_json_once, bind. rewrite _get_eq, Hx. cbn [request_json].
  apply Z.leb_le in H4. rewrite H4.
  unfold _handle_client_response_error.
  apply Z.eqb_neq in H401. rewrite H401, H4. apply Z.ltb_lt in H5. rewrite H5.
  cbn [andb]. unfold bind, lift.
  rewrite (client_error_4xx_string_codes errors codes (error_body errors) _ Hc
             (or_introl eq_refl)).
  destruct (in_dec string_dec "REQUEST_LIMIT_EXCEEDED" codes) as [_|Hn];
    [|now elim Hn].
  destruct codes; [destruct Hin | reflexivity].
Qed.

(** X6.  A 4xx answer (other than 401) whose error entries have string
    codes without [REQUEST_LIMIT_EXCEEDED], [INVALID_FIELD] and the like
    included, or that has no entry at all (the code is then [unknown]),
    makes the attempt raise [RequestError] with the codes in its message;
    [_get_json] then tries again. *)
Theorem other_codes_raise_RequestError_and_are_retried
  (url params : json) (s : client_state) (status : Z) (reason : string)
  (errors : list (list (string * json))) (codes : list string) :
  http_get world (List.length (gets s)) (get_request s url params) =
    Response status reason (Parsed (error_body errors)) ->
  (400 <= status < 500)%Z -> status <> 401%Z ->
  error_codes_are errors codes ->
  ~ In "REQUEST_LIMIT_EXCEEDED" codes ->
  _get_json_once cfg world url params s =
    (Raise (Exc RequestError
       ("The request to Salesforce failed. "
        ++ ("status: " ++ Py.str_of_Z status ++ ", message: " ++ reason)
        ++ ", details: " ++ String.concat ", " (codes_or_unknown codes))),
     after_get s url params) /\
  (List.length (gets s) + 2 <=
   List.length (gets (snd (_get_json cfg world url params s))))%nat.
Proof.
  intros Hx [H4 H5] H401 Hc Hnin.
  assert (Honce : _get_json_once cfg world url params s =
    (Raise (Exc RequestError
       ("The request to Salesforce failed. "
        ++ ("status: " ++ Py.str_of_Z status ++ ", message: " ++ reason)
        ++ ", details: " ++ String.concat ", " (codes_or_unknown codes))),
     after_get s url params)).
  { unfold _get_json_once, bind. rewrite _get_eq, Hx. cbn [request_json].
    apply Z.leb_le in H4. rewrite H4.
    unfold _handle_client_response_error.
    apply Z.eqb_neq in H401. rewrite H401, H4. apply Z.ltb_lt in H5. rewrite H5.
    cbn [andb]. unfold bind, lift.
    rewrite (client_error_4xx_string_codes errors codes (error_body errors) _ Hc
               (or_introl eq_refl)).
    destruct (in_dec string_dec "REQUEST_LIMIT_EXCEEDED" codes) as [Hi|_];
      [now elim Hnin | reflexivity]. }
  split; [exact Honce|].
  unfold _get_json, retryable, RETRIES. cbn [Nat.pred].
  rewrite retry_loop_S, Honce. cbn [class_in existsb exc_class_eqb orb].
  destruct (retry_get_json_gets 1 RETRY_INTERVAL
              [RateLimitedException; InvalidQueryException] url params
              (emit (EvSleep RETRY_INTERVAL) (after_get s url params)))
    as (n & Hn & Hq).
  rewrite Hq, gets_emit. cbn [is_get]. rewrite app_nil_r.
  unfold after_get. rewrite !gets_emit. cbn [is_get].
  rewrite app_nil_r, length_app. cbn. lia.
Qed.

(** X7.  [generate] leaves the lock as it found it: a lock it took is
    released however the call ends, and a lock held by another call is not
    touched.  It posts exactly once when the lock was free and not at all
    when it was held. *)
Theorem generate_lock_and_posts (s : client_state) :
  lock (snd (generate cfg world s)) = lock s /\
  posts (snd (generate cfg world s)) =
  (posts s ++ (if lock s then [] else [EvPost (token_request cfg)]))%list.
Proof.
  destruct (lock s) eqn:H.
  - rewrite generate_locked by exact H. cbn [snd]. now rewrite H, app_nil_r.
  - destruct (generate_unlocked_effects cfg world s H) as (Hl & Ht & _).
    split; [exact Hl|]. unfold posts. rewrite Ht, filter_app. reflexivity.
Qed.

End TransportMore.

(** ** A rejected query under the retry policy *)

Section InvalidQueryRetry.

Variable cfg : configuration.
Variable world : env.

Lemma sleeps_emit (ev : event) (s : client_state) :
  sleeps (emit ev s) = (sleeps s ++ (if is_sleep ev then [ev] else []))%list.
Proof. unfold sleeps. cbn. rewrite filter_app. cbn. now destruct (is_sleep ev). Qed.

Lemma gets_after_get (s : client_state) (url params : json) :
  gets (after_get s url params) = (gets s ++ [EvGet (get_request s url params)])%list.
Proof.
  unfold after_get. rewrite !gets_emit. cbn [is_get]. now rewrite app_nil_r.
Qed.

Lemma sleeps_after_get (s : client_state) (url params : json) :
  sleeps (after_get s url params) = sleeps s.
Proof.
  unfold after_get. rewrite !sleeps_emit. cbn [is_sleep]. now rewrite !app_nil_r.
Qed.

(** An attempt that is answered 4xx with string codes, none of them
    [REQUEST_LIMIT_EXCEEDED]. *)
Lemma attempt_raises_RequestError
  (url params : json) (s : client_state) (status : Z) (reason : string)
  (errors : list (list (string * json))) (codes : list string) :
  http_get world (List.length (gets s)) (get_request s url params) =
    Response status reason (Parsed (error_body errors)) ->
  (400 <= status < 500)%Z -> status <> 401%Z ->
  error_codes_are errors codes ->
  ~ In "REQUEST_LIMIT_EXCEEDED" codes ->
  _get_json_once cfg world url params s =
    (Raise (Exc RequestError
       ("The request to Salesforce failed. "
        ++ ("status: " ++ Py.str_of_Z status ++ ", message: " ++ reason)
        ++ ", details: " ++ String.concat ", " (codes_or_unknown codes))),
     after_get s url params).
Proof.
  intros Hx [H4 H5] H401 Hc Hnin.
  unfold _get_json_once, bind. rewrite _get_eq, Hx. cbn [request_json].
  apply Z.leb_le in H4. rewrite H4.
  unfold _handle_client_response_error.
  apply Z.eqb_neq in H401. rewrite H401, H4. apply Z.ltb_lt in H5. rewrite H5.
  cbn [andb]. unfold bind, lift.
  rewrite (client_error_4xx_string_codes errors codes (error_body errors) _ Hc
             (or_introl eq_refl)).
  destruct (in_dec string_dec "REQUEST_LIMIT_EXCEEDED" codes) as [Hi|_];
    [now elim Hnin | reflexivity].
Qed.

(** C6, where the code departs from it.  A request that is answered, at
    every attempt, by a 4xx (other than 401) whose error codes include
    [INVALID_FIELD], [INVALID_TERM] or [MALFORMED_QUERY] (and not
    [REQUEST_LIMIT_EXCEEDED]) is not given up after one attempt: every
    attempt raises [RequestError], which the policy retries, so
    [_get_json] sends the same request three times, with two delays, and
    raises [RequestError] in the end. *)
Theorem invalid_query_codes_are_retried
  (url params : json) (s : client_state) (status : Z) (reason : string)
  (errors : list (list (string * json))) (codes : list string) :
  (forall n r,
     http_get world n r = Response status reason (Parsed (error_body errors))) ->
  (400 <= status < 500)%Z -> status <> 401%Z ->
  error_codes_are errors codes ->
  ~ In "REQUEST_LIMIT_EXCEEDED" codes ->
  has_invalid_query_code codes ->
  exists s3,
    _get_json cfg world url params s =
      (Raise (Exc RequestError
         ("The request to Salesforce failed. "
          ++ ("status: " ++ Py.str_of_Z status ++ ", message: " ++ reason)
          ++ ", details: " ++ String.concat ", " codes)),
       s3) /\
    gets s3 = (gets s ++ repeat (EvGet (get_request s url params)) 3)%list /\
    sleeps s3 =
      (sleeps s ++ [EvSleep RETRY_INTERVAL; EvSleep RETRY_INTERVAL])%list.
Proof.
  intros Hx Hst H401 Hc Hnin (code & _ & Hcode).
  assert (Hcodes : codes_or_unknown codes = codes)
    by (destruct codes; [destruct Hcode | reflexivity]).
  assert (Hattempt : forall st,
    _get_json_once cfg world url params st =
      (Raise (Exc RequestError
         ("The request to Salesforce failed. "
          ++ ("status: " ++ Py.str_of_Z status ++ ", message: " ++ reason)
          ++ ", details: " ++ String.concat ", " codes)),
       after_get st url params)).
  { intros st. rewrite <- Hcodes at 1.
    apply (attempt_raises_RequestError url params st status reason errors codes);
      auto. }
  set (s1 := after_get s url params).
  set (s2 := after_get (emit (EvSleep RETRY_INTERVAL) s1) url params).
  exists (after_get (emit (EvSleep RETRY_INTERVAL) s2) url params).
  split; [|split].
  - unfold _get_json, retryable, RETRIES. cbn [Nat.pred].
    rewrite retry_loop_S, Hattempt. cbn [class_in existsb exc_class_eqb orb].
    rewrite retry_loop_S, Hattempt. cbn [class_in existsb exc_class_eqb orb].
    cbn [retry_loop]. fold s1. fold s2. now rewrite Hattempt.
  - unfold s2, s1. rewrite gets_after_get, gets_emit, gets_after_get, gets_emit,
      gets_after_get. cbn [is_get]. rewrite !app_nil_r, <- !app_assoc.
    reflexivity.
  - unfold s2, s1. rewrite sleeps_after_get, sleeps_emit, sleeps_after_get,
      sleeps_emit, sleeps_after_get. cbn [is_sleep]. now rewrite <- app_assoc.
Qed.

End InvalidQueryRetry.

(** ** An expired token *)

Section ExpiredToken.

Variable cfg : configuration.
Variable world : env.

Lemma posts_set_token (t : json) (s : client_state) : posts (set_token t s) = posts s.
Proof. reflexivity. Qed.
Lemma posts_set_lock (b : bool) (s : client_state) : posts (set_lock b s) = posts s.
Proof. reflexivity. Qed.
Lemma gets_set_token (t : json) (s : client_state) : gets (set_token t s) = gets s.
Proof. reflexivity. Qed.
Lemma gets_set_lock (b : bool) (s : client_state) : gets (set_lock b s) = gets s.
Proof. reflexivity. Qed.

Lemma generate_success (s : client_state) (status : Z) (reason : string)
  (body t : json) :
  lock s = false ->
  http_post world (List.length (posts s)) (token_request cfg) =
    Response status reason (Parsed body) ->
  (status < 400)%Z ->
  py_getitem body "access_token" = Ok t ->
  generate cfg world s =
  (Ok tt, set_lock false (set_token t (emit (EvPost (token_request cfg)) (set_lock true s)))).
Proof.
  intros Hl Hx Hst Ht. unfold generate, _non_blocking_lock, try_finally.
  rewrite Hl. unfold bind, session_post, posts in *.
  cbn [lock set_lock emit trace]. rewrite Hx. cbn [request_json].
  apply Z.leb_gt in Hst. rewrite Hst. unfold lift. now rewrite Ht.
Qed.

Lemma _get_json_once_success (url params : json) (s : client_state)
  (status : Z) (reason : string) (body : json) :
  http_get world (List.length (gets s)) (get_request s url params) =
    Response status reason (Parsed body) ->
  (status < 400)%Z ->
  _get_json_once cfg world url params s = (Ok body, after_get s url params).
Proof.
  intros Hx Hst. unfold _get_json_once, bind. rewrite _get_eq, Hx.
  cbn [request_json]. apply Z.leb_gt in Hst. now rewrite Hst.
Qed.

(** X8.  A 401 answer, with the lock free and a token endpoint that hands
    out the token [t]: the client drops its token, posts once for a new
    one, and [_get_json] sends the same request a second time, now with
    [Bearer t]; the answer to that second GET is what [_get_json] returns.
    Afterwards the stored token is [t] and the lock is free. *)
Theorem expired_token_is_refreshed_and_request_repeated
  (url params : json) (s : client_state) (reason401 : string) (body401 : json)
  (status_t : Z) (reason_t : string) (body_t t : json)
  (status : Z) (reason : string) (body : json) :
  lock s = false ->
  http_get world (List.length (gets s)) (get_request s url params) =
    Response 401 reason401 (Parsed body401) ->
  http_post world (List.length (posts s)) (token_request cfg) =
    Response status_t reason_t (Parsed body_t) ->
  (status_t < 400)%Z ->
  py_getitem body_t "access_token" = Ok t ->
  http_get world (S (List.length (gets s)))
    (mkRequest url [("authorization", "Bearer " ++ Py.str t)] params) =
    Response status reason (Parsed body) ->
  (status < 400)%Z ->
  exists s',
    _get_json cfg world url params s = (Ok body, s') /\
    _token s' = t /\ lock s' = false /\
    gets s' =
      (gets s ++ [ EvGet (get_request s url params);
                   EvGet (mkRequest url
                            [("authorization", ("Bearer " ++ Py.str t)%string)]
                            params) ])%list /\
    posts s' = (posts s ++ [EvPost (token_request cfg)])%list.
Proof.
  intros Hlock H401 Hpost Hst_t Htok Hget Hst.
  set (warning := EvLog Warning
         ("Token expired, attemping to fetch new token. Status: "
          ++ Py.str_of_Z 401 ++ ", message: " ++ reason401)).
  set (s1 := after_get s url params).
  set (s2 := set_token JNull (emit warning s1)).
  set (s3 := set_lock false
               (set_token t (emit (EvPost (token_request cfg)) (set_lock true s2)))).
  assert (Hp2 : posts s2 = posts s).
  { unfold s2, s1, after_get. rewrite posts_set_token, !posts_emit.
    cbn [is_post]. now rewrite !app_nil_r. }
  assert (Hgen : generate cfg world s2 = (Ok tt, s3)).
  { apply (generate_success s2 status_t reason_t body_t t);
      [exact Hlock | now rewrite Hp2 | exact Hst_t | exact Htok]. }
  assert (Htoken : get_token cfg world s2 = (Ok tt, s3)).
  { unfold get_token, retryable. apply retry_loop_ok.
    unfold get_token_once, try_except. now rewrite Hgen. }
  assert (Honce : _get_json_once cfg world url params s =
                  (Raise (ClientResponseError 401 reason401), s3)).
  { unfold _get_json_once, bind. rewrite _get_eq, H401. cbn [request_json].
    change (400 <=? 401)%Z with true. cbv iota.
    unfold _handle_client_response_error. change (401 =? 401)%Z with true.
    cbv iota. unfold bind, log, clear, modify.
    unfold s2, s1, warning in Htoken. now rewrite Htoken. }
  set (s4 := emit (EvSleep RETRY_INTERVAL) s3).
  assert (Hg4 : gets s4 = (gets s ++ [EvGet (get_request s url params)])%list).
  { unfold s4, s3, s2, s1, after_get.
    rewrite gets_emit, gets_set_lock, gets_set_token, gets_emit, gets_set_lock,
      gets_set_token, !gets_emit.
    cbn [is_get]. now rewrite !app_nil_r. }
  assert (Hsecond : _get_json_once cfg world url params s4 =
                    (Ok body, after_get s4 url params)).
  { apply (_get_json_once_success url params s4 status reason body); [|exact Hst].
    rewrite Hg4, length_app. cbn [List.length]. rewrite Nat.add_1_r. exact Hget. }
  exists (after_get s4 url params). split; [|split; [|split; [|split]]].
  - unfold _get_json, retryable, RETRIES. cbn [Nat.pred].
    rewrite retry_loop_S, Honce. cbn [class_in]. fold s4.
    now apply retry_loop_ok.
  - reflexivity.
  - reflexivity.
  - unfold after_get. rewrite !gets_emit. cbn [is_get]. rewrite app_nil_r, Hg4.
    now rewrite <- app_assoc.
  - unfold after_get, s4, s3.
    rewrite !posts_emit, posts_set_lock, posts_set_token, posts_emit,
      posts_set_lock, Hp2.
    cbn [is_post]. now rewrite !app_nil_r.
Qed.

(** X9.  The handler meets a 401 while another refresh holds the lock: it
    writes its warning, drops the stored token, and [get_token] comes back
    with its debug line only, having posted nothing and slept for nothing;
    the 401 error is raised again.  So the handler ends without a token:
    a new one can only come from the call that holds the lock. *)
Theorem expired_token_during_a_refresh_is_only_cleared
  (s : client_state) (reason : string) (body : json) :
  lock s = true ->
  let warning := EvLog Warning
    ("Token expired, attemping to fetch new token. Status: 401, message: " ++ reason) in
  let s' := emit (EvLog Debug "Token generation is already in process.")
              (set_token JNull (emit warning s)) in
  _handle_client_response_error cfg world body 401 reason s =
    (Raise (ClientResponseError 401 reason), s') /\
  _token s' = JNull /\ lock s' = true /\ posts s' = posts s /\ gets s' = gets s.
Proof.
  intros Hlock warning s'.
  set (s2 := set_token JNull (emit warning s)).
  assert (Htoken : get_token cfg world s2 =
            (Ok tt, emit (EvLog Debug "Token generation is already in process.") s2)).
  { unfold get_token, retryable. apply retry_loop_ok.
    unfold get_token_once, try_except.
    now rewrite (generate_locked cfg world s2 Hlock). }
  split; [|split; [reflexivity | split; [exact Hlock | split]]].
  - unfold _handle_client_response_error. change (401 =? 401)%Z with true.
    cbv iota. unfold bind, log, clear, modify.
    match goal with
    | |- context [get_token cfg world ?st] => change st with s2
    end.
    now rewrite Htoken.
  - unfold s', warning. rewrite posts_emit, posts_set_token, posts_emit.
    cbn [is_post]. now rewrite !app_nil_r.
  - unfold s', warning. rewrite gets_emit, gets_set_token, gets_emit.
    cbn [is_get]. now rewrite !app_nil_r.
Qed.

(** X10.  A token answer below status 400 whose body is an object without
    [access_token]: [generate] raises [KeyError] for the missing key, keeps
    the token it had and releases the lock; [get_token] does not skip this
    exception and posts again. *)
Theorem token_answer_without_access_token
  (s : client_state) (status : Z) (reason : string) (entries : list (string * json)) :
  lock s = false ->
  http_post world (List.length (posts s)) (token_request cfg) =
    Response status reason (Parsed (JObj entries)) ->
  (status < 400)%Z ->
  Py.lookup "access_token" entries = None ->
  exists s',
    generate cfg world s = (Raise (Exc KeyError "'access_token'"), s') /\
    _token s' = _token s /\ lock s' = false /\
    (List.length (posts s) + 2 <=
     List.length (posts (snd (get_token cfg world s))))%nat.
Proof.
  intros Hl Hx Hst Hk.
  set (s1 := set_lock false (emit (EvPost (token_request cfg)) (set_lock true s))).
  assert (Hgen : generate cfg world s = (Raise (Exc KeyError "'access_token'"), s1)).
  { unfold generate, _non_blocking_lock, try_finally. rewrite Hl.
    unfold bind, session_post, posts in *. cbn [lock set_lock emit trace].
    rewrite Hx. cbn [request_json]. apply Z.leb_gt in Hst. rewrite Hst.
    unfold lift. cbn [py_getitem]. now rewrite Hk. }
  exists s1. split; [exact Hgen|]. split; [reflexivity|]. split; [reflexivity|].
  assert (Honce : get_token_once cfg world s = (Raise (Exc KeyError "'access_token'"), s1))
    by (unfold get_token_once, try_except; now rewrite Hgen).
  unfold get_token, retryable, RETRIES. cbn [Nat.pred].
  rewrite retry_loop_S, Honce. cbn [class_in existsb exc_class_eqb orb].
  destruct (retry_get_token_posts cfg world 1 RETRY_INTERVAL
              [InvalidCredentialsException] (emit (EvSleep RETRY_INTERVAL) s1))
    as (n & Hn & Hq); [reflexivity|].
  rewrite Hq, posts_emit. cbn [is_post]. rewrite app_nil_r.
  unfold s1. rewrite posts_set_lock, posts_emit, posts_set_lock. cbn [is_post].
  rewrite !length_app, repeat_length. cbn. lia.
Qed.

End ExpiredToken.

(** ** Tables, field lists and addresses *)

Module PureFacts.
Import DocMapper MapperDomain.

Lemma key_eqb_str (i : string) (k : json) :
  py_key_eqb (JStr i) k = true -> k = JStr i.
Proof.
  destruct k; cbn; try discriminate.
  intros H. apply String.eqb_eq in H. now subst.
Qed.

Lemma table_find_put_str (i j : string) (v : json) (t : table) :
  table_find (JStr i) (table_put (JStr j) v t) =
  if i =? j then Some v else table_find (JStr i) t.
Proof.
  induction t as [|[k w] t IH]; cbn [table_put table_find].
  - cbn. now destruct (i =? j).
  - destruct (py_key_eqb (JStr j) k) eqn:Hk; cbn [table_find].
    + apply key_eqb_str in Hk. subst k. cbn [py_key_eqb].
      now destruct (i =? j).
    + rewrite IH. destruct (i =? j) eqn:Hij; [|reflexivity].
      apply String.eqb_eq in Hij. subst j. now rewrite Hk.
Qed.

Lemma cache_records_found
  (records : list json) (ids : list string) (before : table) :
  ids_are records ids ->
  NoDup ids ->
  exists after,
    cache_records records before = Ok after /\
    (forall record id,
       In (record, id) (combine records ids) ->
       table_find (JStr id) after = Some record) /\
    (forall id,
       ~ In id ids -> table_find (JStr id) after = table_find (JStr id) before).
Proof.
  intros H. revert before.
  induction H as [|record id records ids Hid _ IH]; intros before Hnd.
  - exists before. split; [reflexivity | split; [intros r i [] | reflexivity]].
  - inversion Hnd as [|? ? Hnotin Hnd']; subst.
    destruct (IH (table_put (JStr id) record before) Hnd') as (after & Hc & Hin & Hout).
    exists after. split; [|split].
    + cbn [cache_records]. rewrite Hid. cbn. exact Hc.
    + intros r i [Heq | Hi].
      * injection Heq as <- <-. rewrite Hout by exact Hnotin.
        rewrite table_find_put_str. now rewrite String.eqb_refl.
      * now apply Hin.
    + intros i Hi. rewrite Hout by (intros Hx; apply Hi; now right).
      rewrite table_find_put_str.
      destruct (i =? id) eqn:E; [|reflexivity].
      apply String.eqb_eq in E. subst. elim Hi. now left.
Qed.

(** X11.  A batch of records with pairwise different string identifiers is
    cached so that every record is found under its own identifier, and an
    identifier that is not in the batch still finds what the table had for
    it before. *)
Theorem cache_records_finds_each_record
  (records : list json) (ids : list string) (before : table) :
  ids_are records ids ->
  NoDup ids ->
  exists after,
    cache_records records before = Ok after /\
    (forall record id,
       In (record, id) (combine records ids) ->
       table_find (JStr id) after = Some record) /\
    (forall id,
       ~ In id ids -> table_find (JStr id) after = table_find (JStr id) before).
Proof. apply cache_records_found. Qed.

(** X12.  The field names kept from a describe answer are lower-cased names
    of [RELEVANT_SOBJECT_FIELDS]: a field outside that list is never
    kept, whatever the remote party describes. *)
Theorem relevant_field_names_are_relevant (fields : list json) (names : list string) :
  relevant_field_names fields = Ok names ->
  forall name, In name names ->
    exists field, In field RELEVANT_SOBJECT_FIELDS /\ name = Py.lower field.
Proof.
  revert names. induction fields as [|f fields IH]; intros names; cbn [relevant_field_names].
  - intros H. injection H as <-. intros name [].
  - destruct (py_getitem f "name") as [n|e|]; cbn [rbind]; try discriminate.
    destruct (py_in_strings n RELEVANT_SOBJECT_FIELDS) eqn:Hrel; [|apply IH].
    destruct n as [| b | z | t | l | d]; try discriminate Hrel.
    cbn [py_lower rbind].
    destruct (relevant_field_names fields) as [rest|e|]; cbn [rbind]; try discriminate.
    intros H. injection H as <-. intros name [<- | Hin].
    + exists t. split; [|reflexivity].
      unfold py_in_strings, Py.mem in Hrel. apply existsb_exists in Hrel.
      destruct Hrel as (x & Hx & He). apply String.eqb_eq in He. now subst.
    + now apply (IH rest).
Qed.

Lemma join_nonempty_strings (sep : string) (l : list string) :
  py_join sep (filter Py.truthy (map JStr l)) =
  Ok (String.concat sep (filter (fun t => negb (t =? "")) l)).
Proof.
  unfold py_join.
  assert (H : py_strings (filter Py.truthy (map JStr l)) =
              Ok (filter (fun t => negb (t =? "")) l)).
  { induction l as [|t l IH]; cbn; [reflexivity|].
    destruct (negb (t =? "")); cbn; [now rewrite IH | exact IH]. }
  now rewrite H.
Qed.

Lemma filter_split {A} (f : A -> bool) (x y : A) (l : list A) :
  filter f (x :: y :: l) = (filter f [x] ++ filter f (y :: l))%list.
Proof. cbn. now destruct (f x). Qed.

Lemma part_filtered (a : list (string * json)) (k : string) (rest : list json) :
  address_part_ok a k = true ->
  filter Py.truthy
    (match Py.lookup k a with Some v => v | None => JNull end :: rest) =
  filter Py.truthy (JStr (part_text a k) :: rest).
Proof.
  unfold address_part_ok, part_text.
  destruct (Py.lookup k a) as [v|]; [|reflexivity].
  destruct v; cbn; try reflexivity; intros H;
    apply negb_true_iff in H; cbn in H; now rewrite H.
Qed.

(** X13.  For an address object that is not empty and whose street, city,
    state and country are each absent, empty or a string,
    [_format_address] gives the parts that are not empty, in the order
    street, city, state, postal code, country, separated by a comma and a
    space.  The postal code goes through [str]: a number is written in
    decimal, and a [null] postal code is written [None]. *)
Theorem format_address_joins_the_parts (a : list (string * json)) :
  a <> [] ->
  address_part_ok a "street" = true -> address_part_ok a "city" = true ->
  address_part_ok a "state" = true -> address_part_ok a "country" = true ->
  _format_address (JObj a) =
  Ok (JStr (String.concat ", "
              (filter (fun t => negb (t =? "")) (address_parts a)))).
Proof.
  intros Ha H1 H2 H3 H4. unfold _format_address.
  destruct a as [|e a]; [now elim Ha|]. cbn [Py.truthy negb py_get rbind].
  set (a' := e :: a) in *.
  assert (Hf : filter Py.truthy
    [ match Py.lookup "street" a' with Some v => v | None => JNull end;
      match Py.lookup "city" a' with Some v => v | None => JNull end;
      match Py.lookup "state" a' with Some v => v | None => JNull end;
      JStr (Py.str match Py.lookup "postalCode" a' with
                   | Some v => v | None => JStr "" end);
      match Py.lookup "country" a' with Some v => v | None => JNull end ] =
    filter Py.truthy (map JStr (address_parts a'))).
  { pose proof (part_filtered a' "street" [] H1) as E1.
    pose proof (part_filtered a' "city" [] H2) as E2.
    pose proof (part_filtered a' "state" [] H3) as E3.
    pose proof (part_filtered a' "country" [] H4) as E4.
    unfold address_parts. cbn [map].
    rewrite !filter_split, E1, E2, E3, E4. reflexivity. }
  rewrite Hf, join_nonempty_strings. reflexivity.
Qed.

End PureFacts.

(** ** The schema introspector *)

Section Introspector.

Variable cfg : configuration.
Variable world : env.

(** The request of the global describe call. *)
Let describe_url : json := JStr (base_url cfg ++ DESCRIBE_ENDPOINT).

(** The body of the loop over the describe listing. *)
Let listing_body : json -> M unit :=
  fun sobject =>
    bind (lift (py_getitem sobject "queryable")) (fun queryable =>
      if Py.is_True queryable then
        bind (lift (py_getitem sobject "name")) (fun name =>
          if py_in_strings name RELEVANT_SOBJECTS then
            bind (lift (py_getitem sobject "name")) (fun name' =>
              bind (lift (py_lower name')) (fun lowered =>
                modify (append_queryable_sobject lowered)))
          else ret tt)
      else ret tt).

Lemma listing_step (item : list (string * json)) (s : client_state) (acc : list string) :
  _queryable_sobjects s = Some acc ->
  described item ->
  exists s',
    listing_body (JObj item) s = (Ok tt, s') /\
    _queryable_sobjects s' = Some (acc ++ listed_as_queryable item)%list /\
    trace s' = trace s.
Proof.
  intros Hs [Hq Hn]. unfold listing_body, listed_as_queryable, bind, lift, modify, ret.
  cbn [py_getitem].
  destruct (Py.lookup "queryable" item) as [q|]; [|now elim Hq].
  destruct (Py.lookup "name" item) as [n|]; [|now elim Hn].
  assert (Hsame : exists s', (Ok tt, s) = (Ok tt, s') /\
            _queryable_sobjects s' = Some (acc ++ [])%list /\ trace s' = trace s)
    by (exists s; rewrite app_nil_r; auto).
  destruct q as [| [|] | | | |]; cbn [Py.is_True]; try exact Hsame.
  destruct n as [| | | name | |]; cbn [py_in_strings]; try exact Hsame.
  destruct (Py.mem name RELEVANT_SOBJECTS); [|exact Hsame].
  cbn [py_lower]. eexists. split; [reflexivity|].
  unfold append_queryable_sobject. cbn. now rewrite Hs.
Qed.

Lemma listing_loop (items : list (list (string * json))) :
  forall (s : client_state) (acc : list string),
    _queryable_sobjects s = Some acc ->
    Forall described items ->
    exists s',
      for_each (map JObj items) listing_body s = (Ok tt, s') /\
      _queryable_sobjects s' = Some (acc ++ flat_map listed_as_queryable items)%list /\
      trace s' = trace s.
Proof.
  induction items as [|item items IH]; intros s acc Hs Hd.
  - exists s. cbn. now rewrite app_nil_r.
  - inversion Hd as [|? ? Hi Hd']; subst.
    destruct (listing_step item s acc Hs Hi) as (s1 & H1 & Hq1 & Ht1).
    destruct (IH s1 _ Hq1 Hd') as (s' & Hf & Hq & Ht).
    exists s'. cbn [map for_each flat_map]. unfold bind. rewrite H1, Hf.
    split; [reflexivity|]. split; [now rewrite Hq, <- app_assoc | congruence].
Qed.

(** X14.  The first call of [queryable_sobjects] sends the global describe
    request, once, and keeps from the listing the lower-cased name of every
    entry that has [queryable] set to [true] and a name among
    [RELEVANT_SOBJECTS], in the order of the listing.  The result is stored,
    and [_is_queryable] answers from it afterwards, whatever the case of the
    name it is asked for, without a request. *)
Theorem queryable_sobjects_keeps_relevant_queryables
  (s : client_state) (status : Z) (reason : string)
  (answer : list (string * json)) (items : list (list (string * json))) :
  _queryable_sobjects s = None ->
  http_get world (List.length (gets s)) (get_request s describe_url JNull) =
    Response status reason (Parsed (JObj answer)) ->
  (status < 400)%Z ->
  Py.lookup "sobjects" answer = Some (JArr (map JObj items)) ->
  Forall described items ->
  exists s',
    queryable_sobjects cfg world s = (Ok (flat_map listed_as_queryable items), s') /\
    gets s' = (gets s ++ [EvGet (get_request s describe_url JNull)])%list /\
    forall sobject,
      _is_queryable cfg world sobject s' =
      (Ok (Py.mem (Py.lower sobject) (flat_map listed_as_queryable items)), s').
Proof.
  intros Hnone Hx Hst Hl Hd.
  unfold queryable_sobjects. unfold bind at 1, get_state at 1. rewrite Hnone.
  unfold bind at 1. fold describe_url.
  rewrite (_get_json_success cfg world _ _ s status reason (JObj answer) Hx Hst).
  unfold bind at 1, modify at 1. unfold bind at 1, lift at 1. cbn [py_get].
  rewrite Hl. unfold bind at 1, lift at 1. cbn [py_iter]. unfold bind at 1.
  destruct (listing_loop items
              (set_queryable_sobjects (Some []) (after_get s describe_url JNull)) []
              eq_refl Hd) as (s' & Hf & Hq & Ht).
  change (for_each (map JObj items) _ ?st) with
    (for_each (map JObj items) listing_body st).
  rewrite Hf. unfold bind, get_state, ret. rewrite Hq. cbn [app].
  exists s'. split; [reflexivity|]. split.
  - unfold gets. rewrite Ht. cbn [trace set_queryable_sobjects].
    fold (gets (after_get s describe_url JNull)).
    unfold after_get. rewrite !gets_emit. cbn [is_get]. now rewrite app_nil_r.
  - intros sobject. unfold _is_queryable, queryable_sobjects, bind, get_state, ret.
    now rewrite Hq.
Qed.

End Introspector.

(** ** More on the document mapper *)

Module MapperMore.
Import DocMapper MapperDomain MapperFacts.

Lemma map_account_provenance (base : string) (r : list (string * json)) :
  account_ok r = true ->
  exists doc, map_account base (JObj r) = Ok (JObj doc) /\ provenance base "account" r doc.
Proof.
  unfold account_ok. intros H.
  apply andb_prop in H. destruct H as [H Haddr].
  apply andb_prop in H. destruct H as [Ho Hopp].
  destruct (format_address_total r Haddr) as (formatted & Hfmt & _).
  unfold map_account. cbn [py_get rbind].
  assert (Hown : exists o,
            match Py.lookup "Owner" r with Some v => v | None => JObj [] end = JObj o).
  { destruct (sub_record_cases r "Owner" Ho) as [E | [o E]]; rewrite E; eauto. }
  destruct Hown as (o & ->).
  match goal with
  | |- exists doc, rbind _ (fun recs => rbind _ (fun n => rbind _ ?K)) = _ /\ _ =>
      destruct (first_opportunity r K Hopp) as (x & _ & Hx)
  end.
  rewrite Hx. cbv beta.
  destruct x as [|e x]; cbn [Py.truthy py_get rbind]; rewrite Hfmt;
    cbn [py_get rbind]; eexists; (split; [reflexivity|]);
    unfold provenance, field; cbn; repeat split; reflexivity.
Qed.

Lemma map_opportunity_provenance (base : string) (r : list (string * json)) :
  opportunity_ok r = true ->
  exists doc,
    map_opportunity base (JObj r) = Ok (JObj doc) /\ provenance base "opportunity" r doc.
Proof.
  unfold opportunity_ok. intros H. unfold map_opportunity. cbn [py_get rbind].
  destruct (sub_record_cases r "Owner" H) as [Ho | [o Ho]]; rewrite Ho;
    cbn [py_get rbind]; eexists; (split; [reflexivity|]);
    unfold provenance, field; cbn; repeat split; reflexivity.
Qed.

Lemma map_contact_provenance (base : string) (r : list (string * json)) :
  contact_ok r = true ->
  exists doc, map_contact base (JObj r) = Ok (JObj doc) /\ provenance base "contact" r doc.
Proof.
  unfold contact_ok. intros H. apply andb_prop in H. destruct H as [Ha Ho].
  unfold map_contact. cbn [py_get rbind].
  destruct (sub_record_cases r "Account" Ha) as [Ea | [a Ea]];
  destruct (sub_record_cases r "Owner" Ho) as [Eo | [o Eo]]; rewrite Ea, Eo;
    cbn [py_get rbind]; eexists; (split; [reflexivity|]);
    unfold provenance, field; cbn; repeat split; reflexivity.
Qed.

Lemma map_lead_provenance (base : string) (r : list (string * json)) :
  lead_ok r = true ->
  exists doc, map_lead base (JObj r) = Ok (JObj doc) /\ provenance base "lead" r doc.
Proof.
  unfold lead_ok. intros H.
  apply andb_prop in H. destruct H as [H Hopp].
  apply andb_prop in H. destruct H as [H Hcon].
  apply andb_prop in H. destruct H as [Ho Hacc].
  unfold map_lead. cbn [py_get rbind].
  destruct (sub_record_cases r "Owner" Ho) as [Eo | [o Eo]];
  destruct (sub_record_cases r "ConvertedAccount" Hacc) as [Ea | [a Ea]];
  destruct (sub_record_cases r "ConvertedContact" Hcon) as [Ec | [c Ec]];
  destruct (sub_record_cases r "ConvertedOpportunity" Hopp) as [Ep | [p Ep]];
    rewrite Eo, Ea, Ec, Ep;
    cbn [py_get rbind]; eexists; (split; [reflexivity|]);
    unfold provenance, field; cbn; repeat split; reflexivity.
Qed.

(** X15.  On the records they accept, all four mappers give a document
    that says where it comes from: [source] is ["salesforce"], [type] is
    the entity tag, [_id] is the [Id] of the record and [url] is the base
    URL, a slash and that [Id] as [str] renders it.  For a record without
    [Id] the [_id] is [None] and the [url] ends in [/None]. *)
Theorem documents_carry_provenance (base : string) (r : list (string * json)) :
  (account_ok r = true ->
   exists doc, map_account base (JObj r) = Ok (JObj doc) /\
               provenance base "account" r doc) /\
  (opportunity_ok r = true ->
   exists doc, map_opportunity base (JObj r) = Ok (JObj doc) /\
               provenance base "opportunity" r doc) /\
  (contact_ok r = true ->
   exists doc, map_contact base (JObj r) = Ok (JObj doc) /\
               provenance base "contact" r doc) /\
  (lead_ok r = true ->
   exists doc, map_lead base (JObj r) = Ok (JObj doc) /\
               provenance base "lead" r doc).
Proof.
  repeat split.
  - apply map_account_provenance.
  - apply map_opportunity_provenance.
  - apply map_contact_provenance.
  - apply map_lead_provenance.
Qed.

Lemma lookup_set_item (k k' : string) (v : json) (d : list (string * json)) :
  Py.lookup k (Py.set_item k' v d) = if k =? k' then Some v else Py.lookup k d.
Proof.
  induction d as [|[k0 v0] d IH]; cbn [Py.set_item Py.lookup].
  - cbn. now destruct (k =? k').
  - destruct (k' =? k0) eqn:E0; cbn [Py.lookup].
    + apply String.eqb_eq in E0. subst k0. now destruct (k =? k').
    + rewrite IH. destruct (k =? k') eqn:E; [|reflexivity].
      apply String.eqb_eq in E. subst k'. now rewrite E0.
Qed.

(** X16.  What [get_contacts] does with one record: the account and the
    owner are looked up in the cache tables under the record's [AccountId]
    and [OwnerId] (an identifier the table does not have gives the empty
    object), stored in the record, and [map_contact] then names them in the
    document: [account] is the cached account's [Name], [owner] the cached
    user's [Name], and the two URLs end in the identifiers. *)
Theorem contact_is_enriched_from_the_cache
  (base : string) (sobjects_by_id : list (string * table)) (accounts users : table)
  (r account owner : list (string * json)) (account_id owner_id : string) :
  assoc_find "Account" sobjects_by_id = Some accounts ->
  assoc_find "User" sobjects_by_id = Some users ->
  Py.lookup "AccountId" r = Some (JStr account_id) ->
  Py.lookup "OwnerId" r = Some (JStr owner_id) ->
  table_get accounts (JStr account_id) (JObj []) = Ok (JObj account) ->
  table_get users (JStr owner_id) (JObj []) = Ok (JObj owner) ->
  account_id <> "" -> owner_id <> "" ->
  exists r1 r2 doc,
    resolve sobjects_by_id (JObj r) "Account" "Account" "AccountId" = Ok r1 /\
    resolve sobjects_by_id r1 "Owner" "User" "OwnerId" = Ok r2 /\
    map_contact base r2 = Ok (JObj doc) /\
    Py.lookup "account" doc = Some (field account "Name" JNull) /\
    Py.lookup "owner" doc = Some (field owner "Name" JNull) /\
    Py.lookup "account_url" doc = Some (JStr (base ++ "/" ++ account_id)) /\
    Py.lookup "owner_url" doc = Some (JStr (base ++ "/" ++ owner_id)).
Proof.
  intros Ha Hu Hai Hoi Hta Htu Hne1 Hne2.
  apply String.eqb_neq in Hne1, Hne2.
  eexists. eexists. eexists.
  split; [|split; [|split]].
  - unfold resolve, cache_table. rewrite Ha. cbn [rbind py_get].
    rewrite Hai, Hta. cbn [rbind py_setitem]. reflexivity.
  - unfold resolve, cache_table. rewrite Hu. cbn [rbind py_get].
    rewrite lookup_set_item. cbn [String.eqb Ascii.eqb Bool.eqb].
    rewrite Hoi, Htu. cbn [rbind py_setitem]. reflexivity.
  - unfold map_contact. cbn [py_get rbind]. rewrite !lookup_set_item.
    cbn [String.eqb Ascii.eqb Bool.eqb]. rewrite Hai, Hoi. cbn [py_get rbind].
    reflexivity.
  - unfold url_if, field. cbn [Py.truthy Py.str]. rewrite Hne1, Hne2. cbn.
    repeat split; reflexivity.
Qed.

End MapperMore.

(** ** The entity fetches and the data source *)

Section OrchestratorFacts.

Variable cfg : configuration.
Variable world : env.
Variable set_iter : list string -> list string.

Lemma is_queryable_cached (sobject : string) (listed : list string) (s : client_state) :
  _queryable_sobjects s = Some listed ->
  _is_queryable cfg world sobject s = (Ok (Py.mem (Py.lower sobject) listed), s).
Proof.
  intros H. unfold _is_queryable, queryable_sobjects, bind, get_state, ret.
  now rewrite H.
Qed.

(** X17.  With the describe listing at hand, the fetch of an entity type
    that is not in it does nothing but write its info line: it returns
    without a request, without touching the caches and without a document,
    for accounts, opportunities, contacts and leads alike. *)
Theorem entity_types_not_queryable_are_skipped
  (fuel : nat) (listed : list string) (s : client_state) :
  _queryable_sobjects s = Some listed ->
  (Py.mem "account" listed = false ->
   get_accounts cfg world set_iter fuel s =
   (Ok tt, emit (EvLog Info "Object Account is not queryable, so they won't be ingested.") s)) /\
  (Py.mem "opportunity" listed = false ->
   get_opportunities cfg world set_iter fuel s =
   (Ok tt, emit (EvLog Info "ObjectOpportunity is not queryable, so they won't be ingested.") s)) /\
  (Py.mem "contact" listed = false ->
   get_contacts cfg world set_iter fuel s =
   (Ok tt, emit (EvLog Info "ObjectContact is not queryable, so they won't be ingested.") s)) /\
  (Py.mem "lead" listed = false ->
   get_leads cfg world set_iter fuel s =
   (Ok tt, emit (EvLog Info "Object Lead is not queryable, so they won't be ingested.") s)).
Proof.
  intros Hs. repeat split; intros Hm.
  - unfold get_accounts. unfold bind at 1.
    rewrite (is_queryable_cached "Account" listed s Hs).
    change (Py.lower "Account") with "account". now rewrite Hm.
  - unfold get_opportunities. unfold bind at 1.
    rewrite (is_queryable_cached "Opportunity" listed s Hs).
    change (Py.lower "Opportunity") with "opportunity". now rewrite Hm.
  - unfold get_contacts. unfold bind at 1.
    rewrite (is_queryable_cached "Contact" listed s Hs).
    change (Py.lower "Contact") with "contact". now rewrite Hm.
  - unfold get_leads. unfold bind at 1.
    rewrite (is_queryable_cached "Lead" listed s Hs).
    change (Py.lower "Lead") with "lead". now rewrite Hm.
Qed.

(** X18.  The data source asks for the token before anything else: when
    [get_token] fails, [get_docs] of the data source fails with the same
    exception, in the state [get_token] left, and not a single GET has been
    sent. *)
Theorem no_request_without_token
  (fuel : nat) (s s' : client_state) (e : exception) :
  get_token cfg world s = (Raise e, s') ->
  data_source_get_docs cfg world set_iter fuel s = (Raise e, s') /\
  gets s' = gets s.
Proof.
  intros H. split.
  - unfold data_source_get_docs, bind. now rewrite H.
  - pose proof (get_token_gets cfg world s) as Hg. now rewrite H in Hg.
Qed.

End OrchestratorFacts.

(** ** Building a cache table from the pages of its query *)

Section PrepareFacts.

Variable cfg : configuration.
Variable world : env.
Variable set_iter : list string -> list string.

(** The loop body of [_prepare_sobject_cache]. *)
Let cache_page (records : json) (sobjects : table) : M table :=
  bind (lift (py_iter records)) (fun items => lift (cache_records items sobjects)).

Lemma cache_records_app (a b : list json) (t : table) :
  cache_records (a ++ b) t = rbind (cache_records a t) (cache_records b).
Proof.
  revert t. induction a as [|r a IH]; intros t; cbn; [reflexivity|].
  destruct (py_getitem r "Id") as [id|e|]; cbn; try reflexivity.
  destruct (table_set t id r) as [t'|e|]; cbn; try reflexivity. apply IH.
Qed.

Lemma cache_page_list (batch : list json) (acc : table) (s : client_state) :
  cache_page (JArr batch) acc s = (cache_records batch acc, s).
Proof. reflexivity. Qed.

Lemma fold_cache_after_yield (tail : list page) :
  forall (p : page) (batches : list (list json)) (s0 s : client_state)
         (acc after : table) (fuel : nat),
    _token s = _token s0 ->
    ends_at_last p tail ->
    answered world (List.length (gets s)) (next_requests s0 p tail) tail ->
    (List.length tail + 1 <= fuel)%nat ->
    batches_are tail batches ->
    cache_records (concat batches) acc = Ok after ->
    exists s',
      fold_pages cfg world fuel (AfterYield (JObj p)) cache_page acc s = (Ok after, s') /\
      gets s' = (gets s ++ map EvGet (next_requests s0 p tail))%list.
Proof.
  induction tail as [|p' tail IH];
    intros p batches s0 s acc after fuel Htok Hend Hans Hfuel Hb Hc;
    (destruct fuel as [|k]; [cbn in Hfuel; lia|]);
    cbn [fold_pages next_page]; unfold bind at 1; unfold bind at 1, lift at 1;
    cbn [py_get]; cbn in Hend.
  - unfold page_done in Hend.
    assert (Hd : Py.is_True match Py.lookup "done" p with
                            | Some v => v | None => JBool true end = true)
      by (destruct (Py.lookup "done" p); assumption).
    rewrite Hd. inversion Hb; subst. cbn in Hc. injection Hc as <-.
    exists s. cbn. now rewrite app_nil_r.
  - destruct Hend as [Hnd Hend]. unfold page_done in Hnd.
    assert (Hd : Py.is_True match Py.lookup "done" p with
                            | Some v => v | None => JBool true end = false)
      by (destruct (Py.lookup "done" p); [assumption|discriminate]).
    rewrite Hd. cbn [next_requests answered] in Hans.
    destruct Hans as [(status & reason & Hst & Hx) Hans].
    inversion Hb as [|? batch ? batches' Hrec Hb']; subst.
    cbn [concat] in Hc. rewrite cache_records_app in Hc.
    destruct (cache_records batch acc) as [acc'|e|] eqn:Hacc; try discriminate Hc.
    cbn [rbind] in Hc.
    unfold bind at 1, lift at 1. cbn [py_get]. fold (page_next p).
    unfold fetch_page. unfold bind at 1.
    assert (Hreq : next_request s0 p = get_request s (page_next p) JNull)
      by (unfold next_request, get_request; now rewrite Htok).
    rewrite Hreq in Hx.
    rewrite (_get_json_success cfg world _ _ s status reason (JObj p') Hx Hst).
    unfold bind at 1, lift at 1. cbn [py_get]. fold (page_records p').
    unfold ret at 1. rewrite Hrec. unfold bind at 1.
    rewrite cache_page_list, Hacc.
    assert (Hg : gets (after_get s (page_next p) JNull) =
                 (gets s ++ [EvGet (next_request s0 p)])%list).
    { unfold after_get. rewrite !gets_emit. cbn [is_get].
      now rewrite app_nil_r, Hreq. }
    destruct (IH p' batches' s0 (after_get s (page_next p) JNull) acc' after k)
      as (s' & Hf & Hgs); try assumption.
    + rewrite Hg, length_app. cbn. now rewrite Nat.add_1_r.
    + cbn in Hfuel. lia.
    + exists s'. rewrite Hf. split; [reflexivity|].
      rewrite Hgs, Hg. cbn [next_requests map]. now rewrite <- app_assoc.
Qed.

(** X19.  For a queryable type whose query is answered by the pages
    [p :: tail] (only the last one done), each page holding a list of
    records, all records with different string identifiers:
    [_prepare_sobject_cache] returns a table in which every record of every
    page is found under its identifier, after one GET per page. *)
Theorem prepared_table_finds_every_record
  (fuel : nat) (sobject : string) (listed : list string) (s : client_state)
  (p : page) (tail : list page) (batches : list (list json)) (ids : list string) :
  _queryable_sobjects s = Some listed ->
  Py.mem (Py.lower sobject) listed = true ->
  ends_at_last p tail ->
  answered world (List.length (gets s))
    (first_request cfg s (cache_query set_iter sobject) :: next_requests s p tail)
    (p :: tail) ->
  (List.length tail + 2 <= fuel)%nat ->
  batches_are (p :: tail) batches ->
  ids_are (concat batches) ids ->
  NoDup ids ->
  exists t s',
    _prepare_sobject_cache cfg world set_iter fuel sobject s = (Ok t, s') /\
    (forall record id,
       In (record, id) (combine (concat batches) ids) ->
       table_find (JStr id) t = Some record) /\
    gets s' =
      (gets s ++ map EvGet (first_request cfg s (cache_query set_iter sobject)
                              :: next_requests s p tail))%list.
Proof.
  intros Hs Hm Hend [(status & reason & Hst & Hx) Hans] Hfuel Hb Hids Hnd.
  destruct (PureFacts.cache_records_found (concat batches) ids [] Hids Hnd)
    as (t & Hc & Hfound & _).
  inversion Hb as [|? batch ? batches' Hrec Hb']; subst.
  cbn [concat] in Hc. rewrite cache_records_app in Hc.
  destruct (cache_records batch []) as [acc'|e|] eqn:Hacc; try discriminate Hc.
  cbn [rbind] in Hc.
  destruct fuel as [|k]; [lia|].
  unfold _prepare_sobject_cache. unfold bind at 1.
  rewrite (is_queryable_cached cfg world sobject listed s Hs), Hm. cbn [negb].
  change (Builder.build set_iter _) with (cache_query set_iter sobject).
  unfold _yield_non_bulk_query_pages.
  cbn [fold_pages next_page]. unfold bind at 1. unfold fetch_page. unfold bind at 1.
  unfold first_request in Hx.
  rewrite (_get_json_success cfg world _ _ s status reason (JObj p) Hx Hst).
  unfold bind at 1, lift at 1. cbn [py_get]. fold (page_records p).
  unfold ret at 1. rewrite Hrec. unfold bind at 1.
  change (bind (lift (py_iter (JArr batch))) _ ?st)
    with (cache_page (JArr batch) [] st).
  rewrite cache_page_list, Hacc.
  set (s1 := after_get s _ _).
  assert (Hg : gets s1 =
            (gets s ++ [EvGet (first_request cfg s (cache_query set_iter sobject))])%list).
  { unfold s1, after_get. rewrite !gets_emit. cbn [is_get]. now rewrite app_nil_r. }
  destruct (fold_cache_after_yield tail p batches' s s1 acc' t k)
    as (s' & Hf & Hgs); try assumption.
  - reflexivity.
  - rewrite Hg, length_app. cbn. now rewrite Nat.add_1_r.
  - lia.
  - exists t, s'. split; [exact Hf|]. split; [exact Hfound|].
    rewrite Hgs, Hg. cbn [map]. now rewrite <- app_assoc.
Qed.

End PrepareFacts.

(** ** The field listing over a session *)

Section FieldsFacts.

Variable cfg : configuration.
Variable world : env.

(** The body of the loop over [RELEVANT_SOBJECTS]. *)
Let describe_body : string -> M unit :=
  fun sobject =>
    bind (_get_json cfg world
            (JStr (base_url cfg ++ Py.replace "<sobject>" sobject DESCRIBE_SOBJECT_ENDPOINT))
            JNull) (fun response =>
      bind (lift (py_get response "fields" (JArr []))) (fun listed =>
        bind (lift (py_iter listed)) (fun fields =>
          bind (lift (relevant_field_names fields)) (fun queryable_fields =>
            modify (put_queryable_sobject_fields sobject queryable_fields))))).





End FieldsFacts.

(** ** The further scenarios *)

Module MoreScenarioFacts.
Import Scenario MoreScenario DocMapper MapperDomain.

Lemma rate_limit_is_raised_at_once_witness :
  _get_json cfg rate_limited_world (JStr "U") JNull initial_state =
  (Raise (Exc RateLimitedException
     "Salesforce is rate limiting this account. status: 403, message: Forbidden, details: REQUEST_LIMIT_EXCEEDED"),
   after_get initial_state (JStr "U") JNull).
Proof.
  apply (rate_limit_is_raised_at_once cfg rate_limited_world (JStr "U") JNull
           initial_state 403 "Forbidden"
           [[ ("message", JStr "TotalRequests Limit exceeded.");
              ("errorCode", JStr "REQUEST_LIMIT_EXCEEDED") ]]
           ["REQUEST_LIMIT_EXCEEDED"]).
  - reflexivity.
  - lia.
  - discriminate.
  - repeat constructor.
  - now left.
Defined.

Lemma other_codes_raise_RequestError_and_are_retried_witness :
  _get_json_once cfg invalid_field_world (JStr "U") JNull initial_state =
    (Raise (Exc RequestError
       "The request to Salesforce failed. status: 400, message: Bad Request, details: INVALID_FIELD"),
     after_get initial_state (JStr "U") JNull) /\
  (2 <= List.length (gets (snd (_get_json cfg invalid_field_world (JStr "U") JNull
                                  initial_state))))%nat.
Proof.
  apply (other_codes_raise_RequestError_and_are_retried cfg invalid_field_world
           (JStr "U") JNull initial_state 400 "Bad Request"
           [[ ("message", JStr "No such column 'Foo' on entity 'Account'.");
              ("errorCode", JStr "INVALID_FIELD") ]]
           ["INVALID_FIELD"]).
  - reflexivity.
  - lia.
  - discriminate.
  - repeat constructor.
  - intros [H | []]. discriminate H.
Defined.

Lemma handler_classifies_without_effect_witness :
  exists e,
    _handle_client_response_error cfg rate_limited_world JNull 404 "Not Found"
      initial_state = (Raise e, initial_state) /\
    ~ has_class InvalidQueryException e.
Proof.
  apply (handler_classifies_without_effect cfg rate_limited_world JNull 404
           "Not Found" initial_state).
  discriminate.
Defined.

Lemma expired_token_is_refreshed_and_request_repeated_witness :
  exists s',
    _get_json cfg expired_token_world (JStr "U") JNull initial_state =
      (Ok one_record_page, s') /\
    _token s' = JStr "tok-1" /\ lock s' = false /\
    gets s' =
      [ EvGet (mkRequest (JStr "U") [("authorization", "Bearer None")] JNull);
        EvGet (mkRequest (JStr "U") [("authorization", "Bearer tok-1")] JNull) ] /\
    posts s' = [EvPost (token_request cfg)].
Proof.
  apply (expired_token_is_refreshed_and_request_repeated cfg expired_token_world
           (JStr "U") JNull initial_state "Unauthorized"
           (JArr [JObj [ ("message", JStr "Session expired or invalid");
                         ("errorCode", JStr "INVALID_SESSION_ID") ]])
           200 "OK" (JObj [("access_token", JStr "tok-1")]) (JStr "tok-1")
           200 "OK" one_record_page);
    try reflexivity; lia.
Defined.

Lemma cache_pass_is_memoized_witness :
  exists tables s',
    sobjects_cache_by_type cfg one_record_world set_order 3 initial_state =
      (Ok tables, s') /\
    sobjects_cache_by_type cfg one_record_world set_order 7 s' = (Ok tables, s').
Proof.
  eexists. eexists.
  assert (H : forall (A : Type) (x y : A) (P : Prop), x = y -> (x = y -> P) -> x = y /\ P)
    by (intros; split; auto).
  apply H.
  - vm_compute. reflexivity.
  - intros Hpass.
    exact (cache_pass_is_memoized cfg one_record_world set_order 3 7 _ _ _ Hpass).
Defined.


Lemma cache_records_finds_each_record_witness :
  let r1 := JObj [("Id", JStr "a1"); ("Name", JStr "Acme")] in
  let r2 := JObj [("Id", JStr "a2"); ("Name", JStr "Initech")] in
  exists after,
    cache_records [r1; r2] [] = Ok after /\
    (forall record id,
       In (record, id) [(r1, "a1"); (r2, "a2")] ->
       table_find (JStr id) after = Some record) /\
    (forall id,
       ~ In id ["a1"; "a2"] -> table_find (JStr id) after = table_find (JStr id) []).
Proof.
  cbv zeta.
  apply (PureFacts.cache_records_finds_each_record
           [ JObj [("Id", JStr "a1"); ("Name", JStr "Acme")];
             JObj [("Id", JStr "a2"); ("Name", JStr "Initech")] ]
           ["a1"; "a2"] []).
  - repeat constructor.
  - repeat constructor; cbn; intuition discriminate.
Defined.

Lemma queryable_sobjects_keeps_relevant_queryables_witness :
  exists s',
    queryable_sobjects cfg one_record_world initial_state =
      (Ok ["account"; "contact"; "lead"; "opportunity"; "user"], s') /\
    gets s' =
      [ EvGet (get_request initial_state
                 (JStr (base_url cfg ++ DESCRIBE_ENDPOINT)) JNull) ] /\
    forall sobject,
      _is_queryable cfg one_record_world sobject s' =
      (Ok (Py.mem (Py.lower sobject)
             ["account"; "contact"; "lead"; "opportunity"; "user"]), s').
Proof.
  apply (queryable_sobjects_keeps_relevant_queryables cfg one_record_world
           initial_state 200 "OK"
           [("sobjects", JArr (map JObj described_items))] described_items).
  - reflexivity.
  - reflexivity.
  - lia.
  - reflexivity.
  - repeat constructor; discriminate.
Defined.

Lemma format_address_joins_the_parts_witness :
  _format_address (JObj an_address) = Ok (JStr "1 Main St, 94105, US").
Proof.
  apply (PureFacts.format_address_joins_the_parts an_address);
    [discriminate | reflexivity..].
Defined.

Lemma documents_carry_provenance_witness :
  let base := "https://acme.my.salesforce.com" in
  (exists doc, map_account base (JObj jane) = Ok (JObj doc) /\
               provenance base "account" jane doc) /\
  (exists doc, map_opportunity base (JObj jane) = Ok (JObj doc) /\
               provenance base "opportunity" jane doc) /\
  (exists doc, map_contact base (JObj jane) = Ok (JObj doc) /\
               provenance base "contact" jane doc) /\
  (exists doc, map_lead base (JObj jane) = Ok (JObj doc) /\
               provenance base "lead" jane doc).
Proof.
  pose proof (MapperMore.documents_carry_provenance
                "https://acme.my.salesforce.com" jane) as (Ha & Ho & Hc & Hl).
  cbv zeta. split; [|split; [|split]].
  - apply Ha. reflexivity.
  - apply Ho. reflexivity.
  - apply Hc. reflexivity.
  - apply Hl. reflexivity.
Defined.

Lemma contact_is_enriched_from_the_cache_witness :
  let base := "https://acme.my.salesforce.com" in
  exists r1 r2 doc,
    resolve acme_cache (JObj jane) "Account" "Account" "AccountId" = Ok r1 /\
    resolve acme_cache r1 "Owner" "User" "OwnerId" = Ok r2 /\
    map_contact base r2 = Ok (JObj doc) /\
    Py.lookup "account" doc = Some (JStr "Acme") /\
    Py.lookup "owner" doc = Some (JStr "Bob") /\
    Py.lookup "account_url" doc = Some (JStr "https://acme.my.salesforce.com/a1") /\
    Py.lookup "owner_url" doc = Some (JStr "https://acme.my.salesforce.com/u1").
Proof.
  cbv zeta.
  apply (MapperMore.contact_is_enriched_from_the_cache
           "https://acme.my.salesforce.com" acme_cache
           [(JStr "a1", JObj [("Name", JStr "Acme")])]
           [(JStr "u1", JObj [("Name", JStr "Bob"); ("Email", JStr "bob@x.com")])]
           jane [("Name", JStr "Acme")]
           [("Name", JStr "Bob"); ("Email", JStr "bob@x.com")] "a1" "u1");
    try reflexivity; discriminate.
Defined.

Lemma no_request_without_token_witness :
  exists e s',
    data_source_get_docs cfg invalid_client_world set_order 3 initial_state =
      (Raise e, s') /\
    gets s' = gets initial_state.
Proof.
  eexists. eexists.
  eapply (no_request_without_token cfg invalid_client_world set_order 3 initial_state).
  reflexivity.
Defined.

Lemma relevant_field_names_are_relevant_witness :
  exists field, In field RELEVANT_SOBJECT_FIELDS /\ "email" = Py.lower field.
Proof.
  apply (PureFacts.relevant_field_names_are_relevant
           [ JObj [("name", JStr "Name")]; JObj [("name", JStr "Fax")];
             JObj [("name", JStr "Email")] ]
           ["name"; "email"]).
  - reflexivity.
  - right. now left.
Defined.

Lemma entity_types_not_queryable_are_skipped_witness :
  let s := set_queryable_sobjects (Some ["user"]) initial_state in
  get_accounts cfg one_record_world set_order 3 s =
    (Ok tt, emit (EvLog Info "Object Account is not queryable, so they won't be ingested.") s) /\
  get_opportunities cfg one_record_world set_order 3 s =
    (Ok tt, emit (EvLog Info "ObjectOpportunity is not queryable, so they won't be ingested.") s) /\
  get_contacts cfg one_record_world set_order 3 s =
    (Ok tt, emit (EvLog Info "ObjectContact is not queryable, so they won't be ingested.") s) /\
  get_leads cfg one_record_world set_order 3 s =
    (Ok tt, emit (EvLog Info "Object Lead is not queryable, so they won't be ingested.") s).
Proof.
  pose proof (entity_types_not_queryable_are_skipped cfg one_record_world set_order 3
                ["user"] (set_queryable_sobjects (Some ["user"]) initial_state)
                eq_refl) as (Ha & Ho & Hc & Hl).
  cbv zeta. split; [|split; [|split]].
  - apply Ha. reflexivity.
  - apply Ho. reflexivity.
  - apply Hc. reflexivity.
  - apply Hl. reflexivity.
Defined.

Lemma expired_token_during_a_refresh_is_only_cleared_witness :
  let s := set_token (JStr "tok-0") (set_lock true initial_state) in
  let s' := emit (EvLog Debug "Token generation is already in process.")
              (set_token JNull
                 (emit (EvLog Warning
                          "Token expired, attemping to fetch new token. Status: 401, message: Unauthorized")
                       s)) in
  _handle_client_response_error cfg unauthorized_world (JArr []) 401 "Unauthorized" s =
    (Raise (ClientResponseError 401 "Unauthorized"), s') /\
  _token s' = JNull /\ lock s' = true /\ posts s' = posts s /\ gets s' = gets s.
Proof.
  exact (expired_token_during_a_refresh_is_only_cleared cfg unauthorized_world
           (set_token (JStr "tok-0") (set_lock true initial_state))
           "Unauthorized" (JArr []) eq_refl).
Defined.

Lemma token_answer_without_access_token_witness :
  exists s',
    generate cfg no_access_token_world initial_state =
      (Raise (Exc KeyError "'access_token'"), s') /\
    _token s' = _token initial_state /\ lock s' = false /\
    (List.length (posts initial_state) + 2 <=
     List.length (posts (snd (get_token cfg no_access_token_world initial_state))))%nat.
Proof.
  apply (token_answer_without_access_token cfg no_access_token_world initial_state
           200 "OK" [("token_type", JStr "Bearer")]);
    try reflexivity; lia.
Defined.

Lemma prepared_table_finds_every_record_witness :
  let s := set_queryable_sobjects (Some ["contact"]) initial_state in
  exists t s',
    _prepare_sobject_cache cfg one_record_world set_order 3 "Contact" s = (Ok t, s') /\
    (forall record id,
       In (record, id) [(one_record, "x1")] -> table_find (JStr id) t = Some record) /\
    gets s' =
      (gets s ++ map EvGet [first_request cfg s (cache_query set_order "Contact")])%list.
Proof.
  cbv zeta.
  apply (prepared_table_finds_every_record cfg one_record_world set_order 3 "Contact"
           ["contact"] (set_queryable_sobjects (Some ["contact"]) initial_state)
           one_record_entries [] [[one_record]] ["x1"]).
  - reflexivity.
  - reflexivity.
  - reflexivity.
  - split; [exists 200%Z, "OK"; split; [lia | reflexivity] | exact I].
  - simpl. lia.
  - repeat constructor.
  - repeat constructor.
  - repeat constructor. intros [].
Defined.


(** Every GET is answered 400 [INVALID_FIELD]: three GETs, two delays,
    then [RequestError]. *)
Lemma invalid_query_codes_are_retried_witness :
  let url := JStr (base_url cfg ++ QUERY_ENDPOINT) in
  let params := JObj [("q", JStr "SELECT Foo FROM Account")] in
  let request := get_request initial_state url params in
  exists s3,
    _get_json cfg invalid_field_world url params initial_state =
      (Raise (Exc RequestError
         "The request to Salesforce failed. status: 400, message: Bad Request, details: INVALID_FIELD"),
       s3) /\
    gets s3 = [EvGet request; EvGet request; EvGet request] /\
    sleeps s3 = [EvSleep RETRY_INTERVAL; EvSleep RETRY_INTERVAL].
Proof.
  cbv zeta.
  apply (invalid_query_codes_are_retried cfg invalid_field_world
           (JStr (base_url cfg ++ QUERY_ENDPOINT))
           (JObj [("q", JStr "SELECT Foo FROM Account")]) initial_state
           400 "Bad Request"
           [[ ("message", JStr "No such column 'Foo' on entity 'Account'.");
              ("errorCode", JStr "INVALID_FIELD") ]]
           ["INVALID_FIELD"]).
  - reflexivity.
  - lia.
  - discriminate.
  - repeat constructor.
  - intros [H | []]. discriminate H.
  - exists "INVALID_FIELD". split; now left.
Defined.

End MoreScenarioFacts.
